(** * Veract chatbot: the conversation orchestration engine of [chatbot.py]

    A shallow embedding of the turn-processing graph of [src/chatbot.py]
    (session memory, intent understanding, validation, routing, the domain
    handlers, the confirmation executor and the turn engine), followed by
    the properties of the specification that are stated about it.

    Python values are dynamically typed: the data that flows through the
    graph (entities, records, pending actions, the content of the JSON
    files) is modelled by one type [value] of JSON-like values, and every
    operation that Python may reject at run time returns an [outcome]
    that is either a result or the exception raised.  Mutable state (the
    [SessionMemory] object and the files on disk) is threaded through a
    state-and-exception monad [M] in which the state survives an
    exception, as the heap does in Python.

    Strings are sequences of bytes (UTF-8): for well-formed texts the
    substring test on bytes agrees with Python's test on code points.
    What depends on Unicode tables, on the clock, on the external
    completion service or on floating-point arithmetic is a field of the
    environment [Env], over which every property is quantified. *)

From stdpp Require Import gmap strings list fin_maps.

#[local] Set Warnings "-register-all".
#[local] Open Scope string_scope.
#[local] Open Scope Z_scope.

(** ** JSON-like Python values *)

(** Numbers are modelled as integers: the fractional numbers of the data
    files (ratings) only occur in the read-only queries, whose arithmetic
    is kept abstract in [Env] below.  Floats, and so the value NaN that
    [json.loads] can yield, are outside the model: no property below
    relies on a law that a float would break.  Where a property needs
    that a value equals itself, which fails for NaN, this is a hypothesis
    of its own, and the total of a sale is judged by the test that the
    code applies and not by an order on numbers.  A [dict] is a finite map
    with string keys, as [json.loads] produces. *)
Inductive value :=
| VNone
| VBool (b : bool)
| VNum (n : Z)
| VStr (s : string)
| VList (l : list value)
| VDict (d : gmap string value).

(** The exceptions the modelled code can raise; all are subclasses of
    [Exception]. *)
Inductive exn := AttributeError | TypeError | KeyError | ValueError | RuntimeError.

Inductive outcome (A : Type) :=
| Ok (a : A)
| Raise (e : exn).
Arguments Ok {A} a.
Arguments Raise {A} e.

#[export] Instance outcome_ret : MRet outcome := fun A a => Ok a.
#[export] Instance outcome_bind : MBind outcome := fun A B f m =>
  match m with
  | Ok a => f a
  | Raise e => Raise e
  end.

(** [bool(v)]: Python truthiness. *)
Definition truthy (v : value) : bool :=
  match v with
  | VNone => false
  | VBool b => b
  | VNum n => negb (n =? 0)
  | VStr s => negb (String.eqb s "")
  | VList l => match l with [] => false | _ => true end
  | VDict d => negb (bool_decide (dom d = ∅))
  end.

(** [a == b] on JSON values: [bool] is a subtype of [int] ([True == 1]);
    lists compare elementwise and dicts key by key. *)
Fixpoint py_eq (a b : value) {struct a} : bool :=
  match a, b with
  | VNone, VNone => true
  | VBool x, VBool y => bool_decide (x = y)
  | VBool x, VNum n | VNum n, VBool x => bool_decide (Z.b2z x = n)
  | VNum n, VNum m => bool_decide (n = m)
  | VStr s, VStr t => bool_decide (s = t)
  | VList l, VList k =>
      (fix go (l k : list value) : bool :=
         match l, k with
         | [], [] => true
         | x :: l', y :: k' => py_eq x y && go l' k'
         | _, _ => false
         end) l k
  | VDict d, VDict e =>
      bool_decide (dom d = dom e) &&
      map_fold (fun k v acc =>
                  acc && match e !! k with Some w => py_eq v w | None => false end)
               true d
  | _, _ => false
  end.

(** [s.startswith(sub)]. *)
Fixpoint starts_with (sub s : string) : bool :=
  match sub with
  | EmptyString => true
  | String a sub' =>
      match s with
      | EmptyString => false
      | String b s' => Ascii.eqb a b && starts_with sub' s'
      end
  end.

(** [sub in s] on strings. *)
Fixpoint str_in (sub s : string) : bool :=
  starts_with sub s ||
  match s with
  | EmptyString => false
  | String _ s' => str_in sub s'
  end.

(** [any(word in s for word in words)]. *)
Definition any_word_in (words : list string) (s : string) : bool :=
  existsb (fun word => str_in word s) words.

(** [v in [s1, s2, ...]] for a list literal of strings. *)
Definition in_literals (v : value) (lits : list string) : bool :=
  existsb (fun s => py_eq v (VStr s)) lits.

(** [d.get(k, default)]; only a dict has the method. *)
Definition py_get_default (d : value) (k : string) (default : value) : outcome value :=
  match d with
  | VDict m => Ok (match m !! k with Some v => v | None => default end)
  | _ => Raise AttributeError
  end.

(** [d.get(k)]. *)
Definition py_get (d : value) (k : string) : outcome value :=
  py_get_default d k VNone.

(** [d[k]] for a string key. *)
Definition py_getitem (d : value) (k : string) : outcome value :=
  match d with
  | VDict m => match m !! k with Some v => Ok v | None => Raise KeyError end
  | _ => Raise TypeError
  end.

(** [d[k] = v]: item assignment with a string key, on a dict only. *)
Definition py_setitem (d : value) (k : string) (v : value) : outcome value :=
  match d with
  | VDict m => Ok (VDict (<[k := v]> m))
  | _ => Raise TypeError
  end.

(** [k in c] for a string [k]: key membership in a dict, element
    membership in a list, substring of a string. *)
Definition py_contains (k : string) (c : value) : outcome bool :=
  match c with
  | VDict m => Ok (bool_decide (is_Some (m !! k)))
  | VList l => Ok (existsb (fun x => py_eq (VStr k) x) l)
  | VStr s => Ok (str_in k s)
  | _ => Raise TypeError
  end.

(** The elements a [for] loop visits: a string yields its characters (here
    its bytes) and a dict its keys.  The code only iterates over what it
    expects to be a list of dicts, so all that matters of the other two
    cases is that their elements are strings. *)
Definition py_iter (v : value) : outcome (list value) :=
  match v with
  | VList l => Ok l
  | VStr s => Ok ((fun c => VStr (String c "")) <$> String.list_ascii_of_string s)
  | VDict m => Ok ((fun kv => VStr kv.1) <$> map_to_list m)
  | _ => Raise TypeError
  end.

(** [x + 1] as used by [+= 1]: defined on numbers (and on [bool], a
    subtype of [int]); every other operand type is rejected. *)
Definition py_add_one (v : value) : outcome value :=
  match v with
  | VNum n => Ok (VNum (n + 1))
  | VBool b => Ok (VNum (Z.b2z b + 1))
  | _ => Raise TypeError
  end.

(** [x <= 0]: numbers compare; [None], strings, lists and dicts do not
    compare with an [int]. *)
Definition py_le_zero (v : value) : outcome bool :=
  match v with
  | VNum n => Ok (n <=? 0)
  | VBool b => Ok (Z.b2z b <=? 0)
  | _ => Raise TypeError
  end.

(** [l[start:]]: a negative start counts from the end, and a start beyond
    either end is clamped. *)
Definition py_slice_from {A : Type} (start : Z) (l : list A) : list A :=
  let len := Z.of_nat (length l) in
  drop (Z.to_nat (if start <? 0 then Z.max (start + len) 0 else Z.min start len)) l.

(** ** The session memory, the outside world and the environment *)

(** [class SessionMemory]: the message log, the context dict and the list
    of pending actions. *)
Record SessionMemory := {
  messages : list value;
  context : gmap string value;
  pending_actions : list value
}.

(** A call to the external completion service: the classifier prompt of
    [extract_intent_and_entities] or the chat prompt of
    [general_agent_node]. *)
Inductive call :=
| ClassifierCall (user_input : string)
| GeneratorCall (user_input : string).

(** What the program reaches outside its own heap.  [files] maps a path to
    the parsed content of the JSON file stored there; a path that is
    absent stands for a file that is missing, empty or unparsable, which
    [load_json] cannot tell apart.  A path in [locked] cannot be opened
    for writing.  [clock] counts the readings of
    [datetime.now()] and [calls] logs the requests sent to the external
    service. *)
Record World := {
  files : gmap string value;
  locked : gset string;
  clock : nat;
  calls : list call
}.

Record Sys := {
  memory : SessionMemory;
  world : World
}.

(** The parts of the run-time environment that are left uninterpreted:
    library functions on text and time, the external service, the layout
    of response texts and the read-only queries over the stores that
    compute with ratings and amounts.  Every property below holds for all
    of them. *)
Record Env := {
  (** [str.lower] *)
  lower : string -> string;
  (** [datetime.isoformat] and [strftime('%Y%m%d%H%M%S')] of the n-th
      reading of the clock *)
  isoformat : nat -> string;
  strftime : nat -> string;
  (** [str(v)] as an f-string renders a value *)
  py_str : value -> string;
  (** [str(e)] of an exception *)
  exn_str : exn -> string;
  (** the external classifier: the parsed JSON object of the reply to the
      n-th request, or [None] when the call, the clean-up or [json.loads]
      raises *)
  classifier_reply : nat -> string -> gmap string value -> option value;
  (** the external text generator, [None] when the call raises *)
  generator_reply : nat -> string -> gmap string value -> option string;
  (** [json.dump(data, f, indent=2)] raises on this data once the file is
      open: an integer beyond the digit limit of the interpreter, nesting
      beyond its recursion limit *)
  json_dump_raises : value -> bool;
  (** [dict.update(other)] when [other] is not a dict (Python then reads it
      as a sequence of key/value pairs) *)
  dict_update_seq : gmap string value -> value -> outcome (gmap string value);
  (** [ProductTools.search_products(query, category, min_rating)] *)
  search_products : gmap string value -> value -> value -> value -> outcome (list value);
  (** [AnalyticsTools.recommend_products(category, "rating", limit)] *)
  recommend_products : gmap string value -> value -> value -> outcome (list value);
  (** [AnalyticsTools.get_sales_summary()] and [get_top_products(5)] *)
  get_sales_summary : gmap string value -> outcome value;
  get_top_products : gmap string value -> outcome value;
  (** the text of the analytics report built from both *)
  format_analytics : value -> value -> outcome string;
  (** the [_format_*] helpers *)
  _format_product_results : list value -> outcome string;
  _format_product_details : value -> outcome string;
  _format_sales_results : list value -> outcome string;
  _format_vendor_list : value -> outcome string;
  _format_vendor_details : value -> outcome string
}.

(** ** The state-and-exception monad *)

(** A computation reads and changes the system state and either returns or
    raises; the state reached when it raises is kept. *)
Definition M (A : Type) : Type := Sys -> outcome A * Sys.

#[export] Instance M_ret : MRet M := fun A a s => (Ok a, s).
#[export] Instance M_bind : MBind M := fun A B f m s =>
  match m s with
  | (Ok a, s') => f a s'
  | (Raise e, s') => (Raise e, s')
  end.

(** A pure operation that may raise. *)
Definition lift {A} (o : outcome A) : M A := fun s => (o, s).

(** [try: body except Exception as e: handler(e)]. *)
Definition try_except {A} (body : M A) (handler : exn -> M A) : M A := fun s =>
  match body s with
  | (Ok a, s') => (Ok a, s')
  | (Raise e, s') => handler e s'
  end.

Definition get_memory : M SessionMemory := fun s => (Ok (memory s), s).
Definition get_world : M World := fun s => (Ok (world s), s).
Definition put_memory (m : SessionMemory) : M unit := fun s =>
  (Ok tt, {| memory := m; world := world s |}).
Definition put_world (w : World) : M unit := fun s =>
  (Ok tt, {| memory := memory s; world := w |}).

(** [datetime.now()]: the reading is the current count, and the count
    advances. *)
Definition datetime_now : M nat := fun s =>
  let w := world s in
  (Ok (clock w),
   {| memory := memory s;
      world := {| files := files w; locked := locked w;
                  clock := S (clock w); calls := calls w |} |}).

(** ** Database utilities *)

Definition PRODUCTS_DB : string := "products.json".
Definition SALES_DB : string := "sales.json".
Definition VENDORS_DB : string := "vendors.json".

(** What [load_json] reads at a path: the parsed content of the file, or
    the empty database when the file is missing or cannot be parsed. *)
Definition loaded (filepath : string) (w : World) : value :=
  match files w !! filepath with
  | Some data => data
  | None => VDict {[ "products" := VList []; "sales" := VList [];
                     "vendors" := VList [] ]}
  end.

Definition load_json (filepath : string) : M value :=
  w ← get_world;
  mret (loaded filepath w).

(** [save_json].  When [open(filepath, 'w')] fails the file is left as it
    was and the result is [False].  Once the file is open it has been
    truncated: when [json.dump] then raises, what is left is empty or a
    proper prefix of a JSON text, which no later [load_json] can parse,
    and the result is [False] again; otherwise the file holds the data
    and the result is [True]. *)
Definition save_json (E : Env) (filepath : string) (data : value) : M bool :=
  w ← get_world;
  if bool_decide (filepath ∈ locked w) then mret false
  else if json_dump_raises E data then
    put_world {| files := delete filepath (files w); locked := locked w;
                 clock := clock w; calls := calls w |};;
    mret false
  else
    put_world {| files := <[filepath := data]> (files w); locked := locked w;
                 clock := clock w; calls := calls w |};;
    mret true.

(** [sep.join(words)]. *)
Fixpoint join (sep : string) (words : list string) : string :=
  match words with
  | [] => ""
  | [w] => w
  | w :: rest => w +:+ sep +:+ join sep rest
  end.

Definition valid_categories : list string :=
  ["Electronics"; "Grocery"; "Fashion"; "Home"; "Sports"].
Definition valid_statuses : list string :=
  ["PAID"; "PENDING"; "CANCELLED"].

(** The newline character of the response texts. *)
Definition nl : string := String (Ascii.ascii_of_nat 10) "".

(** [for error in errors: response += f"• {error}\n"]. *)
Fixpoint bullets (errors : list string) : string :=
  match errors with
  | [] => ""
  | error :: rest => "• " +:+ error +:+ nl +:+ bullets rest
  end.

(** The dict literal of [__init__] and [reset]. *)
Definition default_context (session_start : string) : gmap string value :=
  {[ "last_product" := VNone;
     "last_product_id" := VNone;
     "last_filters" := VDict ∅;
     "last_search_results" := VList [];
     "current_topic" := VNone;
     "user_preferences" :=
       VDict {[ "price_range" := VNone;
                "preferred_categories" := VList [];
                "preferred_brands" := VList [] ]};
     "session_start" := VStr session_start;
     "customer_id" := VNone;
     "last_sale" := VNone;
     "conversation_count" := VNum 0 ]}.

Definition fresh_memory (session_start : string) : SessionMemory :=
  {| messages := []; context := default_context session_start;
     pending_actions := [] |}.

(** ** A concrete environment

    An instance of [Env] on which the model can be run: ASCII lowering,
    a service that is unreachable (every request fails, so the classifier
    falls back to the keyword chain and the generator to its fixed text),
    and empty answers from the read-only queries. *)

Definition ascii_lower_char (c : Ascii.ascii) : Ascii.ascii :=
  let n := Ascii.nat_of_ascii c in
  if ((65 <=? n) && (n <=? 90))%nat then Ascii.ascii_of_nat (n + 32) else c.

Fixpoint ascii_lower (s : string) : string :=
  match s with
  | EmptyString => EmptyString
  | String c s' => String (ascii_lower_char c) (ascii_lower s')
  end.

Definition offline_env : Env :=
  {| lower := ascii_lower;
     isoformat := fun _ => "2025-01-01T00:00:00";
     strftime := fun _ => "20250101000000";
     py_str := fun v => match v with VStr s => s | _ => "?" end;
     exn_str := fun _ => "error";
     classifier_reply := fun _ _ _ => None;
     generator_reply := fun _ _ _ => None;
     json_dump_raises := fun _ => false;
     dict_update_seq := fun _ _ => Raise TypeError;
     search_products := fun _ _ _ _ => Ok [];
     recommend_products := fun _ _ _ => Ok [];
     get_sales_summary := fun _ => Ok (VDict ∅);
     get_top_products := fun _ => Ok (VList []);
     format_analytics := fun _ _ => Ok "";
     _format_product_results := fun _ => Ok "";
     _format_product_details := fun _ => Ok "";
     _format_sales_results := fun _ => Ok "";
     _format_vendor_list := fun _ => Ok "";
     _format_vendor_details := fun _ => Ok "" |}.

(** A world with no file on disk, in which every path can be opened for
    writing. *)
Definition empty_world : World :=
  {| files := ∅; locked := ∅; clock := 0; calls := [] |}.

(** A product record that passes validation, the pending action that
    stages it, entities that lack the product name, and two sessions over
    the empty world: a new one and one with the record staged. *)
Definition widget : value :=
  VDict {[ "id" := VStr "p9"; "name" := VStr "Widget"; "category" := VStr "Home";
           "brand" := VNone; "description" := VStr ""; "rating" := VNum 0;
           "company_id" := VStr "comp_001"; "variants" := VList [] ]}.

Definition staged_widget : value :=
  VDict {[ "action" := VStr "create_product"; "data" := widget ]}.

Definition nameless_entities : value :=
  VDict {[ "product_id" := VStr "p9"; "category" := VStr "Home" ]}.

Definition new_session : Sys :=
  {| memory := fresh_memory "2025-01-01T00:00:00"; world := empty_world |}.

(** The staged session on a disk where the products file cannot be
    opened for writing. *)
Definition locked_session : Sys :=
  {| memory := {| messages := [];
                  context := default_context "2025-01-01T00:00:00";
                  pending_actions := [staged_widget] |};
     world := {| files := ∅; locked := {[ "products.json" ]}; clock := 0;
                 calls := [] |} |}.

Definition staged_session : Sys :=
  {| memory := {| messages := [];
                  context := default_context "2025-01-01T00:00:00";
                  pending_actions := [staged_widget] |};
     world := empty_world |}.

(** More concrete data: a session with two logged messages, a sale record
    that passes validation, the sale record the sales handler builds from
    the sale entities at the first reading of the clock, a vendor, and a
    session over a disk whose three stores hold one record each. *)
Definition chatted_session : Sys :=
  {| memory :=
       {| messages :=
            [VDict {[ "role" := VStr "user"; "content" := VStr "hello";
                      "timestamp" := VStr "2025-01-01T00:00:00" ]};
             VDict {[ "role" := VStr "assistant"; "content" := VStr "hi";
                      "timestamp" := VStr "2025-01-01T00:00:00" ]}];
          context := <["conversation_count" := VNum 2]>
                       (default_context "2025-01-01T00:00:00");
          pending_actions := [] |};
     world := empty_world |}.

Definition paid_sale : value :=
  VDict {[ "id" := VStr "s1"; "customer_id" := VStr "c1"; "total" := VNum 100;
           "discount" := VNum 0; "payment_status" := VStr "PAID";
           "company_id" := VStr "comp_001"; "items" := VList [] ]}.

Definition sale_entities : gmap string value :=
  {[ "customer_id" := VStr "c1"; "total" := VNum 100 ]}.

Definition requested_sale : value :=
  VDict {[ "id" := VStr "sale_20250101000000"; "customer_id" := VStr "c1";
           "total" := VNum 100; "discount" := VNum 0;
           "payment_status" := VStr "PENDING";
           "company_id" := VStr "comp_001"; "items" := VList [] ]}.

Definition acme : value :=
  VDict {[ "id" := VStr "v1"; "name" := VStr "Acme Ltd" ]}.

Definition stocked_session : Sys :=
  {| memory := fresh_memory "2025-01-01T00:00:00";
     world :=
       {| files :=
            {[ "products.json" := VDict {[ "products" := VList [widget] ]};
               "sales.json" := VDict {[ "sales" := VList [paid_sale] ]};
               "vendors.json" := VDict {[ "vendors" := VList [acme] ]} ]};
          locked := ∅; clock := 0; calls := [] |} |}.

(** The entities of a request for the widget, the classifier reply that
    carries them, and an environment whose classifier always gives that
    reply. *)
Definition widget_entities : gmap string value :=
  {[ "product_id" := VStr "p9"; "product_name" := VStr "Widget";
     "category" := VStr "Home" ]}.

Definition widget_reply : gmap string value :=
  {[ "intent" := VStr "create_product"; "entities" := VDict widget_entities ]}.

Definition assisted_env : Env :=
  {| lower := ascii_lower;
     isoformat := fun _ => "2025-01-01T00:00:00";
     strftime := fun _ => "20250101000000";
     py_str := fun v => match v with VStr s => s | _ => "?" end;
     exn_str := fun _ => "error";
     classifier_reply := fun _ _ _ => Some (VDict widget_reply);
     generator_reply := fun _ _ _ => None;
     json_dump_raises := fun _ => false;
     dict_update_seq := fun _ _ => Raise TypeError;
     search_products := fun _ _ _ _ => Ok [];
     recommend_products := fun _ _ _ => Ok [];
     get_sales_summary := fun _ => Ok (VDict ∅);
     get_top_products := fun _ => Ok (VList []);
     format_analytics := fun _ _ => Ok "";
     _format_product_results := fun _ => Ok "";
     _format_product_details := fun _ => Ok "";
     _format_sales_results := fun _ => Ok "";
     _format_vendor_list := fun _ => Ok "";
     _format_vendor_details := fun _ => Ok "" |}.

(** A second product, and an environment in which [json.dump] raises on
    whatever it is given. *)
Definition gadget : value :=
  VDict {[ "id" := VStr "p10"; "name" := VStr "Gadget"; "category" := VStr "Home";
           "brand" := VNone; "description" := VStr ""; "rating" := VNum 0;
           "company_id" := VStr "comp_001"; "variants" := VList [] ]}.

Definition brittle_env : Env :=
  {| lower := ascii_lower;
     isoformat := fun _ => "2025-01-01T00:00:00";
     strftime := fun _ => "20250101000000";
     py_str := fun v => match v with VStr s => s | _ => "?" end;
     exn_str := fun _ => "error";
     classifier_reply := fun _ _ _ => None;
     generator_reply := fun _ _ _ => None;
     json_dump_raises := fun _ => true;
     dict_update_seq := fun _ _ => Raise TypeError;
     search_products := fun _ _ _ _ => Ok [];
     recommend_products := fun _ _ _ => Ok [];
     get_sales_summary := fun _ => Ok (VDict ∅);
     get_top_products := fun _ => Ok (VList []);
     format_analytics := fun _ _ => Ok "";
     _format_product_results := fun _ => Ok "";
     _format_product_details := fun _ => Ok "";
     _format_sales_results := fun _ => Ok "";
     _format_vendor_list := fun _ => Ok "";
     _format_vendor_details := fun _ => Ok "" |}.

Section Engine.

Variable E : Env.

(** ** [class SessionMemory] *)

(** [SessionMemory()]: the constructor reads the clock once. *)
Definition SessionMemory_init (w : World) : Sys :=
  {| memory := fresh_memory (isoformat E (clock w));
     world := {| files := files w; locked := locked w;
                 clock := S (clock w); calls := calls w |} |}.

Definition add_message (role content : string) : M unit :=
  t ← datetime_now;
  m ← get_memory;
  put_memory {| messages := messages m ++
                  [VDict {[ "role" := VStr role; "content" := VStr content;
                            "timestamp" := VStr (isoformat E t) ]}];
                context := context m;
                pending_actions := pending_actions m |};;
  m ← get_memory;
  count ← lift (match context m !! "conversation_count" with
                | Some c => Ok c
                | None => Raise KeyError
                end);
  count' ← lift (py_add_one count);
  put_memory {| messages := messages m;
                context := <["conversation_count" := count']> (context m);
                pending_actions := pending_actions m |}.

Definition update_context (key : string) (v : value) : M unit :=
  m ← get_memory;
  put_memory {| messages := messages m;
                context := <[key := v]> (context m);
                pending_actions := pending_actions m |}.

Definition update_user_preferences (preference_type : string) (v : value) : M unit :=
  m ← get_memory;
  prefs ← lift (match context m !! "user_preferences" with
                | Some p => Ok p
                | None => Raise KeyError
                end);
  known ← lift (py_contains preference_type prefs);
  if known : bool then
    prefs' ← lift (py_setitem prefs preference_type v);
    put_memory {| messages := messages m;
                  context := <["user_preferences" := prefs']> (context m);
                  pending_actions := pending_actions m |}
  else mret tt.

Definition add_pending_action (action : value) : M unit :=
  m ← get_memory;
  put_memory {| messages := messages m; context := context m;
                pending_actions := pending_actions m ++ [action] |}.

(** [self.pending_actions[-1] if self.pending_actions else None]. *)
Definition get_pending_action : M value :=
  m ← get_memory;
  mret (match last (pending_actions m) with
        | Some action => action
        | None => VNone
        end).

Definition clear_pending_actions : M unit :=
  m ← get_memory;
  put_memory {| messages := messages m; context := context m;
                pending_actions := [] |}.

Definition reset : M unit :=
  t ← datetime_now;
  put_memory (fresh_memory (isoformat E t)).

(** [self.messages[-n:]]. *)
Definition get_recent_messages (n : Z) : M (list value) :=
  m ← get_memory;
  mret (py_slice_from (- n) (messages m)).

(** ** [class ProductTools] *)

(** [get_product_by_id]: the first record whose id equals [product_id],
    or the empty dict. *)
Fixpoint first_with_id (records : list value) (id : value) : outcome value :=
  match records with
  | [] => Ok (VDict ∅)
  | r :: rest =>
      rid ← py_get r "id";
      if py_eq rid id then Ok r else first_with_id rest id
  end.

Definition get_product_by_id (product_id : value) : M value :=
  db ← load_json PRODUCTS_DB;
  products ← lift (py_get_default db "products" (VList []));
  records ← lift (py_iter products);
  lift (first_with_id records product_id).

Definition validate_product_data (product_data : value) : outcome (bool * list string) :=
  id ← py_get product_data "id";
  name ← py_get product_data "name";
  category ← py_get product_data "category";
  let errors :=
    ((if truthy id then [] else ["Product ID is required"]) ++
     (if truthy name then [] else ["Product name is required"]) ++
     (if truthy category then [] else ["Category is required"]) ++
     (if in_literals category valid_categories then []
      else ["Category must be one of: " +:+ join ", " valid_categories]))%list in
  Ok (bool_decide (length errors = 0%nat), errors).

(** [any(p.get("id") == id for p in records)], evaluated lazily. *)
Fixpoint any_with_id (records : list value) (id : value) : outcome bool :=
  match records with
  | [] => Ok false
  | p :: rest =>
      pid ← py_get p "id";
      if py_eq pid id then Ok true else any_with_id rest id
  end.

(** [db.setdefault(key, []).append(record)]. *)
Definition setdefault_append (db : value) (key : string) (record : value) : outcome value :=
  match db with
  | VDict m =>
      match m !! key with
      | None => Ok (VDict (<[key := VList [record]]> m))
      | Some (VList l) => Ok (VDict (<[key := VList (l ++ [record])]> m))
      | Some _ => Raise AttributeError
      end
  | _ => Raise AttributeError
  end.

Definition create_product (product_data : value) : M (bool * string * list string) :=
  '(is_valid, errors) ← lift (validate_product_data product_data);
  if negb is_valid then mret (false, "Validation failed", errors)
  else
    db ← load_json PRODUCTS_DB;
    products ← lift (py_get_default db "products" (VList []));
    records ← lift (py_iter products);
    id ← lift (py_get product_data "id");
    duplicate ← lift (any_with_id records id);
    if duplicate : bool then mret (false, "Product ID already exists", ["Duplicate ID"])
    else
      db' ← lift (setdefault_append db "products" product_data);
      success ← save_json E PRODUCTS_DB db';
      mret (success,
            if success : bool then "Product created successfully" else "Failed to save",
            []).

(** [product.update(updates)]. *)
Definition py_dict_update (record updates : value) : outcome value :=
  match record with
  | VDict r =>
      match updates with
      | VDict u => Ok (VDict (u ∪ r))
      | other => r' ← dict_update_seq E r other; Ok (VDict r')
      end
  | _ => Raise AttributeError
  end.

(** The loop of [update_product] and [update_sale]: the first record with
    the given id is updated in place; [None] when no record has it. *)
Fixpoint update_first (records : list value) (id updates : value)
  : outcome (option (list value)) :=
  match records with
  | [] => Ok None
  | r :: rest =>
      rid ← py_get r "id";
      if py_eq rid id then
        r' ← py_dict_update r updates;
        Ok (Some (r' :: rest))
      else
        found ← update_first rest id updates;
        Ok (match found with
            | Some rest' => Some (r :: rest')
            | None => None
            end)
  end.

Definition update_product (product_id updates : value) : M (bool * string) :=
  db ← load_json PRODUCTS_DB;
  products ← lift (py_get_default db "products" (VList []));
  records ← lift (py_iter products);
  found ← lift (update_first records product_id updates);
  match found with
  | Some records' =>
      db' ← lift (py_setitem db "products" (VList records'));
      success ← save_json E PRODUCTS_DB db';
      mret (success,
            if success : bool then "Product updated successfully" else "Failed to update")
  | None => mret (false, "Product not found")
  end.

(** The comprehension of [list_products_by_category]. *)
Fixpoint with_category (category : value) (records : list value)
  : outcome (list value) :=
  match records with
  | [] => Ok []
  | p :: rest =>
      c ← py_get p "category";
      results ← with_category category rest;
      Ok (if py_eq c category then p :: results else results)
  end.

Definition list_products_by_category (category : value) : M (list value) :=
  if negb (in_literals category valid_categories) then mret []
  else
    db ← load_json PRODUCTS_DB;
    products ← lift (py_get_default db "products" (VList []));
    records ← lift (py_iter products);
    lift (with_category category records).

(** ** [class SalesTools] *)

(** The filter of [search_sales]; [continue] is [Ok false]. *)
Definition sale_matches (customer_id status sale : value) : outcome bool :=
  skip ← (if truthy customer_id then
            c ← py_get sale "customer_id"; Ok (negb (py_eq c customer_id))
          else Ok false);
  if skip : bool then Ok false
  else
    skip ← (if truthy status then
              s ← py_get sale "payment_status"; Ok (negb (py_eq s status))
            else Ok false);
    Ok (negb skip).

Fixpoint filter_sales (customer_id status : value) (sales : list value)
  : outcome (list value) :=
  match sales with
  | [] => Ok []
  | sale :: rest =>
      keep ← sale_matches customer_id status sale;
      results ← filter_sales customer_id status rest;
      Ok (if keep : bool then sale :: results else results)
  end.

Definition search_sales (customer_id status : value) : M (list value) :=
  db ← load_json SALES_DB;
  sales ← lift (py_get_default db "sales" (VList []));
  records ← lift (py_iter sales);
  lift (filter_sales customer_id status records).

Definition validate_sale_data (sale_data : value) : outcome (bool * list string) :=
  id ← py_get sale_data "id";
  customer_id ← py_get sale_data "customer_id";
  total ← py_get sale_data "total";
  bad_total ← (if negb (truthy total) then Ok true else py_le_zero total);
  payment_status ← py_get sale_data "payment_status";
  let errors :=
    ((if truthy id then [] else ["Sale ID is required"]) ++
     (if truthy customer_id then [] else ["Customer ID is required"]) ++
     (if bad_total : bool then ["Total amount must be greater than 0"] else []) ++
     (if in_literals payment_status valid_statuses then []
      else ["Payment status must be one of: " +:+ join ", " valid_statuses]))%list in
  Ok (bool_decide (length errors = 0%nat), errors).

(** [create_sale] stamps the record with [created_at] before appending it.
    The record is the dict object held by the pending action; nothing reads
    that alias afterwards except a later [create_sale], which overwrites the
    stamp, so the alias is not tracked. *)
Definition create_sale (sale_data : value) : M (bool * string * list string) :=
  '(is_valid, errors) ← lift (validate_sale_data sale_data);
  if negb is_valid then mret (false, "Validation failed", errors)
  else
    db ← load_json SALES_DB;
    t ← datetime_now;
    sale_data' ← lift (py_setitem sale_data "created_at" (VStr (isoformat E t)));
    db' ← lift (setdefault_append db "sales" sale_data');
    success ← save_json E SALES_DB db';
    mret (success,
          if success : bool then "Sale created successfully" else "Failed to save",
          []).

Definition update_sale (sale_id updates : value) : M (bool * string) :=
  db ← load_json SALES_DB;
  sales ← lift (py_get_default db "sales" (VList []));
  records ← lift (py_iter sales);
  found ← lift (update_first records sale_id updates);
  match found with
  | Some records' =>
      db' ← lift (py_setitem db "sales" (VList records'));
      success ← save_json E SALES_DB db';
      mret (success,
            if success : bool then "Sale updated successfully" else "Failed to update")
  | None => mret (false, "Sale not found")
  end.

Definition get_sale_by_id (sale_id : value) : M value :=
  db ← load_json SALES_DB;
  sales ← lift (py_get_default db "sales" (VList []));
  records ← lift (py_iter sales);
  lift (first_with_id records sale_id).

(** ** [class VendorTools] *)

Definition list_vendors : M value :=
  db ← load_json VENDORS_DB;
  lift (py_get_default db "vendors" (VList [])).

Definition get_vendor_by_id (vendor_id : value) : M value :=
  db ← load_json VENDORS_DB;
  vendors ← lift (py_get_default db "vendors" (VList []));
  records ← lift (py_iter vendors);
  lift (first_with_id records vendor_id).

(** [v.lower()]; only a string has the method. *)
Definition py_lower (v : value) : outcome string :=
  match v with
  | VStr s => Ok (lower E s)
  | _ => Raise AttributeError
  end.

(** The comprehension of [search_vendors]. *)
Fixpoint vendors_named (query_lower : string) (vendors : list value)
  : outcome (list value) :=
  match vendors with
  | [] => Ok []
  | v :: rest =>
      name ← py_get_default v "name" (VStr "");
      name_lower ← py_lower name;
      results ← vendors_named query_lower rest;
      Ok (if str_in query_lower name_lower then v :: results else results)
  end.

Definition search_vendors (query : value) : M (list value) :=
  db ← load_json VENDORS_DB;
  query_lower ← lift (py_lower query);
  vendors ← lift (py_get_default db "vendors" (VList []));
  records ← lift (py_iter vendors);
  lift (vendors_named query_lower records).

(** ** [class NaturalLanguageUnderstanding] *)

(** The keyword chain of [_fallback_intent_detection]. *)
Definition fallback_intent (user_input : string) : string :=
  let user_lower := lower E user_input in
  if any_word_in ["search"; "find"; "show"; "look"; "product"] user_lower then
    "search_product"
  else if any_word_in ["sale"; "order"; "purchase"; "transaction"] user_lower then
    "search_sales"
  else if any_word_in ["recommend"; "suggest"; "best"; "top"] user_lower then
    "get_recommendations"
  else if any_word_in ["analytics"; "report"; "summary"; "stats"] user_lower then
    "get_analytics"
  else if any_word_in ["vendor"; "supplier"] user_lower then
    "vendor_query"
  else if any_word_in ["create"; "add"] user_lower then
    if str_in "product" user_lower then "create_product"
    else if str_in "sale" user_lower then "create_sale"
    else "general_chat"
  else "general_chat".

Definition _fallback_intent_detection (user_input : string) : value :=
  VDict {[ "intent" := VStr (fallback_intent user_input);
           "entities" := VDict ∅;
           "requires_clarification" := VBool false;
           "clarification_needed" := VList [] ]}.

(** [extract_intent_and_entities]: one request to the external classifier
    with the text and the serialized context; any failure falls back to
    the keyword chain. *)
Definition extract_intent_and_entities (user_input : string) : M value :=
  m ← get_memory;
  w ← get_world;
  put_world {| files := files w; locked := locked w; clock := clock w;
               calls := calls w ++ [ClassifierCall user_input] |};;
  match classifier_reply E (length (calls w)) user_input (context m) with
  | Some result => mret result
  | None => mret (_fallback_intent_detection user_input)
  end.

(** ** The graph state *)

(** [ConversationState], with the keys the nodes read or write.  The keys
    [conversation_history], [context] and [tool_calls] are set when a turn
    starts and never read. *)
Record ConversationState := {
  user_input : string;
  agent_response : string;
  intent : value;
  entities : value;
  pending_confirmation : value;
  validation_errors : list string;
  requires_followup : value
}.

Definition set_agent_response (state : ConversationState) (response : string)
  : ConversationState :=
  {| user_input := user_input state; agent_response := response;
     intent := intent state; entities := entities state;
     pending_confirmation := pending_confirmation state;
     validation_errors := validation_errors state;
     requires_followup := requires_followup state |}.

Definition set_intent (state : ConversationState) (i : value) : ConversationState :=
  {| user_input := user_input state; agent_response := agent_response state;
     intent := i; entities := entities state;
     pending_confirmation := pending_confirmation state;
     validation_errors := validation_errors state;
     requires_followup := requires_followup state |}.

Definition set_entities (state : ConversationState) (e : value) : ConversationState :=
  {| user_input := user_input state; agent_response := agent_response state;
     intent := intent state; entities := e;
     pending_confirmation := pending_confirmation state;
     validation_errors := validation_errors state;
     requires_followup := requires_followup state |}.

Definition set_pending_confirmation (state : ConversationState) (p : value)
  : ConversationState :=
  {| user_input := user_input state; agent_response := agent_response state;
     intent := intent state; entities := entities state;
     pending_confirmation := p;
     validation_errors := validation_errors state;
     requires_followup := requires_followup state |}.

Definition set_validation_errors (state : ConversationState) (errors : list string)
  : ConversationState :=
  {| user_input := user_input state; agent_response := agent_response state;
     intent := intent state; entities := entities state;
     pending_confirmation := pending_confirmation state;
     validation_errors := errors;
     requires_followup := requires_followup state |}.

Definition set_requires_followup (state : ConversationState) (f : value)
  : ConversationState :=
  {| user_input := user_input state; agent_response := agent_response state;
     intent := intent state; entities := entities state;
     pending_confirmation := pending_confirmation state;
     validation_errors := validation_errors state;
     requires_followup := f |}.

(** ** [class ChatbotNodes] *)

Definition confirmation_words : list string :=
  ["yes"; "confirm"; "ok"; "proceed"; "sure"].
Definition cancellation_words : list string :=
  ["no"; "cancel"; "abort"].

(** The first [if] of [understand_input]: the pending action when the text
    has a confirmation keyword and an action is pending. *)
Definition confirmed_action (text : string) : M (option value) :=
  if any_word_in confirmation_words (lower E text) then
    pending ← get_pending_action;
    mret (if truthy pending then Some pending else None)
  else mret None.

Definition understand_input (state : ConversationState) : M ConversationState :=
  let text := user_input state in
  confirmed ← confirmed_action text;
  match confirmed with
  | Some pending =>
      mret (set_entities (set_intent state (VStr "confirm_action")) pending)
  | None =>
      if any_word_in cancellation_words (lower E text) then
        mret (set_intent state (VStr "cancel_action"))
      else
        nlu_result ← extract_intent_and_entities text;
        i ← lift (py_get_default nlu_result "intent" (VStr "general_chat"));
        e ← lift (py_get_default nlu_result "entities" (VDict ∅));
        f ← lift (py_get_default nlu_result "requires_clarification" (VBool false));
        mret (set_requires_followup (set_entities (set_intent state i) e) f)
  end.

(** One check of [validate_input]: [key in entities and entities[key]],
    then membership of the value in the enumeration. *)
Definition check_enumerated (entities : value) (key : string)
    (allowed : list string) (message : string) : outcome (list string) :=
  present ← py_contains key entities;
  if present : bool then
    v ← py_getitem entities key;
    if truthy v then
      Ok (if in_literals v allowed then [] else [message])
    else Ok []
  else Ok [].

Definition validate_input (state : ConversationState) : M ConversationState :=
  let entities := entities state in
  category_errors ← lift (check_enumerated entities "category" valid_categories
    ("Invalid category. Choose from: " +:+ join ", " valid_categories));
  status_errors ← lift (check_enumerated entities "status" valid_statuses
    ("Invalid status. Choose from: " +:+ join ", " valid_statuses));
  mret (set_validation_errors state (category_errors ++ status_errors)%list).

Definition route_to_agent (state : ConversationState) : string :=
  let intent := intent state in
  match validation_errors state with
  | _ :: _ => "handle_validation_errors"
  | [] =>
      if in_literals intent ["search_product"; "get_product_details";
                             "create_product"; "update_product"] then "product_agent"
      else if in_literals intent ["search_sales"; "create_sale"; "update_sale"] then
        "sales_agent"
      else if in_literals intent ["get_analytics"; "get_recommendations"] then
        "analytics_agent"
      else if in_literals intent ["vendor_query"] then "vendor_agent"
      else if in_literals intent ["confirm_action"] then "execute_confirmation"
      else if in_literals intent ["cancel_action"] then "handle_cancellation"
      else "general_agent"
  end.

(** The dict literal [product_data] of the [create_product] branch. *)
Definition product_candidate (entities : value) : outcome value :=
  id ← py_get entities "product_id";
  name ← py_get entities "product_name";
  category ← py_get entities "category";
  brand ← py_get entities "brand";
  description ← py_get_default entities "description" (VStr "");
  rating ← py_get_default entities "rating_min" (VNum 0);
  Ok (VDict {[ "id" := id; "name" := name; "category" := category;
               "brand" := brand; "description" := description;
               "rating" := rating; "company_id" := VStr "comp_001";
               "variants" := VList [] ]}).

(** The dict literal [sale_data] of the [create_sale] branch; [t] is the
    reading of the clock that the default id is built from. *)
Definition sale_candidate (entities : value) (t : nat) : outcome value :=
  id ← py_get_default entities "sale_id" (VStr ("sale_" +:+ strftime E t));
  customer_id ← py_get entities "customer_id";
  total ← py_get_default entities "total" (VNum 0);
  discount ← py_get_default entities "discount" (VNum 0);
  payment_status ← py_get_default entities "status" (VStr "PENDING");
  Ok (VDict {[ "id" := id; "customer_id" := customer_id; "total" := total;
               "discount" := discount; "payment_status" := payment_status;
               "company_id" := VStr "comp_001"; "items" := VList [] ]}).

Definition product_agent_node (state : ConversationState) : M ConversationState :=
  let intent := intent state in
  let entities := entities state in
  if py_eq intent (VStr "search_product") then
    query ← lift (py_get_default entities "product_name" (VStr ""));
    category ← lift (py_get entities "category");
    min_rating ← lift (py_get entities "rating_min");
    w ← get_world;
    results ← lift (search_products E (files w) query category min_rating);
    update_context "last_search_results" (VList results);;
    update_context "last_filters" entities;;
    response ← (if truthy (VList results) then lift (_format_product_results E results)
                else mret ("I couldn't find any products matching your search. " +:+
                           "Could you try different keywords or specify a category?"));
    mret (set_agent_response state response)
  else if py_eq intent (VStr "get_product_details") then
    product_id ← lift (py_get entities "product_id");
    product_id ← (if negb (truthy product_id) then
                    m ← get_memory;
                    mret (default VNone (context m !! "last_product_id"))
                  else mret product_id);
    response ← (if truthy product_id then
                  product ← get_product_by_id product_id;
                  if truthy product then lift (_format_product_details E product)
                  else mret ("I couldn't find a product with ID '" +:+
                             py_str E product_id +:+
                             "'. Please check the ID and try again.")
                else mret ("Could you please provide the product ID? " +:+
                           "You can say something like 'show details for prod_001'."));
    mret (set_agent_response state response)
  else if py_eq intent (VStr "create_product") then
    product_data ← lift (product_candidate entities);
    '(is_valid, errors) ← lift (validate_product_data product_data);
    if negb is_valid then
      mret (set_agent_response state
              ("I need some more information to create this product:" +:+ nl +:+
               bullets errors +:+
               nl +:+ "Please provide the missing details."))
    else
      add_pending_action
        (VDict {[ "action" := VStr "create_product"; "data" := product_data ]});;
      id ← lift (py_getitem product_data "id");
      name ← lift (py_getitem product_data "name");
      category ← lift (py_getitem product_data "category");
      brand ← lift (py_get_default product_data "brand" (VStr "N/A"));
      mret (set_pending_confirmation
              (set_agent_response state
                 ("I'm ready to create a new product with these details:" +:+ nl +:+ nl +:+
                  "• Product ID: " +:+ py_str E id +:+ nl +:+
                  "• Name: " +:+ py_str E name +:+ nl +:+
                  "• Category: " +:+ py_str E category +:+ nl +:+
                  "• Brand: " +:+ py_str E brand +:+ nl +:+ nl +:+
                  "Would you like me to proceed with creating this product? (Yes/No)"))
              product_data)
  else if py_eq intent (VStr "get_recommendations") then
    category ← lift (py_get entities "category");
    limit ← lift (py_get_default entities "limit" (VNum 5));
    w ← get_world;
    recommendations ← lift (recommend_products E (files w) category limit);
    response ← (if truthy (VList recommendations) then
                  listing ← lift (_format_product_results E recommendations);
                  mret ("Here are my top recommendations" +:+
                        (if truthy category then " for " +:+ py_str E category else "") +:+
                        ":" +:+ nl +:+ nl +:+ listing)
                else mret "I don't have enough data to make recommendations right now.");
    mret (set_agent_response state response)
  else mret state.

Definition sales_agent_node (state : ConversationState) : M ConversationState :=
  let intent := intent state in
  let entities := entities state in
  if py_eq intent (VStr "search_sales") then
    customer_id ← lift (py_get entities "customer_id");
    status ← lift (py_get entities "status");
    results ← search_sales customer_id status;
    update_context "last_sale" (match results with r :: _ => r | [] => VNone end);;
    response ← (if truthy (VList results) then lift (_format_sales_results E results)
                else mret ("I couldn't find any sales records matching your criteria. " +:+
                           "Try adjusting your search parameters."));
    mret (set_agent_response state response)
  else if py_eq intent (VStr "create_sale") then
    (* the method [entities.get] is looked up before its default argument,
       which reads the clock, is evaluated *)
    _ ← lift (py_get entities "sale_id");
    t ← datetime_now;
    sale_data ← lift (sale_candidate entities t);
    '(is_valid, errors) ← lift (validate_sale_data sale_data);
    if negb is_valid then
      mret (set_agent_response state
              ("I need more information to create this sale:" +:+ nl +:+
               bullets errors +:+
               nl +:+ "Please provide the missing details."))
    else
      add_pending_action
        (VDict {[ "action" := VStr "create_sale"; "data" := sale_data ]});;
      id ← lift (py_getitem sale_data "id");
      customer_id ← lift (py_getitem sale_data "customer_id");
      total ← lift (py_getitem sale_data "total");
      payment_status ← lift (py_getitem sale_data "payment_status");
      mret (set_pending_confirmation
              (set_agent_response state
                 ("I'm ready to create a new sale:" +:+ nl +:+ nl +:+
                  "• Sale ID: " +:+ py_str E id +:+ nl +:+
                  "• Customer ID: " +:+ py_str E customer_id +:+ nl +:+
                  "• Total: ₹" +:+ py_str E total +:+ nl +:+
                  "• Status: " +:+ py_str E payment_status +:+ nl +:+ nl +:+
                  "Shall I proceed with creating this sale? (Yes/No)"))
              sale_data)
  else mret state.

Definition analytics_agent_node (state : ConversationState) : M ConversationState :=
  if py_eq (intent state) (VStr "get_analytics") then
    w ← get_world;
    summary ← lift (get_sales_summary E (files w));
    top_products ← lift (get_top_products E (files w));
    response ← lift (format_analytics E summary top_products);
    mret (set_agent_response state response)
  else mret state.

Definition vendor_agent_node (state : ConversationState) : M ConversationState :=
  let entities := entities state in
  vendor_id ← lift (py_get entities "vendor_id");
  response ← (if truthy vendor_id then
                vendor ← get_vendor_by_id vendor_id;
                if truthy vendor then lift (_format_vendor_details E vendor)
                else mret ("I couldn't find a vendor with ID '" +:+
                           py_str E vendor_id +:+ "'.")
              else
                vendors ← list_vendors;
                if truthy vendors then
                  listing ← lift (_format_vendor_list E vendors);
                  mret ("Here are all our vendors:" +:+ nl +:+ nl +:+ listing)
                else mret "No vendors found in the database.");
  mret (set_agent_response state response).

Definition general_agent_node (state : ConversationState) : M ConversationState :=
  let text := user_input state in
  m ← get_memory;
  w ← get_world;
  put_world {| files := files w; locked := locked w; clock := clock w;
               calls := calls w ++ [GeneratorCall text] |};;
  match generator_reply E (length (calls w)) text (context m) with
  | Some response => mret (set_agent_response state response)
  | None =>
      mret (set_agent_response state
              ("I'm here to help! You can ask me to search for products, check sales, " +:+
               "get analytics, or manage vendors. What would you like to do?"))
  end.

Definition execute_confirmation_node (state : ConversationState) : M ConversationState :=
  pending ← get_pending_action;
  if negb (truthy pending) then
    mret (set_agent_response state
            "There's nothing pending to confirm. How else can I help you?")
  else
    action ← lift (py_get pending "action");
    data ← lift (py_get pending "data");
    if py_eq action (VStr "create_product") then
      '(success, message, errors) ← create_product data;
      response ← (if success : bool then
                    name ← lift (py_getitem data "name");
                    id ← lift (py_getitem data "id");
                    mret ("✅ Great! I've successfully created the product '" +:+
                          py_str E name +:+ "' (ID: " +:+ py_str E id +:+ ")." +:+
                          nl +:+ nl +:+
                          "The product is now in your inventory. " +:+
                          "What would you like to do next?")
                  else
                    mret ("❌ Sorry, I couldn't create the product: " +:+ message +:+
                          nl +:+ bullets errors));
      clear_pending_actions;;
      mret (set_agent_response state response)
    else if py_eq action (VStr "create_sale") then
      '(success, message, errors) ← create_sale data;
      response ← (if success : bool then
                    id ← lift (py_getitem data "id");
                    customer_id ← lift (py_getitem data "customer_id");
                    total ← lift (py_getitem data "total");
                    payment_status ← lift (py_getitem data "payment_status");
                    mret ("✅ Perfect! I've created the sale record (ID: " +:+
                          py_str E id +:+ ")." +:+ nl +:+ nl +:+
                          "• Customer: " +:+ py_str E customer_id +:+ nl +:+
                          "• Total: ₹" +:+ py_str E total +:+ nl +:+
                          "• Status: " +:+ py_str E payment_status +:+ nl +:+ nl +:+
                          "Is there anything else you need help with?")
                  else
                    mret ("❌ I couldn't create the sale: " +:+ message +:+
                          nl +:+ bullets errors));
      clear_pending_actions;;
      mret (set_agent_response state response)
    else if py_eq action (VStr "update_product") then
      product_id ← lift (py_get data "product_id");
      updates ← lift (py_get data "updates");
      '(success, message) ← update_product product_id updates;
      let response :=
        if success : bool then
          "✅ Done! I've updated the product (ID: " +:+ py_str E product_id +:+ ")." +:+
          nl +:+ nl +:+ "The changes have been saved. Anything else?"
        else "❌ Sorry, I couldn't update the product: " +:+ message in
      clear_pending_actions;;
      mret (set_agent_response state response)
    else if py_eq action (VStr "update_sale") then
      sale_id ← lift (py_get data "sale_id");
      updates ← lift (py_get data "updates");
      '(success, message) ← update_sale sale_id updates;
      let response :=
        if success : bool then
          "✅ All set! I've updated the sale (ID: " +:+ py_str E sale_id +:+ ")." +:+
          nl +:+ nl +:+ "The changes are now saved. What's next?"
        else "❌ I couldn't update the sale: " +:+ message in
      clear_pending_actions;;
      mret (set_agent_response state response)
    else mret state.

Definition handle_cancellation_node (state : ConversationState) : M ConversationState :=
  clear_pending_actions;;
  mret (set_agent_response state
          "No problem! I've cancelled that action. What else can I help you with?").

Definition handle_validation_errors_node (state : ConversationState)
  : M ConversationState :=
  mret (set_agent_response state
          ("I noticed some issues with your request:" +:+ nl +:+ nl +:+
           bullets (validation_errors state) +:+
           nl +:+ "Could you please provide the correct information?")).

(** ** The graph and the turn engine *)

(** The conditional edges out of [validate]: the node a handler name
    stands for. *)
Definition node_of (name : string) : option (ConversationState -> M ConversationState) :=
  if String.eqb name "product_agent" then Some product_agent_node
  else if String.eqb name "sales_agent" then Some sales_agent_node
  else if String.eqb name "analytics_agent" then Some analytics_agent_node
  else if String.eqb name "vendor_agent" then Some vendor_agent_node
  else if String.eqb name "general_agent" then Some general_agent_node
  else if String.eqb name "execute_confirmation" then Some execute_confirmation_node
  else if String.eqb name "handle_cancellation" then Some handle_cancellation_node
  else if String.eqb name "handle_validation_errors" then
    Some handle_validation_errors_node
  else None.

(** [graph.invoke]: understand, validate, then the routed node, then END. *)
Definition invoke (state : ConversationState) : M ConversationState :=
  state ← understand_input state;
  state ← validate_input state;
  match node_of (route_to_agent state) with
  | Some node => node state
  | None => lift (Raise KeyError)
  end.

Definition initial_state (text : string) : ConversationState :=
  {| user_input := text; agent_response := ""; intent := VNone;
     entities := VDict ∅; pending_confirmation := VNone;
     validation_errors := []; requires_followup := VBool false |}.

(** [EnhancedChatbot.process_message]. *)
Definition process_message (text : string) : M string :=
  add_message "user" text;;
  try_except
    (result ← invoke (initial_state text);
     let response := agent_response result in
     add_message "assistant" response;;
     mret response)
    (fun e =>
       mret ("I encountered an error: " +:+ exn_str E e +:+ ". Could you try again?")).

(** * Vocabulary of the properties *)

(** The closed enumeration of intents. *)
Definition intent_enumeration : list string :=
  ["search_product"; "get_product_details"; "create_product"; "update_product";
   "search_sales"; "create_sale"; "update_sale"; "get_analytics";
   "get_recommendations"; "vendor_query"; "confirm_action"; "cancel_action";
   "general_chat"].

(** The four kinds of pending action. *)
Definition action_kinds : list string :=
  ["create_product"; "update_product"; "create_sale"; "update_sale"].

(** The fixed key schema of the context map. *)
Definition context_schema : list string :=
  ["last_search_results"; "last_filters"; "current_topic"; "last_product_id";
   "last_sale"; "user_preferences"; "conversation_count"].

Definition schema_ok (m : SessionMemory) : Prop :=
  Forall (fun k => is_Some (context m !! k)) context_schema.

(** The most recently pushed pending action, as [get_pending_action]
    reads it. *)
Definition pending_of (s : Sys) : value :=
  match last (pending_actions (memory s)) with
  | Some action => action
  | None => VNone
  end.

(** The state in which the pending list of [s] has been cleared. *)
Definition cleared (s : Sys) : Sys :=
  {| memory := {| messages := messages (memory s); context := context (memory s);
                  pending_actions := [] |};
     world := world s |}.

(** The records of the catalog store as the code reads them: the
    ["products"] list of the products file, or of the empty database when
    the file is missing; [None] when the file does not hold such a list. *)
Definition catalog (w : World) : option (list value) :=
  match files w !! PRODUCTS_DB with
  | None => Some []
  | Some (VDict db) =>
      match db !! "products" with
      | None => Some []
      | Some (VList records) => Some records
      | Some _ => None
      end
  | Some _ => None
  end.

(** No key of the context of [s] is missing from the context of [s']. *)
Definition keeps_keys (s s' : Sys) : Prop :=
  forall k, is_Some (context (memory s) !! k) -> is_Some (context (memory s') !! k).

(** The content of the data stores. *)
Definition disk (s : Sys) : gmap string value := files (world s).

(** A computation never changes the observation [obs] of the system
    state, whether it returns or raises. *)
Definition preserves {A X : Type} (obs : Sys -> X) (c : M A) : Prop :=
  forall s, obs (c s).2 = obs s.

(** The pending list of the system state. *)
Definition stack (s : Sys) : list value := pending_actions (memory s).

(** The system state after [add_message role content] when the turn
    counter is the number [n]. *)
Definition logged (role content : string) (n : Z) (s : Sys) : Sys :=
  {| memory :=
       {| messages := messages (memory s) ++
            [VDict {[ "role" := VStr role; "content" := VStr content;
                      "timestamp" := VStr (isoformat E (clock (world s))) ]}];
          context := <["conversation_count" := VNum (n + 1)]> (context (memory s));
          pending_actions := pending_actions (memory s) |};
     world := {| files := files (world s); locked := locked (world s);
                 clock := S (clock (world s)); calls := calls (world s) |} |}.

(** The turn counter of the session. *)
Definition counter (s : Sys) : option value :=
  context (memory s) !! "conversation_count".

(** The session states the engine can be in: a new session, then turns and
    resets, while the world outside (files, locks, clock, call log) may
    change between two calls. *)
Inductive reachable : Sys -> Prop :=
| reachable_init (w : World) : reachable (SessionMemory_init w)
| reachable_turn (text : string) (s : Sys) :
    reachable s -> reachable (process_message text s).2
| reachable_reset (s : Sys) : reachable s -> reachable (reset s).2
| reachable_world (s : Sys) (w : World) :
    reachable s -> reachable {| memory := memory s; world := w |}.

(** The test [not total or total <= 0] of [validate_sale_data], with its
    short-circuit: the comparison is made for a truthy total only. *)
Definition total_rejected (total : value) : outcome bool :=
  if negb (truthy total) then Ok true else py_le_zero total.

(** The records of a store as the code reads them: the list under [key]
    in the file at [filepath], or in the empty database when the file is
    missing; [None] when the file does not hold such a list. *)
Definition store_records (filepath key : string) (w : World) : option (list value) :=
  match loaded filepath w with
  | VDict db =>
      match db !! key with
      | None => Some []
      | Some (VList records) => Some records
      | Some _ => None
      end
  | _ => None
  end.

(** An entity that is present, truthy and outside its enumeration: what
    [validate_input] reports. *)
Definition out_of_enumeration (entities : gmap string value) (key : string)
    (allowed : list string) : bool :=
  match entities !! key with
  | Some v => truthy v && negb (in_literals v allowed)
  | None => false
  end.

(** The pending action that a create handler stages for a record. *)
Definition staged_action (kind : string) (data : value) : value :=
  VDict {[ "action" := VStr kind; "data" := data ]}.

(** The system state with one more action on the pending list. *)
Definition staged (action : value) (s : Sys) : Sys :=
  {| memory := {| messages := messages (memory s); context := context (memory s);
                  pending_actions := pending_actions (memory s) ++ [action] |};
     world := world s |}.

(** A pending action as the create handlers stage it: a [create_product]
    or [create_sale] action whose record passes the validation of its
    store. *)
Definition validated_action (action : value) : Prop :=
  exists data,
    (action = staged_action "create_product" data /\
     validate_product_data data = Ok (true, [])) \/
    (action = staged_action "create_sale" data /\
     validate_sale_data data = Ok (true, [])).

(** From [s] to [s'] the pending list was kept or cleared, and then only
    validated actions were pushed. *)
Definition grows_validated (s s' : Sys) : Prop :=
  exists added,
    Forall validated_action added /\
    (stack s' = (stack s ++ added)%list \/ stack s' = added).

(** The message log of the session. *)
Definition log (s : Sys) : list value := messages (memory s).

(** The value of one key of the context, and the keys that the turn engine
    writes. *)
Definition slot (key : string) (s : Sys) : option value :=
  context (memory s) !! key.

Definition written_keys : list string :=
  ["conversation_count"; "last_search_results"; "last_filters"; "last_sale"].


(** The database that [load_json] answers for a file it cannot read. *)
Definition empty_db : value :=
  VDict {[ "products" := VList []; "sales" := VList []; "vendors" := VList [] ]}.

(** The state in which the file at [filepath] holds [data]: a save that
    went through. *)
Definition written (filepath : string) (data : value) (s : Sys) : Sys :=
  {| memory := memory s;
     world := {| files := <[filepath := data]> (files (world s));
                 locked := locked (world s); clock := clock (world s);
                 calls := calls (world s) |} |}.

(** The state in which the file at [filepath] is lost: a save that opened
    the file, which truncates it, and did not write it to its end. *)
Definition torn (filepath : string) (s : Sys) : Sys :=
  {| memory := memory s;
     world := {| files := delete filepath (files (world s));
                 locked := locked (world s); clock := clock (world s);
                 calls := calls (world s) |} |}.

(** The database of the file at [filepath] with [records] under [key]:
    what an update saves. *)
Definition replaced (filepath key : string) (records : list value) (w : World)
  : value :=
  match loaded filepath w with
  | VDict db => VDict (<[key := VList records]> db)
  | other => other
  end.

(** * Properties *)

(** ** Basic facts about the Python primitives *)

Lemma py_eq_str (v : value) (s : string) :
  py_eq v (VStr s) = true <-> v = VStr s.
Proof.
  destruct v; simpl; try (split; [discriminate | congruence]).
  rewrite bool_decide_eq_true. split; congruence.
Qed.

Lemma in_literals_true (v : value) (lits : list string) :
  in_literals v lits = true <-> exists s, s ∈ lits /\ v = VStr s.
Proof.
  unfold in_literals. rewrite existsb_exists. split.
  - intros (s & Hin & Heq). exists s. split.
    + apply list_elem_of_In. exact Hin.
    + apply py_eq_str. exact Heq.
  - intros (s & Hin & Heq). exists s. split.
    + apply list_elem_of_In. exact Hin.
    + apply py_eq_str. exact Heq.
Qed.

Lemma in_literals_false (v : value) (lits : list string) :
  (forall s, s ∈ lits -> v <> VStr s) -> in_literals v lits = false.
Proof.
  intros H. destruct (in_literals v lits) eqn:Heq; [|reflexivity].
  apply in_literals_true in Heq as (s & Hin & ->).
  exfalso. exact (H s Hin eq_refl).
Qed.

Lemma any_word_in_true (words : list string) (s : string) :
  any_word_in words s = true <-> exists w, w ∈ words /\ str_in w s = true.
Proof.
  unfold any_word_in. rewrite existsb_exists. split.
  - intros (w & Hin & H). exists w. split; [apply list_elem_of_In|]; assumption.
  - intros (w & Hin & H). exists w. split; [apply list_elem_of_In|]; assumption.
Qed.

Lemma py_get_truthy (d : value) (k : string) (v : value) :
  py_get d k = Ok v -> truthy v = true -> py_getitem d k = Ok v.
Proof.
  unfold py_get, py_get_default, py_getitem. destruct d; try discriminate.
  destruct (d !! k); intros [= <-]; [reflexivity | discriminate].
Qed.

Lemma in_literals_truthy (v : value) (lits : list string) :
  in_literals v lits = true -> "" ∉ lits -> truthy v = true.
Proof.
  intros Hin Hne. apply in_literals_true in Hin as (s & Hs & ->).
  destruct s; [contradiction | reflexivity].
Qed.

(** A dict in which a key holds a string is not empty. *)
Lemma py_get_str_truthy (d : value) (k s : string) :
  py_get d k = Ok (VStr s) -> truthy d = true.
Proof.
  unfold py_get, py_get_default. destruct d as [| | | | |m]; try discriminate.
  destruct (m !! k) as [v|] eqn:Hk; [|discriminate]. intros _.
  cbn [truthy]. apply negb_true_iff, bool_decide_eq_false. intros Hempty.
  assert (k ∈ dom m) as Hin by (apply elem_of_dom; eexists; exact Hk).
  rewrite Hempty in Hin. exact (not_elem_of_empty k Hin).
Qed.

(** ** The router *)

(** C4. The routing function is a total function of the state.  With a
    non-empty list of validation errors it answers the validation-error
    handler whatever the intent is; with an empty list each intent of the
    closed enumeration goes to its one handler, every other value (a
    string outside the enumeration, [None], a number, ...) goes to the
    general handler, and every answer names a node of the graph. *)
Theorem route_to_agent_total (state : ConversationState) :
  (validation_errors state <> [] ->
     route_to_agent state = "handle_validation_errors") /\
  (validation_errors state = [] ->
     (forall i, i ∈ ["search_product"; "get_product_details"; "create_product";
                     "update_product"] ->
        intent state = VStr i -> route_to_agent state = "product_agent") /\
     (forall i, i ∈ ["search_sales"; "create_sale"; "update_sale"] ->
        intent state = VStr i -> route_to_agent state = "sales_agent") /\
     (forall i, i ∈ ["get_analytics"; "get_recommendations"] ->
        intent state = VStr i -> route_to_agent state = "analytics_agent") /\
     (intent state = VStr "vendor_query" -> route_to_agent state = "vendor_agent") /\
     (intent state = VStr "confirm_action" ->
        route_to_agent state = "execute_confirmation") /\
     (intent state = VStr "cancel_action" ->
        route_to_agent state = "handle_cancellation") /\
     (intent state = VStr "general_chat" -> route_to_agent state = "general_agent") /\
     ((forall i, i ∈ intent_enumeration -> intent state <> VStr i) ->
        route_to_agent state = "general_agent")) /\
  is_Some (node_of (route_to_agent state)).
Proof.
  destruct state as [ui ar it en pc ve rf].
  unfold route_to_agent; cbn [validation_errors intent].
  split; [|split].
  - destruct ve; [congruence | reflexivity].
  - intros ->.
    repeat split.
    + intros i Hi ->. repeat (apply elem_of_cons in Hi as [-> | Hi]; [reflexivity|]).
      inversion Hi.
    + intros i Hi ->. repeat (apply elem_of_cons in Hi as [-> | Hi]; [reflexivity|]).
      inversion Hi.
    + intros i Hi ->. repeat (apply elem_of_cons in Hi as [-> | Hi]; [reflexivity|]).
      inversion Hi.
    + intros ->. reflexivity.
    + intros ->. reflexivity.
    + intros ->. reflexivity.
    + intros ->. reflexivity.
    + intros Hout.
      repeat (rewrite in_literals_false;
              [| intros s Hs; apply Hout; unfold intent_enumeration;
                 repeat (apply elem_of_cons in Hs as [-> | Hs];
                         [solve [repeat constructor] |]);
                 inversion Hs]).
      reflexivity.
  - destruct ve; [| eexists; reflexivity].
    repeat match goal with
           | |- context [if ?b then _ else _] => destruct b
           end; eexists; reflexivity.
Qed.

(** ** The keyword fallback *)

Lemma any_word_in_false (words : list string) (s w : string) :
  any_word_in words s = false -> w ∈ words -> str_in w s = false.
Proof.
  intros Hnone Hin. destruct (str_in w s) eqn:Hw; [|reflexivity].
  assert (any_word_in words s = true) as Hsome
    by (apply any_word_in_true; exists w; split; assumption).
  congruence.
Qed.

(** C9 (as amended). The keyword fallback never answers [create_product]
    or [create_sale].  A text whose lowered form contains ["product"] is
    classified [search_product] by the first branch; one that contains
    ["sale"] is classified [search_sales] by the second branch unless a
    keyword of the first branch (["search"], ["find"], ["show"], ["look"],
    ["product"]) occurs too, in which case it is [search_product].  Either
    way the two create branches, which ask for the same substrings, are
    never reached. *)
Theorem fallback_never_creates (text : string) :
  py_get (_fallback_intent_detection text) "intent" = Ok (VStr (fallback_intent text)) /\
  fallback_intent text <> "create_product" /\
  fallback_intent text <> "create_sale" /\
  (str_in "product" (lower E text) = true -> fallback_intent text = "search_product") /\
  (str_in "sale" (lower E text) = true ->
     fallback_intent text =
       if any_word_in ["search"; "find"; "show"; "look"; "product"] (lower E text)
       then "search_product" else "search_sales").
Proof.
  split; [reflexivity|].
  unfold fallback_intent.
  destruct (any_word_in ["search"; "find"; "show"; "look"; "product"] (lower E text))
    eqn:Hsearch.
  { repeat split; try discriminate; reflexivity. }
  assert (str_in "product" (lower E text) = false) as Hproduct
    by (apply (any_word_in_false _ _ _ Hsearch); repeat constructor).
  destruct (any_word_in ["sale"; "order"; "purchase"; "transaction"] (lower E text))
    eqn:Hsales.
  { repeat split; try discriminate; try reflexivity. congruence. }
  assert (str_in "sale" (lower E text) = false) as Hsale
    by (apply (any_word_in_false _ _ _ Hsales); repeat constructor).
  rewrite Hproduct, Hsale.
  repeat match goal with
         | |- context [if any_word_in ?ws ?s then _ else _] =>
             destruct (any_word_in ws s)
         end; repeat split; try discriminate; congruence.
Qed.

(** ** Cancellation *)

(** C7. Whatever the session state is, and in particular with an action
    staged, the cancellation handler returns normally with the fixed
    acknowledgment, leaves the pending list empty, and changes neither the
    rest of the memory nor anything outside it (files, clock, calls). *)
Theorem cancellation_clears_pending (state : ConversationState) (s : Sys) :
  exists s',
    handle_cancellation_node state s =
      (Ok (set_agent_response state
             "No problem! I've cancelled that action. What else can I help you with?"),
       s') /\
    pending_actions (memory s') = [] /\
    messages (memory s') = messages (memory s) /\
    context (memory s') = context (memory s) /\
    world s' = world s.
Proof.
  exists (cleared s). repeat split.
Qed.

(** ** Intent understanding *)

Lemma get_pending_action_spec (s : Sys) :
  get_pending_action s = (Ok (pending_of s), s).
Proof. reflexivity. Qed.

(** C3 (as amended). When the lowered text contains a confirmation keyword
    and an action is pending, the understanding step returns the state with
    intent [confirm_action] and with entities equal to the whole pending
    action (the dict that holds both the kind, under ["action"], and the
    payload, under ["data"]); the system state is unchanged, so no request
    was sent to the external classifier. *)
Theorem understand_confirmation (state : ConversationState) (s : Sys) :
  any_word_in confirmation_words (lower E (user_input state)) = true ->
  truthy (pending_of s) = true ->
  understand_input state s =
    (Ok (set_entities (set_intent state (VStr "confirm_action")) (pending_of s)), s) /\
  calls (world (understand_input state s).2) = calls (world s).
Proof.
  intros Hword Hpending.
  assert (understand_input state s =
    (Ok (set_entities (set_intent state (VStr "confirm_action")) (pending_of s)), s))
    as Heq.
  { unfold understand_input, confirmed_action. rewrite Hword.
    cbv [mbind M_bind mret M_ret]. rewrite get_pending_action_spec.
    rewrite Hpending. reflexivity. }
  split; [exact Heq|]. rewrite Heq. reflexivity.
Qed.

(** ** The session memory *)

Lemma keeps_keys_schema (s s' : Sys) :
  keeps_keys s s' -> schema_ok (memory s) -> schema_ok (memory s').
Proof.
  intros Hkeep Hok. unfold schema_ok in *.
  eapply Forall_impl; [exact Hok|]. intros k Hk. apply Hkeep, Hk.
Qed.

Lemma default_context_schema (stamp : string) : schema_ok (fresh_memory stamp).
Proof.
  unfold schema_ok, context_schema.
  repeat (apply Forall_cons; split; [eexists; reflexivity|]).
  apply Forall_nil. exact I.
Qed.

Lemma add_message_keeps_keys (role content : string) (s : Sys) :
  keeps_keys s (add_message role content s).2.
Proof.
  intros k Hk. unfold add_message.
  cbv [mbind M_bind mret M_ret datetime_now get_memory put_memory lift memory world].
  destruct s as [[msgs ctx pend] w]; cbn [context memory] in *.
  destruct (ctx !! "conversation_count") as [c|]; [|exact Hk].
  destruct (py_add_one c) as [c'|e]; cbn; [|exact Hk].
  apply lookup_insert_is_Some'. right. exact Hk.
Qed.

Lemma update_context_keeps_keys (key : string) (v : value) (s : Sys) :
  keeps_keys s (update_context key v s).2.
Proof.
  intros k Hk. cbn. apply lookup_insert_is_Some'. right. exact Hk.
Qed.

Lemma update_user_preferences_keeps_keys (preference_type : string) (v : value)
    (s : Sys) :
  keeps_keys s (update_user_preferences preference_type v s).2.
Proof.
  intros k Hk. unfold update_user_preferences.
  cbv [mbind M_bind mret M_ret get_memory put_memory lift].
  destruct (context (memory s) !! "user_preferences") as [prefs|]; [|exact Hk].
  destruct (py_contains preference_type prefs) as [[|]|e]; try exact Hk.
  destruct (py_setitem prefs preference_type v) as [prefs'|e]; cbn; [|exact Hk].
  apply lookup_insert_is_Some'. right. exact Hk.
Qed.

(** C8. The context of a new session holds every key of the fixed schema,
    and every operation of the session memory keeps it so, also when the
    operation raises.  [add_message], [update_context],
    [update_user_preferences], [add_pending_action] and
    [clear_pending_actions] never remove a key, known or not; [reset] puts
    back the dict of the constructor.  [update_context] on any key, in the
    schema or not, returns normally, stores the value under that key and
    leaves every other key as it was. *)
Theorem session_memory_schema_invariant :
  (forall w, schema_ok (memory (SessionMemory_init w))) /\
  (forall s, schema_ok (memory s) ->
     (forall role content, schema_ok (memory (add_message role content s).2)) /\
     (forall key v, schema_ok (memory (update_context key v s).2)) /\
     (forall preference_type v,
        schema_ok (memory (update_user_preferences preference_type v s).2)) /\
     (forall action, schema_ok (memory (add_pending_action action s).2)) /\
     schema_ok (memory (clear_pending_actions s).2) /\
     schema_ok (memory (reset s).2)) /\
  (forall s,
     (forall role content, keeps_keys s (add_message role content s).2) /\
     (forall key v, keeps_keys s (update_context key v s).2) /\
     (forall preference_type v,
        keeps_keys s (update_user_preferences preference_type v s).2) /\
     (forall action, keeps_keys s (add_pending_action action s).2) /\
     keeps_keys s (clear_pending_actions s).2) /\
  (forall s key v,
     (update_context key v s).1 = Ok tt /\
     context (memory (update_context key v s).2) !! key = Some v /\
     (forall k, k <> key ->
        context (memory (update_context key v s).2) !! k = context (memory s) !! k)).
Proof.
  split; [|split; [|split]].
  - intros w. apply default_context_schema.
  - intros s Hok. repeat split.
    + intros. eapply keeps_keys_schema; [apply add_message_keeps_keys | exact Hok].
    + intros. eapply keeps_keys_schema; [apply update_context_keeps_keys | exact Hok].
    + intros. eapply keeps_keys_schema;
        [apply update_user_preferences_keeps_keys | exact Hok].
    + intros. exact Hok.
    + exact Hok.
    + apply default_context_schema.
  - intros s. repeat split.
    + intros. apply add_message_keeps_keys.
    + intros. apply update_context_keeps_keys.
    + intros. apply update_user_preferences_keeps_keys.
    + intros action k Hk. exact Hk.
    + intros k Hk. exact Hk.
  - intros s key v. repeat split.
    + cbn. apply lookup_insert_eq.
    + intros k Hne. cbn. apply lookup_insert_ne. congruence.
Qed.

(** ** Substrings of response texts *)

Lemma append_nil_l (b : string) : "" +:+ b = b.
Proof. reflexivity. Qed.

Lemma append_cons_l (c : Ascii.ascii) (a b : string) :
  String c a +:+ b = String c (a +:+ b).
Proof. reflexivity. Qed.

Lemma str_in_nil (s : string) : str_in "" s = true.
Proof. destruct s; reflexivity. Qed.

Lemma starts_with_app (a b : string) : starts_with a (a +:+ b) = true.
Proof.
  induction a as [|c a IH]; [reflexivity|].
  rewrite append_cons_l. cbn [starts_with].
  rewrite Ascii.eqb_refl. exact IH.
Qed.

Lemma starts_with_app_l (x a b : string) :
  starts_with x a = true -> starts_with x (a +:+ b) = true.
Proof.
  revert a. induction x as [|c x IH]; intros a H; [reflexivity|].
  destruct a as [|d a]; [discriminate|].
  rewrite append_cons_l. cbn [starts_with] in *.
  apply andb_true_iff in H as [Hc Hx]. rewrite Hc. apply IH, Hx.
Qed.

Lemma str_in_app_l (x a b : string) :
  str_in x a = true -> str_in x (a +:+ b) = true.
Proof.
  induction a as [|c a IH]; intros H.
  - destruct x; [apply str_in_nil | discriminate].
  - rewrite append_cons_l. cbn [str_in] in *.
    apply orb_true_iff in H as [H|H]; apply orb_true_iff.
    + left. rewrite <- append_cons_l. apply starts_with_app_l, H.
    + right. apply IH, H.
Qed.

Lemma str_in_app_r (x a b : string) :
  str_in x b = true -> str_in x (a +:+ b) = true.
Proof.
  intros H. induction a as [|c a IH]; [exact H|].
  rewrite append_cons_l. cbn [str_in].
  apply orb_true_iff. right. exact IH.
Qed.

Lemma str_in_self_app (x b : string) : str_in x (x +:+ b) = true.
Proof.
  destruct x as [|c x]; [apply str_in_nil|].
  rewrite append_cons_l. cbn [str_in]. apply orb_true_iff. left.
  rewrite <- append_cons_l. apply starts_with_app.
Qed.

Lemma bullets_lists (errors : list string) :
  Forall (fun error => str_in error (bullets errors) = true) errors.
Proof.
  induction errors as [|e rest IH]; constructor.
  - cbn [bullets]. apply str_in_app_r, str_in_self_app.
  - eapply Forall_impl; [exact IH|]. intros x Hx. cbn [bullets].
    do 3 apply str_in_app_r. exact Hx.
Qed.

Lemma framed_bullets_list (header footer : string) (errors : list string) :
  Forall (fun error =>
            str_in error (header +:+ nl +:+ bullets errors +:+ footer) = true)
         errors.
Proof.
  eapply Forall_impl; [apply bullets_lists|]. intros x Hx.
  do 2 apply str_in_app_r. apply str_in_app_l, Hx.
Qed.

(** ** Local validation in the create handlers *)

(** Evaluates the comparisons of string literals that select a branch. *)
Ltac eval_py_eq :=
  repeat match goal with
         | |- context [py_eq (VStr ?a) (VStr ?b)] =>
             let r := eval vm_compute in (py_eq (VStr a) (VStr b)) in
             change (py_eq (VStr a) (VStr b)) with r
         end;
  cbv beta iota zeta delta [negb].

(** Unfolds the monad operations. *)
Ltac run := cbv [mbind M_bind mret M_ret lift outcome_bind outcome_ret].

(** What the two validators accept: a product needs a truthy id and name
    and a category of the enumeration; a sale needs a truthy id and
    customer, a positive total and a status of the enumeration. *)
Lemma validate_product_data_accepts (product_data id name category : value) :
  py_get product_data "id" = Ok id ->
  py_get product_data "name" = Ok name ->
  py_get product_data "category" = Ok category ->
  exists errors,
    validate_product_data product_data =
      Ok (truthy id && truthy name && in_literals category valid_categories, errors).
Proof.
  intros Hid Hname Hcategory. unfold validate_product_data.
  rewrite Hid, Hname, Hcategory. cbv [mbind outcome_bind].
  destruct (in_literals category valid_categories) eqn:Hin.
  - assert (truthy category = true) as ->.
    { apply (in_literals_truthy _ _ Hin). unfold valid_categories. intros Hbad.
      repeat (apply elem_of_cons in Hbad as [Hbad | Hbad]; [discriminate|]).
      inversion Hbad. }
    destruct (truthy id), (truthy name); eexists; reflexivity.
  - destruct (truthy id), (truthy name), (truthy category); eexists; reflexivity.
Qed.

Lemma validate_sale_data_accepts (sale_data : value) (is_valid : bool)
    (errors : list string) :
  validate_sale_data sale_data = Ok (is_valid, errors) ->
  exists id customer_id total payment_status,
    py_get sale_data "id" = Ok id /\
    py_get sale_data "customer_id" = Ok customer_id /\
    py_get sale_data "total" = Ok total /\
    py_get sale_data "payment_status" = Ok payment_status /\
    is_valid =
      truthy id && truthy customer_id &&
      (truthy total && match py_le_zero total with Ok false => true | _ => false end) &&
      in_literals payment_status valid_statuses.
Proof.
  unfold validate_sale_data. cbv [mbind outcome_bind].
  destruct (py_get sale_data "id") as [id|]; [|discriminate].
  destruct (py_get sale_data "customer_id") as [customer_id|]; [|discriminate].
  destruct (py_get sale_data "total") as [total|]; [|discriminate].
  intros H. exists id, customer_id, total.
  destruct (truthy total); cbn [negb] in H.
  - destruct (py_le_zero total) as [[|]|]; [| |discriminate];
      (destruct (py_get sale_data "payment_status") as [payment_status|];
         [|discriminate]);
      exists payment_status;
      destruct (truthy id), (truthy customer_id),
        (in_literals payment_status valid_statuses);
      injection H as <- <-; repeat split; reflexivity.
  - destruct (py_get sale_data "payment_status") as [payment_status|];
      [|discriminate].
    exists payment_status.
    destruct (truthy id), (truthy customer_id),
      (in_literals payment_status valid_statuses);
      injection H as <- <-; repeat split; reflexivity.
Qed.

(** C5. When the local validation of a create handler fails (it returns
    [False] with its list of errors, for a missing required field, a total
    that is not positive, or a category or status outside its
    enumeration), the handler returns normally with a response that lists
    every error, and the session memory, hence the pending list and its
    length, is unchanged, as are the files.  The update intents have no
    branch in either handler: they stage nothing and leave state and
    memory as they were. *)
Theorem failed_validation_stages_nothing (state : ConversationState) (s : Sys) :
  (forall product_data errors,
     intent state = VStr "create_product" ->
     product_candidate (entities state) = Ok product_data ->
     validate_product_data product_data = Ok (false, errors) ->
     let response :=
       "I need some more information to create this product:" +:+ nl +:+
       bullets errors +:+ nl +:+ "Please provide the missing details." in
     product_agent_node state s = (Ok (set_agent_response state response), s) /\
     Forall (fun error => str_in error response = true) errors) /\
  (forall sale_data errors,
     intent state = VStr "create_sale" ->
     sale_candidate (entities state) (clock (world s)) = Ok sale_data ->
     validate_sale_data sale_data = Ok (false, errors) ->
     let response :=
       "I need more information to create this sale:" +:+ nl +:+
       bullets errors +:+ nl +:+ "Please provide the missing details." in
     exists s',
       sales_agent_node state s = (Ok (set_agent_response state response), s') /\
       memory s' = memory s /\
       length (pending_actions (memory s')) = length (pending_actions (memory s)) /\
       files (world s') = files (world s) /\
       Forall (fun error => str_in error response = true) errors) /\
  (intent state = VStr "update_product" -> product_agent_node state s = (Ok state, s)) /\
  (intent state = VStr "update_sale" -> sales_agent_node state s = (Ok state, s)).
Proof.
  split; [|split; [|split]].
  - intros product_data errors Hi Hc Hv response. split.
    + unfold product_agent_node. rewrite Hi. eval_py_eq. run.
      rewrite Hc, Hv. reflexivity.
    + apply (framed_bullets_list _ _ errors).
  - intros sale_data errors Hi Hc Hv response.
    eexists. unfold sales_agent_node. rewrite Hi. eval_py_eq. run.
    assert (py_get (entities state) "sale_id" = Ok
              (default VNone match entities state with
                             | VDict m => m !! "sale_id" | _ => None end)) as ->.
    { unfold sale_candidate in Hc. destruct (entities state); try discriminate.
      unfold py_get, py_get_default. destruct (d !! "sale_id"); reflexivity. }
    cbv [datetime_now]. rewrite Hc, Hv. cbn.
    repeat split. apply (framed_bullets_list _ _ errors).
  - intros Hi. unfold product_agent_node. rewrite Hi. eval_py_eq. reflexivity.
  - intros Hi. unfold sales_agent_node. rewrite Hi. eval_py_eq. reflexivity.
Qed.

(** ** The confirmation executor *)

(** A record that passes [validate_product_data] has its id and name. *)
Lemma validate_product_data_valid (product_data : value) (errors : list string) :
  validate_product_data product_data = Ok (true, errors) ->
  errors = [] /\
  exists id name,
    py_getitem product_data "id" = Ok id /\ py_getitem product_data "name" = Ok name.
Proof.
  unfold validate_product_data. cbv [mbind outcome_bind].
  destruct (py_get product_data "id") as [id|] eqn:Hid; [|discriminate].
  destruct (py_get product_data "name") as [name|] eqn:Hname; [|discriminate].
  destruct (py_get product_data "category") as [category|]; [|discriminate].
  destruct (truthy id) eqn:Tid; [|discriminate].
  destruct (truthy name) eqn:Tname; [|discriminate].
  destruct (truthy category); [|discriminate].
  destruct (in_literals category valid_categories); [|discriminate].
  intros [= <-]. split; [reflexivity|].
  exists id, name. split; apply py_get_truthy; assumption.
Qed.

(** A record that passes [validate_sale_data] has the four fields that the
    success response shows. *)
Lemma validate_sale_data_valid (sale_data : value) (errors : list string) :
  validate_sale_data sale_data = Ok (true, errors) ->
  errors = [] /\
  exists id customer_id total payment_status,
    py_getitem sale_data "id" = Ok id /\
    py_getitem sale_data "customer_id" = Ok customer_id /\
    py_getitem sale_data "total" = Ok total /\
    py_getitem sale_data "payment_status" = Ok payment_status.
Proof.
  unfold validate_sale_data. cbv [mbind outcome_bind].
  destruct (py_get sale_data "id") as [id|] eqn:Hid; [|discriminate].
  destruct (py_get sale_data "customer_id") as [customer_id|] eqn:Hcustomer;
    [|discriminate].
  destruct (py_get sale_data "total") as [total|] eqn:Htotal; [|discriminate].
  destruct (truthy total) eqn:Ttotal; cbn [negb].
  2:{ destruct (py_get sale_data "payment_status"); [|discriminate].
      destruct (truthy id), (truthy customer_id); discriminate. }
  destruct (py_le_zero total) as [[|]|]; [| |discriminate];
    (destruct (py_get sale_data "payment_status") as [payment_status|] eqn:Hstatus;
       [|discriminate]);
    destruct (truthy id) eqn:Tid; try discriminate;
    destruct (truthy customer_id) eqn:Tcustomer; try discriminate;
    destruct (in_literals payment_status valid_statuses) eqn:Hin; try discriminate.
  intros [= <-]. split; [reflexivity|].
  exists id, customer_id, total, payment_status.
  repeat split; try (apply py_get_truthy; assumption).
  apply py_get_truthy; [assumption|].
  apply (in_literals_truthy _ _ Hin).
  unfold valid_statuses. intros Hbad.
  repeat (apply elem_of_cons in Hbad as [Hbad | Hbad]; [discriminate|]).
  inversion Hbad.
Qed.

Lemma create_product_success (product_data : value) (s s1 : Sys)
    (message : string) (errors : list string) :
  create_product product_data s = (Ok (true, message, errors), s1) ->
  exists id name,
    py_getitem product_data "id" = Ok id /\ py_getitem product_data "name" = Ok name.
Proof.
  unfold create_product. run.
  destruct (validate_product_data product_data) as [[[|] errs]|] eqn:Hv;
    cbn [negb]; try discriminate.
  intros _. apply validate_product_data_valid in Hv as [_ Hv]. exact Hv.
Qed.

Lemma create_sale_success (sale_data : value) (s s1 : Sys)
    (message : string) (errors : list string) :
  create_sale sale_data s = (Ok (true, message, errors), s1) ->
  exists id customer_id total payment_status,
    py_getitem sale_data "id" = Ok id /\
    py_getitem sale_data "customer_id" = Ok customer_id /\
    py_getitem sale_data "total" = Ok total /\
    py_getitem sale_data "payment_status" = Ok payment_status.
Proof.
  unfold create_sale. run.
  destruct (validate_sale_data sale_data) as [[[|] errs]|] eqn:Hv;
    cbn [negb]; try discriminate.
  intros _. apply validate_sale_data_valid in Hv as [_ Hv]. exact Hv.
Qed.

Section Executor.

Variables (state : ConversationState) (s : Sys) (data : value).
Hypothesis Hpending : truthy (pending_of s) = true.
Hypothesis Hdata : py_get (pending_of s) "data" = Ok data.

Lemma execute_create_product (success : bool) (message : string)
    (errors : list string) (s1 : Sys) :
  py_get (pending_of s) "action" = Ok (VStr "create_product") ->
  create_product data s = (Ok (success, message, errors), s1) ->
  exists response,
    execute_confirmation_node state s =
      (Ok (set_agent_response state response), cleared s1).
Proof.
  intros Haction Hcall. unfold execute_confirmation_node. run.
  rewrite get_pending_action_spec, Hpending, Haction, Hdata. eval_py_eq.
  rewrite Hcall. destruct success.
  - apply create_product_success in Hcall as (id & name & -> & ->).
    eexists. reflexivity.
  - eexists. reflexivity.
Qed.

Lemma execute_create_sale (success : bool) (message : string)
    (errors : list string) (s1 : Sys) :
  py_get (pending_of s) "action" = Ok (VStr "create_sale") ->
  create_sale data s = (Ok (success, message, errors), s1) ->
  exists response,
    execute_confirmation_node state s =
      (Ok (set_agent_response state response), cleared s1).
Proof.
  intros Haction Hcall. unfold execute_confirmation_node. run.
  rewrite get_pending_action_spec, Hpending, Haction, Hdata. eval_py_eq.
  rewrite Hcall. destruct success.
  - apply create_sale_success in Hcall as (id & c & t & p & -> & -> & -> & ->).
    eexists. reflexivity.
  - eexists. reflexivity.
Qed.

Lemma execute_update_product (product_id updates : value) (success : bool)
    (message : string) (s1 : Sys) :
  py_get (pending_of s) "action" = Ok (VStr "update_product") ->
  py_get data "product_id" = Ok product_id ->
  py_get data "updates" = Ok updates ->
  update_product product_id updates s = (Ok (success, message), s1) ->
  exists response,
    execute_confirmation_node state s =
      (Ok (set_agent_response state response), cleared s1).
Proof.
  intros Haction Hid Hupdates Hcall. unfold execute_confirmation_node. run.
  rewrite get_pending_action_spec, Hpending, Haction, Hdata. eval_py_eq.
  rewrite Hid, Hupdates, Hcall. eexists. reflexivity.
Qed.

Lemma execute_update_sale (sale_id updates : value) (success : bool)
    (message : string) (s1 : Sys) :
  py_get (pending_of s) "action" = Ok (VStr "update_sale") ->
  py_get data "sale_id" = Ok sale_id ->
  py_get data "updates" = Ok updates ->
  update_sale sale_id updates s = (Ok (success, message), s1) ->
  exists response,
    execute_confirmation_node state s =
      (Ok (set_agent_response state response), cleared s1).
Proof.
  intros Haction Hid Hupdates Hcall. unfold execute_confirmation_node. run.
  rewrite get_pending_action_spec, Hpending, Haction, Hdata. eval_py_eq.
  rewrite Hid, Hupdates, Hcall. eexists. reflexivity.
Qed.

(** Whenever the executor returns for one of the four kinds, the store
    call has returned and the state is the one it left, with the pending
    list cleared. *)
Lemma execute_returns_cleared (kind : string) (state' : ConversationState)
    (s' : Sys) :
  kind ∈ action_kinds ->
  py_get (pending_of s) "action" = Ok (VStr kind) ->
  execute_confirmation_node state s = (Ok state', s') ->
  exists s1, s' = cleared s1.
Proof.
  intros Hkind Haction.
  unfold action_kinds in Hkind.
  repeat (apply elem_of_cons in Hkind as [-> | Hkind]); [| | | | inversion Hkind].
  - destruct (create_product data s) as [[[[success message] errors]|e] s1] eqn:Hcall.
    + destruct (execute_create_product _ _ _ _ Haction Hcall) as [r ->].
      intros [= _ <-]. exists s1. reflexivity.
    + unfold execute_confirmation_node. run.
      rewrite get_pending_action_spec, Hpending, Haction, Hdata. eval_py_eq.
      rewrite Hcall. discriminate.
  - unfold execute_confirmation_node. run.
    rewrite get_pending_action_spec, Hpending, Haction, Hdata. eval_py_eq.
    destruct (py_get data "product_id") as [product_id|]; [|discriminate].
    destruct (py_get data "updates") as [updates|]; [|discriminate].
    destruct (update_product product_id updates s) as [[[success message]|e] s1];
      [|discriminate].
    intros [= _ <-]. exists s1. reflexivity.
  - destruct (create_sale data s) as [[[[success message] errors]|e] s1] eqn:Hcall.
    + destruct (execute_create_sale _ _ _ _ Haction Hcall) as [r ->].
      intros [= _ <-]. exists s1. reflexivity.
    + unfold execute_confirmation_node. run.
      rewrite get_pending_action_spec, Hpending, Haction, Hdata. eval_py_eq.
      rewrite Hcall. discriminate.
  - unfold execute_confirmation_node. run.
    rewrite get_pending_action_spec, Hpending, Haction, Hdata. eval_py_eq.
    destruct (py_get data "sale_id") as [sale_id|]; [|discriminate].
    destruct (py_get data "updates") as [updates|]; [|discriminate].
    destruct (update_sale sale_id updates s) as [[[success message]|e] s1];
      [|discriminate].
    intros [= _ <-]. exists s1. reflexivity.
Qed.

End Executor.

(** With nothing pending the executor answers its fixed text and changes
    nothing. *)
Lemma execute_nothing_pending (state : ConversationState) (s : Sys) :
  truthy (pending_of s) = false ->
  execute_confirmation_node state s =
    (Ok (set_agent_response state
           "There's nothing pending to confirm. How else can I help you?"), s).
Proof.
  intros Hnone. unfold execute_confirmation_node. run.
  rewrite get_pending_action_spec, Hnone. reflexivity.
Qed.

(** C1. Let the most recent pending action be of one of the four kinds.
    Once the store call that the executor dispatches for that kind has
    returned, with success or with failure, the executor returns a
    response and the state the store call left with the pending list
    cleared.  So whenever the executor returns for such an action the
    pending list is empty, and confirming again finds nothing pending: a
    failed commit cannot be retried from the same confirmation. *)
Theorem confirmation_clears_pending (state : ConversationState) (s : Sys)
    (data : value) :
  py_get (pending_of s) "data" = Ok data ->
  (py_get (pending_of s) "action" = Ok (VStr "create_product") ->
   forall success message errors s1,
     create_product data s = (Ok (success, message, errors), s1) ->
     exists response,
       execute_confirmation_node state s =
         (Ok (set_agent_response state response), cleared s1)) /\
  (py_get (pending_of s) "action" = Ok (VStr "create_sale") ->
   forall success message errors s1,
     create_sale data s = (Ok (success, message, errors), s1) ->
     exists response,
       execute_confirmation_node state s =
         (Ok (set_agent_response state response), cleared s1)) /\
  (py_get (pending_of s) "action" = Ok (VStr "update_product") ->
   forall product_id updates success message s1,
     py_get data "product_id" = Ok product_id ->
     py_get data "updates" = Ok updates ->
     update_product product_id updates s = (Ok (success, message), s1) ->
     exists response,
       execute_confirmation_node state s =
         (Ok (set_agent_response state response), cleared s1)) /\
  (py_get (pending_of s) "action" = Ok (VStr "update_sale") ->
   forall sale_id updates success message s1,
     py_get data "sale_id" = Ok sale_id ->
     py_get data "updates" = Ok updates ->
     update_sale sale_id updates s = (Ok (success, message), s1) ->
     exists response,
       execute_confirmation_node state s =
         (Ok (set_agent_response state response), cleared s1)) /\
  (forall kind state' s',
     kind ∈ action_kinds ->
     py_get (pending_of s) "action" = Ok (VStr kind) ->
     execute_confirmation_node state s = (Ok state', s') ->
     pending_actions (memory s') = [] /\
     execute_confirmation_node state' s' =
       (Ok (set_agent_response state'
              "There's nothing pending to confirm. How else can I help you?"), s')).
Proof.
  intros Hdata. split; [|split; [|split; [|split]]].
  - intros Haction **. eapply execute_create_product; try eassumption.
    exact (py_get_str_truthy _ _ _ Haction).
  - intros Haction **. eapply execute_create_sale; try eassumption.
    exact (py_get_str_truthy _ _ _ Haction).
  - intros Haction **. eapply execute_update_product; try eassumption.
    exact (py_get_str_truthy _ _ _ Haction).
  - intros Haction **. eapply execute_update_sale; try eassumption.
    exact (py_get_str_truthy _ _ _ Haction).
  - intros kind state' s' Hkind Haction Hrun.
    pose proof (py_get_str_truthy _ _ _ Haction) as Hpending.
    destruct (execute_returns_cleared state s data Hpending Hdata kind state' s'
                Hkind Haction Hrun) as [s1 ->].
    split; [reflexivity | apply execute_nothing_pending; reflexivity].
Qed.

(** ** Confirming a staged [create_product] *)

Lemma load_json_spec (filepath : string) (s : Sys) :
  load_json filepath s = (Ok (loaded filepath (world s)), s).
Proof. reflexivity. Qed.

Lemma catalog_loaded (w : World) (records : list value) :
  catalog w = Some records ->
  exists db,
    loaded PRODUCTS_DB w = VDict db /\
    (db !! "products" = None /\ records = [] \/
     db !! "products" = Some (VList records)).
Proof.
  unfold catalog, loaded.
  destruct (files w !! PRODUCTS_DB) as [[| | | | |db]|]; try discriminate.
  - destruct (db !! "products") as [[| | | |l|]|] eqn:Hp; try discriminate.
    + intros [= <-]. exists db. split; [reflexivity | right; exact Hp].
    + intros [= <-]. exists db. split; [reflexivity | left; split; [exact Hp | reflexivity]].
  - intros [= <-]. eexists. split; [reflexivity | right; reflexivity].
Qed.

(** The three ways in which [save_json] ends. *)
Lemma save_json_cases (filepath : string) (data : value) (s : Sys) :
  save_json E filepath data s =
    if bool_decide (filepath ∈ locked (world s)) then (Ok false, s)
    else if json_dump_raises E data then (Ok false, torn filepath s)
    else (Ok true, written filepath data s).
Proof.
  unfold save_json. run. cbv [get_world put_world].
  destruct (bool_decide (filepath ∈ locked (world s))); [destruct s; reflexivity|].
  destruct (json_dump_raises E data); reflexivity.
Qed.

Lemma written_other (filepath other : string) (data : value) (s : Sys) :
  other <> filepath ->
  files (world (written filepath data s)) !! other = files (world s) !! other.
Proof. intros Hother. cbn [written world files]. apply lookup_insert_ne. congruence. Qed.

Lemma torn_other (filepath other : string) (s : Sys) :
  other <> filepath ->
  files (world (torn filepath s)) !! other = files (world s) !! other.
Proof. intros Hother. cbn [torn world files]. apply lookup_delete_ne. congruence. Qed.

(** A lost file reads as the empty database. *)
Lemma torn_loaded (filepath : string) (s : Sys) :
  loaded filepath (world (torn filepath s)) = empty_db.
Proof. unfold loaded. cbn [torn world files]. rewrite lookup_delete_eq. reflexivity. Qed.

Lemma torn_catalog (s : Sys) : catalog (world (torn PRODUCTS_DB s)) = Some [].
Proof. unfold catalog. cbn [torn world files]. rewrite lookup_delete_eq. reflexivity. Qed.

(** With a valid record, a readable catalog and a fresh id,
    [create_product] saves the database with the record appended, and
    ends as the save does. *)
Lemma create_product_appends (s : Sys) (data id : value) (records : list value) :
  validate_product_data data = Ok (true, []) ->
  catalog (world s) = Some records ->
  py_get data "id" = Ok id ->
  any_with_id records id = Ok false ->
  exists db',
    setdefault_append (loaded PRODUCTS_DB (world s)) "products" data = Ok db' /\
    catalog (world (written PRODUCTS_DB db' s)) = Some (records ++ [data])%list /\
    create_product data s =
      if bool_decide (PRODUCTS_DB ∈ locked (world s))
      then (Ok (false, "Failed to save", []), s)
      else if json_dump_raises E db'
      then (Ok (false, "Failed to save", []), torn PRODUCTS_DB s)
      else (Ok (true, "Product created successfully", []),
            written PRODUCTS_DB db' s).
Proof.
  intros Hvalid Hcatalog Hid Hfresh.
  apply catalog_loaded in Hcatalog as (db & Hdb & Hproducts).
  assert (py_get_default (VDict db) "products" (VList []) = Ok (VList records) /\
          setdefault_append (VDict db) "products" data =
            Ok (VDict (<["products" := VList (records ++ [data])%list]> db)))
    as [Hget Happend].
  { unfold py_get_default, setdefault_append.
    destruct Hproducts as [[-> ->] | ->]; split; reflexivity. }
  exists (VDict (<["products" := VList (records ++ [data])%list]> db)).
  rewrite Hdb. split; [exact Happend|]. split.
  - unfold catalog. cbn [written world files].
    rewrite lookup_insert_eq, lookup_insert_eq. reflexivity.
  - unfold create_product. run. rewrite Hvalid. cbv beta iota zeta delta [negb].
    rewrite load_json_spec, Hdb, Hget. cbn [py_iter].
    rewrite Hid, Hfresh, Happend, save_json_cases.
    destruct (bool_decide (PRODUCTS_DB ∈ locked (world s))); [reflexivity|].
    destruct (json_dump_raises E _); reflexivity.
Qed.

(** C6 (as amended). Confirming a staged [create_product] whose record is
    fully valid (id, name and category present, category in the
    enumeration) and whose id is not in the catalog yet: the executor
    returns and the pending list is empty however the save of the
    database with the record appended ends.  When the save goes through,
    the catalog afterwards is the old one with exactly that record
    appended, every other file being untouched.  When the file cannot be
    opened for writing, no record is added and the files are as before.
    When the file was opened and [json.dump] raises on the database, the
    products file is lost: the catalog reads back empty, so the records
    that were there are gone as well. *)
Theorem confirm_create_product (state : ConversationState) (s : Sys)
    (data id : value) (records : list value) :
  py_get (pending_of s) "action" = Ok (VStr "create_product") ->
  py_get (pending_of s) "data" = Ok data ->
  validate_product_data data = Ok (true, []) ->
  catalog (world s) = Some records ->
  py_get data "id" = Ok id ->
  any_with_id records id = Ok false ->
  exists db' state' s',
    setdefault_append (loaded PRODUCTS_DB (world s)) "products" data = Ok db' /\
    execute_confirmation_node state s = (Ok state', s') /\
    pending_actions (memory s') = [] /\
    (PRODUCTS_DB ∉ locked (world s) -> json_dump_raises E db' = false ->
       catalog (world s') = Some (records ++ [data])%list /\
       forall path, path <> PRODUCTS_DB ->
         files (world s') !! path = files (world s) !! path) /\
    (PRODUCTS_DB ∈ locked (world s) -> files (world s') = files (world s)) /\
    (PRODUCTS_DB ∉ locked (world s) -> json_dump_raises E db' = true ->
       files (world s') = delete PRODUCTS_DB (files (world s)) /\
       catalog (world s') = Some []).
Proof.
  intros Haction Hdata Hvalid Hcatalog Hid Hfresh.
  pose proof (py_get_str_truthy _ _ _ Haction) as Hpending.
  destruct (create_product_appends s data id records Hvalid Hcatalog Hid Hfresh)
    as (db' & Happend & Hcat & Hcall).
  exists db'.
  destruct (bool_decide (PRODUCTS_DB ∈ locked (world s))) eqn:Hlock.
  - apply bool_decide_eq_true in Hlock.
    destruct (execute_create_product state s data Hpending Hdata _ _ _ _ Haction Hcall)
      as [response Hexec].
    exists (set_agent_response state response), (cleared s).
    split; [exact Happend|]. split; [exact Hexec|]. split; [reflexivity|].
    split; [intros Hfree; contradiction|]. split; [reflexivity|].
    intros Hfree; contradiction.
  - apply bool_decide_eq_false in Hlock.
    destruct (json_dump_raises E db') eqn:Hdump;
      (destruct (execute_create_product state s data Hpending Hdata _ _ _ _
                   Haction Hcall) as [response Hexec]);
      eexists (set_agent_response state response), _;
      (split; [exact Happend|]); (split; [exact Hexec|]); (split; [reflexivity|]).
    + split; [intros _ Hnot; discriminate|]. split; [intros Hin; contradiction|].
      intros _ _. split; [reflexivity | apply torn_catalog].
    + split; [|split; [intros Hin; contradiction | intros _ Hnot; discriminate]].
      intros _ _. split; [exact Hcat|].
      intros path Hpath. apply (written_other PRODUCTS_DB path db' s Hpath).
Qed.

(** ** What the nodes leave unchanged *)

Section Preservation.

Context {X : Type} (obs : Sys -> X).

Lemma preserves_ret {A} (a : A) : preserves obs (mret a).
Proof. intros s. reflexivity. Qed.

Lemma preserves_lift {A} (o : outcome A) : preserves obs (lift o).
Proof. intros s. reflexivity. Qed.

Lemma preserves_bind {A B} (c : M A) (f : A -> M B) :
  preserves obs c -> (forall a, preserves obs (f a)) -> preserves obs (c ≫= f).
Proof.
  intros Hc Hf s. unfold mbind, M_bind.
  specialize (Hc s). destruct (c s) as [[a|e] s1]; cbn [snd] in *.
  - rewrite (Hf a s1). exact Hc.
  - exact Hc.
Qed.

Lemma preserves_try {A} (body : M A) (handler : exn -> M A) :
  preserves obs body -> (forall e, preserves obs (handler e)) ->
  preserves obs (try_except body handler).
Proof.
  intros Hb Hh s. unfold try_except.
  specialize (Hb s). destruct (body s) as [[a|e] s1]; cbn [snd] in *.
  - exact Hb.
  - rewrite (Hh e s1). exact Hb.
Qed.

Lemma preserves_get_memory : preserves obs get_memory.
Proof. intros s. reflexivity. Qed.

Lemma preserves_get_world : preserves obs get_world.
Proof. intros s. reflexivity. Qed.

End Preservation.

(** A goal [preserves obs c] is split along the structure of [c]; a step
    that changes nothing that [obs] looks at is closed by computation, and
    [known] closes the steps that a lemma has settled. *)
Ltac preserve_step :=
  first
    [ apply preserves_ret
    | apply preserves_lift
    | apply preserves_get_memory
    | apply preserves_get_world
    | assumption
    | apply preserves_bind; [|intros]
    | apply preserves_try; [|intros]
    | match goal with
      | |- preserves _ (if ?b then _ else _) => destruct b
      | |- preserves _ (match ?x with _ => _ end) => destruct x
      | |- preserves _ (let _ := _ in _) => cbv zeta
      end ].

Ltac preserve_by known :=
  repeat first [ known | solve [intros ?; reflexivity] | preserve_step ].

(** *** The files *)

Lemma extract_intent_and_entities_disk (text : string) :
  preserves disk (extract_intent_and_entities text).
Proof.
  intros s. unfold extract_intent_and_entities. run.
  cbv [get_memory get_world put_world].
  destruct (classifier_reply E _ _ _); reflexivity.
Qed.

Lemma general_agent_node_disk (state : ConversationState) :
  preserves disk (general_agent_node state).
Proof.
  intros s. unfold general_agent_node. run.
  cbv [get_memory get_world put_world].
  destruct (generator_reply E _ _ _); reflexivity.
Qed.

Lemma add_message_disk (role content : string) :
  preserves disk (add_message role content).
Proof. unfold add_message. preserve_by fail. Qed.

Lemma understand_input_disk (state : ConversationState) :
  preserves disk (understand_input state).
Proof.
  unfold understand_input, confirmed_action.
  preserve_by ltac:(apply extract_intent_and_entities_disk).
Qed.

Lemma validate_input_disk (state : ConversationState) :
  preserves disk (validate_input state).
Proof. unfold validate_input. preserve_by fail. Qed.

Lemma product_agent_node_disk (state : ConversationState) :
  preserves disk (product_agent_node state).
Proof. unfold product_agent_node. preserve_by fail. Qed.

Lemma sales_agent_node_disk (state : ConversationState) :
  preserves disk (sales_agent_node state).
Proof. unfold sales_agent_node. preserve_by fail. Qed.

Lemma analytics_agent_node_disk (state : ConversationState) :
  preserves disk (analytics_agent_node state).
Proof. unfold analytics_agent_node. preserve_by fail. Qed.

Lemma vendor_agent_node_disk (state : ConversationState) :
  preserves disk (vendor_agent_node state).
Proof. unfold vendor_agent_node. preserve_by fail. Qed.

Lemma handle_cancellation_node_disk (state : ConversationState) :
  preserves disk (handle_cancellation_node state).
Proof. intros s. reflexivity. Qed.

Lemma handle_validation_errors_node_disk (state : ConversationState) :
  preserves disk (handle_validation_errors_node state).
Proof. intros s. reflexivity. Qed.

(** *** The pending list *)

Lemma pending_of_stack (s s' : Sys) : stack s' = stack s -> pending_of s' = pending_of s.
Proof. unfold stack, pending_of. intros ->. reflexivity. Qed.

Lemma add_message_stack (role content : string) :
  preserves stack (add_message role content).
Proof.
  intros s. unfold add_message.
  cbv [mbind M_bind mret M_ret datetime_now get_memory put_memory lift memory world].
  destruct s as [[msgs ctx pend] w]; cbn [context memory].
  destruct (ctx !! "conversation_count") as [c|]; [|reflexivity].
  destruct (py_add_one c); reflexivity.
Qed.

Lemma extract_intent_and_entities_stack (text : string) :
  preserves stack (extract_intent_and_entities text).
Proof.
  intros s. unfold extract_intent_and_entities. run.
  cbv [get_memory get_world put_world].
  destruct (classifier_reply E _ _ _); reflexivity.
Qed.

Lemma get_pending_action_stack : preserves stack get_pending_action.
Proof. intros s. reflexivity. Qed.

Lemma understand_input_stack (state : ConversationState) :
  preserves stack (understand_input state).
Proof.
  unfold understand_input, confirmed_action.
  repeat first [ apply extract_intent_and_entities_stack
               | apply get_pending_action_stack
               | preserve_step ].
Qed.

Lemma validate_input_stack (state : ConversationState) :
  preserves stack (validate_input state).
Proof. unfold validate_input. repeat preserve_step. Qed.

(** ** A turn with nothing pending *)

Lemma node_of_cases (name : string) (node : ConversationState -> M ConversationState) :
  node_of name = Some node ->
  node = product_agent_node \/ node = sales_agent_node \/
  node = analytics_agent_node \/ node = vendor_agent_node \/
  node = general_agent_node \/ node = execute_confirmation_node \/
  node = handle_cancellation_node \/ node = handle_validation_errors_node.
Proof.
  unfold node_of.
  repeat match goal with
         | |- context [if ?b then _ else _] => destruct b
         end; intros [= <-]; tauto.
Qed.

Lemma invoke_disk (state : ConversationState) (s : Sys) :
  truthy (pending_of s) = false -> disk (invoke state s).2 = disk s.
Proof.
  intros Hnone. unfold invoke, mbind, M_bind.
  pose proof (understand_input_disk state s) as Hd1.
  pose proof (understand_input_stack state s) as Hs1.
  destruct (understand_input state s) as [[state1|e] s1]; cbn [snd] in *;
    [|exact Hd1].
  pose proof (validate_input_disk state1 s1) as Hd2.
  pose proof (validate_input_stack state1 s1) as Hs2.
  destruct (validate_input state1 s1) as [[state2|e] s2]; cbn [snd] in *;
    [|congruence].
  assert (truthy (pending_of s2) = false) as Hnone2.
  { rewrite (pending_of_stack s s2); [exact Hnone | congruence]. }
  destruct (node_of (route_to_agent state2)) as [node|] eqn:Hnode;
    [|cbn; congruence].
  apply node_of_cases in Hnode.
  destruct Hnode as [-> | [-> | [-> | [-> | [-> | [-> | [-> | ->]]]]]]].
  - rewrite product_agent_node_disk. congruence.
  - rewrite sales_agent_node_disk. congruence.
  - rewrite analytics_agent_node_disk. congruence.
  - rewrite vendor_agent_node_disk. congruence.
  - rewrite general_agent_node_disk. congruence.
  - rewrite (execute_nothing_pending state2 s2 Hnone2). cbn [snd]. congruence.
  - rewrite handle_cancellation_node_disk. congruence.
  - rewrite handle_validation_errors_node_disk. congruence.
Qed.

Lemma process_message_disk (text : string) (s : Sys) :
  truthy (pending_of s) = false -> disk (process_message text s).2 = disk s.
Proof.
  intros Hnone. unfold process_message, try_except, mbind, M_bind.
  pose proof (add_message_disk "user" text s) as Hd1.
  pose proof (add_message_stack "user" text s) as Hs1.
  destruct (add_message "user" text s) as [[[]|e] s1]; cbn [snd] in *;
    [|exact Hd1].
  assert (truthy (pending_of s1) = false) as Hnone1.
  { rewrite (pending_of_stack s s1); [exact Hnone | exact Hs1]. }
  pose proof (invoke_disk (initial_state text) s1 Hnone1) as Hd2.
  destruct (invoke (initial_state text) s1) as [[result|e] s2]; cbn [snd] in *.
  - pose proof (add_message_disk "assistant" (agent_response result) s2) as Hd3.
    destruct (add_message "assistant" (agent_response result) s2) as [[[]|e] s3];
      cbn [snd] in *; cbv [mret M_ret]; cbn [snd]; congruence.
  - cbv [mret M_ret]. cbn [snd]. congruence.
Qed.

Lemma add_message_counted (role content : string) (n : Z) (s : Sys) :
  counter s = Some (VNum n) ->
  add_message role content s = (Ok tt, logged role content n s).
Proof.
  unfold counter. intros Hcount. unfold add_message.
  cbv [mbind M_bind mret M_ret datetime_now get_memory put_memory lift memory world
       context].
  destruct s as [[msgs ctx pend] w]. cbn [context memory] in Hcount.
  rewrite Hcount. reflexivity.
Qed.


Lemma node_of_confirmation (state : ConversationState) :
  intent state = VStr "confirm_action" ->
  validation_errors state = [] ->
  node_of (route_to_agent state) = Some execute_confirmation_node.
Proof.
  destruct state as [ui ar it en pc ve rf]. cbn [intent validation_errors].
  intros -> ->. reflexivity.
Qed.




(** ** A turn with a cancellation keyword *)

Lemma understand_input_cancel (state : ConversationState) (s : Sys) :
  any_word_in cancellation_words (lower E (user_input state)) = true ->
  any_word_in confirmation_words (lower E (user_input state)) = false \/
    truthy (pending_of s) = false ->
  understand_input state s = (Ok (set_intent state (VStr "cancel_action")), s).
Proof.
  intros Hcancel Hno. unfold understand_input, confirmed_action. run.
  destruct (any_word_in confirmation_words (lower E (user_input state))) eqn:Hword.
  - destruct Hno as [Hno|Hno]; [discriminate|].
    rewrite get_pending_action_spec, Hno, Hcancel. reflexivity.
  - rewrite Hcancel. reflexivity.
Qed.

Lemma invoke_cancel (text : string) (s : Sys) :
  any_word_in cancellation_words (lower E text) = true ->
  any_word_in confirmation_words (lower E text) = false \/
    truthy (pending_of s) = false ->
  invoke (initial_state text) s =
    (Ok (set_agent_response
           (set_validation_errors (set_intent (initial_state text)
                                     (VStr "cancel_action")) [])
           "No problem! I've cancelled that action. What else can I help you with?"),
     cleared s).
Proof.
  intros Hcancel Hno. unfold invoke. run.
  rewrite (understand_input_cancel (initial_state text) s Hcancel Hno).
  reflexivity.
Qed.

(** C10. Let the lowered text contain ["no"], ["cancel"] or ["abort"]
    anywhere, also inside a longer word, and let the turn not be
    short-circuited to [confirm_action] (no confirmation keyword, or
    nothing pending).  Then the understanding step sets the intent to
    [cancel_action] and leaves the system state as it was, so no request
    goes to the external classifier; and processing the turn, from a
    session whose turn counter is a number (as it is in every state the
    engine reaches, see [reachable_counter]), answers the cancellation
    text and ends with an empty pending list, whether or not an action was
    pending, without any call to the external service and without touching
    the files. *)
Theorem cancellation_word_turn (text : string) (s : Sys) (n : Z) :
  any_word_in cancellation_words (lower E text) = true ->
  any_word_in confirmation_words (lower E text) = false \/
    truthy (pending_of s) = false ->
  counter s = Some (VNum n) ->
  (forall state,
     user_input state = text ->
     understand_input state s = (Ok (set_intent state (VStr "cancel_action")), s)) /\
  exists s',
    process_message text s =
      (Ok "No problem! I've cancelled that action. What else can I help you with?",
       s') /\
    pending_actions (memory s') = [] /\
    calls (world s') = calls (world s) /\
    disk s' = disk s.
Proof.
  intros Hcancel Hno Hcount. split.
  - intros state <-. apply understand_input_cancel; assumption.
  - eexists. split; [|split; [|split]].
    + unfold process_message, try_except. run.
      rewrite (add_message_counted "user" text n s Hcount).
      rewrite (invoke_cancel text (logged "user" text n s) Hcancel).
      2:{ destruct Hno as [Hno|Hno]; [left; exact Hno | right; exact Hno]. }
      cbn [agent_response set_agent_response].
      rewrite (add_message_counted "assistant" _ (n + 1)).
      2:{ cbn. apply lookup_insert_eq. }
      reflexivity.
    + reflexivity.
    + reflexivity.
    + reflexivity.
Qed.

(** ** The turn counter stays a number *)

Lemma update_context_counter (key : string) (v : value) :
  String.eqb key "conversation_count" = false ->
  preserves counter (update_context key v).
Proof.
  intros Hkey s. unfold counter. cbn. apply lookup_insert_ne.
  intros ->. discriminate.
Qed.

Lemma invoke_counter (state : ConversationState) : preserves counter (invoke state).
Proof.
  unfold invoke. apply preserves_bind.
  { unfold understand_input, confirmed_action. preserve_by fail. }
  intros state1. apply preserves_bind.
  { unfold validate_input. preserve_by fail. }
  intros state2.
  destruct (node_of (route_to_agent state2)) as [node|] eqn:Hnode;
    [|apply preserves_lift].
  apply node_of_cases in Hnode.
  destruct Hnode as [-> | [-> | [-> | [-> | [-> | [-> | [-> | ->]]]]]]].
  - unfold product_agent_node.
    preserve_by ltac:(apply update_context_counter; reflexivity).
  - unfold sales_agent_node.
    preserve_by ltac:(apply update_context_counter; reflexivity).
  - unfold analytics_agent_node. preserve_by fail.
  - unfold vendor_agent_node. preserve_by fail.
  - unfold general_agent_node. preserve_by fail.
  - unfold execute_confirmation_node. preserve_by fail.
  - intros s. reflexivity.
  - intros s. reflexivity.
Qed.

Lemma process_message_counter (text : string) (s : Sys) :
  (exists n, counter s = Some (VNum n)) ->
  exists n, counter (process_message text s).2 = Some (VNum n).
Proof.
  intros [n Hn]. unfold process_message, try_except, mbind, M_bind.
  rewrite (add_message_counted "user" text n s Hn).
  pose proof (invoke_counter (initial_state text) (logged "user" text n s)) as Hinv.
  assert (counter (logged "user" text n s) = Some (VNum (n + 1))) as Hlogged
    by (unfold counter; cbn; apply lookup_insert_eq).
  destruct (invoke (initial_state text) (logged "user" text n s)) as [[result|e] s2];
    cbn [snd] in Hinv; rewrite Hlogged in Hinv.
  - rewrite (add_message_counted "assistant" _ (n + 1) s2 Hinv).
    cbv [mret M_ret]. cbn [snd].
    exists (n + 1 + 1). unfold counter. cbn. apply lookup_insert_eq.
  - cbv [mret M_ret]. cbn [snd]. exists (n + 1). exact Hinv.
Qed.

(** In every state the engine reaches the turn counter is a number, which
    is what [add_message] needs in order not to raise. *)
Lemma reachable_counter (s : Sys) :
  reachable s -> exists n, counter s = Some (VNum n).
Proof.
  induction 1 as [w | text s _ IH | s _ _ | s w _ IH].
  - exists 0. reflexivity.
  - apply process_message_counter, IH.
  - exists 0. reflexivity.
  - exact IH.
Qed.

(** * Further properties of the code *)

(** ** The message log *)

(** X1. [get_recent_messages n] never fails and never changes the session;
    what it returns is always a suffix of the log.  For a positive [n] it
    is the last [n] messages, or the whole log when the log is shorter.
    For [n = 0] the slice [messages[-0:]] is the whole log, not the empty
    list; for a negative [n] the first [-n] messages are dropped. *)
Theorem get_recent_messages_suffix (n : Z) (s : Sys) :
  exists older recent,
    get_recent_messages n s = (Ok recent, s) /\
    messages (memory s) = (older ++ recent)%list /\
    (0 < n ->
       length recent = Nat.min (Z.to_nat n) (length (messages (memory s)))) /\
    (n = 0 -> recent = messages (memory s)) /\
    (n < 0 ->
       length older = Nat.min (Z.to_nat (- n)) (length (messages (memory s)))).
Proof.
  set (log := messages (memory s)).
  set (k := Z.to_nat (if - n <? 0
                      then Z.max (- n + Z.of_nat (length log)) 0
                      else Z.min (- n) (Z.of_nat (length log)))).
  exists (take k log), (drop k log).
  split; [reflexivity|]. split; [symmetry; apply take_drop|].
  split; [|split].
  - intros Hn. rewrite length_drop. subst k.
    destruct (Z.ltb_spec (- n) 0); lia.
  - intros ->. subst k. cbn. rewrite Z.min_l by lia. reflexivity.
  - intros Hn. rewrite length_take. subst k.
    destruct (Z.ltb_spec (- n) 0); lia.
Qed.

(** ** User preferences *)

(** X2. While the preferences are a dict, [update_user_preferences] never
    fails and never changes the set of preference names: a known name gets
    the new value, and an unknown name is ignored, the session staying
    exactly as it was.  No other preference and no other context key is
    touched. *)
Theorem update_user_preferences_known_only (preference_type : string) (v : value)
    (s : Sys) (prefs : gmap string value) :
  context (memory s) !! "user_preferences" = Some (VDict prefs) ->
  exists prefs',
    (update_user_preferences preference_type v s).1 = Ok tt /\
    context (memory (update_user_preferences preference_type v s).2)
      !! "user_preferences" = Some (VDict prefs') /\
    dom prefs' = dom prefs /\
    (is_Some (prefs !! preference_type) -> prefs' !! preference_type = Some v) /\
    (prefs !! preference_type = None ->
       (update_user_preferences preference_type v s).2 = s) /\
    (forall k, k <> preference_type -> prefs' !! k = prefs !! k) /\
    (forall k, k <> "user_preferences" ->
       context (memory (update_user_preferences preference_type v s).2) !! k =
         context (memory s) !! k).
Proof.
  intros Hprefs. unfold update_user_preferences. run.
  cbv [get_memory put_memory]. rewrite Hprefs. cbn [py_contains py_setitem].
  destruct (prefs !! preference_type) as [old|] eqn:Hold.
  - rewrite bool_decide_eq_true_2 by (eexists; reflexivity).
    exists (<[preference_type := v]> prefs). cbn [fst snd memory context].
    split; [reflexivity|]. split; [apply lookup_insert_eq|].
    split; [|split; [|split; [|split]]].
    + rewrite dom_insert_L.
      apply subseteq_union_1_L, singleton_subseteq_l.
      apply elem_of_dom. eexists. exact Hold.
    + intros _. apply lookup_insert_eq.
    + discriminate.
    + intros k Hk. apply lookup_insert_ne. congruence.
    + intros k Hk. apply lookup_insert_ne. congruence.
  - rewrite bool_decide_eq_false_2 by (intros [x Hx]; discriminate).
    exists prefs. cbn [fst snd].
    split; [reflexivity|]. split; [exact Hprefs|].
    split; [reflexivity|]. split; [|split; [|split]].
    + intros [x Hx]. discriminate.
    + intros _. reflexivity.
    + reflexivity.
    + reflexivity.
Qed.

(** ** The validators *)

(** Decides a closed statement about concrete lists of messages. *)
Ltac decide_closed := apply (bool_decide_unpack _); vm_compute; exact I.

(** X3. On a dict, [validate_product_data] never raises.  It accepts
    exactly the records with a truthy id, a truthy name and a category of
    the enumeration, and the error list is empty exactly then.  Each
    missing field has its own message, and a missing or empty category is
    reported twice: as required and as not being one of the allowed
    categories. *)
Theorem validate_product_data_report (product_data id name category : value) :
  py_get product_data "id" = Ok id ->
  py_get product_data "name" = Ok name ->
  py_get product_data "category" = Ok category ->
  exists errors,
    validate_product_data product_data =
      Ok (truthy id && truthy name && in_literals category valid_categories, errors) /\
    (errors = [] <->
       truthy id && truthy name && in_literals category valid_categories = true) /\
    ("Product ID is required" ∈ errors <-> truthy id = false) /\
    ("Product name is required" ∈ errors <-> truthy name = false) /\
    ("Category is required" ∈ errors <-> truthy category = false) /\
    ("Category must be one of: Electronics, Grocery, Fashion, Home, Sports" ∈ errors
       <-> in_literals category valid_categories = false) /\
    (truthy category = false -> in_literals category valid_categories = false).
Proof.
  intros Hid Hname Hcategory. unfold validate_product_data.
  rewrite Hid, Hname, Hcategory. cbv [mbind outcome_bind].
  destruct (in_literals category valid_categories) eqn:Hin.
  - assert (truthy category = true) as ->.
    { apply (in_literals_truthy _ _ Hin). unfold valid_categories. intros Hbad.
      repeat (apply elem_of_cons in Hbad as [Hbad | Hbad]; [discriminate|]).
      inversion Hbad. }
    destruct (truthy id), (truthy name); eexists; (split; [reflexivity|]);
      decide_closed.
  - destruct (truthy id), (truthy name), (truthy category); eexists;
      (split; [reflexivity|]); decide_closed.
Qed.

(** X4. For a sale record given as a dict, [validate_sale_data] judges
    the total by the test [not total or total <= 0].  A falsy total is
    rejected; an integer total is rejected exactly when it is not greater
    than zero, and a [bool] total exactly when it is [False]; a non-empty
    string, list or dict as total makes the comparison, and so the
    validator, raise [TypeError] before the status is looked at.
    Whenever the test returns, the record is accepted exactly when id and
    customer id are truthy, the total is not rejected and the payment
    status is one of the three; the error list is empty exactly then, and
    it holds each of the four messages exactly when the corresponding
    check fails.  Totals that are floats are outside the model. *)
Theorem validate_sale_data_report (sale_data id customer_id total status : value) :
  py_get sale_data "id" = Ok id ->
  py_get sale_data "customer_id" = Ok customer_id ->
  py_get sale_data "total" = Ok total ->
  py_get sale_data "payment_status" = Ok status ->
  (forall e, total_rejected total = Raise e -> validate_sale_data sale_data = Raise e) /\
  (forall rejected,
     total_rejected total = Ok rejected ->
     exists errors,
       validate_sale_data sale_data =
         Ok (truthy id && truthy customer_id && negb rejected &&
             in_literals status valid_statuses, errors) /\
       (errors = [] <->
          truthy id && truthy customer_id && negb rejected &&
          in_literals status valid_statuses = true) /\
       ("Sale ID is required" ∈ errors <-> truthy id = false) /\
       ("Customer ID is required" ∈ errors <-> truthy customer_id = false) /\
       ("Total amount must be greater than 0" ∈ errors <-> rejected = true) /\
       ("Payment status must be one of: PAID, PENDING, CANCELLED" ∈ errors
          <-> in_literals status valid_statuses = false)) /\
  (truthy total = false -> total_rejected total = Ok true) /\
  (forall n, total = VNum n -> total_rejected total = Ok (n <=? 0)) /\
  (forall b, total = VBool b -> total_rejected total = Ok (negb b)) /\
  (truthy total = true ->
   (exists text, total = VStr text) \/ (exists l, total = VList l) \/
   (exists d, total = VDict d) ->
   total_rejected total = Raise TypeError).
Proof.
  intros Hid Hcustomer Htotal Hstatus.
  split; [|split; [|split; [|split; [|split]]]].
  - intros e Hraise. unfold validate_sale_data, total_rejected in *.
    rewrite Hid, Hcustomer, Htotal. cbv [mbind outcome_bind].
    rewrite Hraise. reflexivity.
  - intros rejected Hreturns. unfold validate_sale_data, total_rejected in *.
    rewrite Hid, Hcustomer, Htotal, Hstatus. cbv [mbind outcome_bind].
    rewrite Hreturns.
    destruct (truthy id), (truthy customer_id), rejected,
      (in_literals status valid_statuses); eexists; (split; [reflexivity|]);
      decide_closed.
  - intros Hfalsy. unfold total_rejected. rewrite Hfalsy. reflexivity.
  - intros n ->. unfold total_rejected. cbn [truthy py_le_zero].
    destruct (Z.eqb_spec n 0) as [-> | Hn]; reflexivity.
  - intros b ->. unfold total_rejected. destruct b; reflexivity.
  - intros Htruthy [[text ->] | [[l ->] | [d ->]]];
      unfold total_rejected; rewrite Htruthy; reflexivity.
Qed.

(** ** Reading and writing the stores *)

Lemma store_records_loaded (filepath key : string) (w : World)
    (records : list value) :
  store_records filepath key w = Some records ->
  exists db,
    loaded filepath w = VDict db /\
    py_get_default (VDict db) key (VList []) = Ok (VList records) /\
    (db !! key = None /\ records = [] \/ db !! key = Some (VList records)).
Proof.
  unfold store_records, py_get_default.
  destruct (loaded filepath w) as [| | | | |db]; try discriminate.
  destruct (db !! key) as [[| | | |l|]|] eqn:Hkey; try discriminate.
  - intros [= <-]. exists db. rewrite Hkey. repeat split. right. reflexivity.
  - intros [= <-]. exists db. rewrite Hkey. repeat split. left. split; reflexivity.
Qed.

Lemma catalog_store_records (w : World) :
  catalog w = store_records PRODUCTS_DB "products" w.
Proof.
  unfold catalog, store_records, loaded.
  destruct (files w !! PRODUCTS_DB) as [[| | | | |db]|]; reflexivity.
Qed.

Lemma torn_store_records (filepath key : string) (s : Sys) :
  store_records filepath key (world (torn filepath s)) = Some [].
Proof.
  unfold store_records. rewrite torn_loaded. unfold empty_db.
  destruct (({[ "products" := VList []; "sales" := VList [];
                "vendors" := VList [] ]} : gmap string value) !! key)
    as [v|] eqn:Hkey; [|reflexivity].
  rewrite !lookup_insert, lookup_singleton in Hkey.
  repeat (destruct (decide _) in Hkey; [injection Hkey as <-; reflexivity|]).
  discriminate.
Qed.

(** X5. [save_json] never raises and ends in one of three ways.  When
    the file cannot be opened for writing it answers [False] and nothing
    has changed.  When the file was opened and [json.dump] raises on the
    data it answers [False] as well, but the file is lost: what it held
    before is gone and [load_json] reads the empty database there.
    Otherwise it answers [True] and [load_json] reads the saved data back.
    In no case is the session memory or another file touched.
    [load_json] itself never fails and never changes the state: for a
    missing or unparsable file it answers the database with empty
    ["products"], ["sales"] and ["vendors"] lists. *)
Theorem save_json_load_json (filepath : string) (data : value) (s : Sys) :
  (exists saved s',
     save_json E filepath data s = (Ok saved, s') /\
     memory s' = memory s /\
     (forall other, other <> filepath ->
        load_json other s' = (Ok (loaded other (world s)), s')) /\
     (saved = true -> load_json filepath s' = (Ok data, s')) /\
     (saved = false -> s' = s \/ load_json filepath s' = (Ok empty_db, s'))) /\
  (filepath ∈ locked (world s) -> save_json E filepath data s = (Ok false, s)) /\
  (filepath ∉ locked (world s) -> json_dump_raises E data = true ->
     save_json E filepath data s = (Ok false, torn filepath s) /\
     load_json filepath (torn filepath s) = (Ok empty_db, torn filepath s) /\
     forall key, store_records filepath key (world (torn filepath s)) = Some []) /\
  (filepath ∉ locked (world s) -> json_dump_raises E data = false ->
     save_json E filepath data s = (Ok true, written filepath data s) /\
     load_json filepath (written filepath data s) =
       (Ok data, written filepath data s)) /\
  (files (world s) !! filepath = None ->
     load_json filepath s = (Ok empty_db, s) /\
     forall key, key ∈ ["products"; "sales"; "vendors"] ->
       store_records filepath key (world s) = Some []).
Proof.
  assert (load_json filepath (written filepath data s) =
            (Ok data, written filepath data s)) as Hback.
  { rewrite load_json_spec. unfold loaded. cbn [written world files].
    rewrite lookup_insert_eq. reflexivity. }
  assert (load_json filepath (torn filepath s) = (Ok empty_db, torn filepath s))
    as Hlost by (rewrite load_json_spec, torn_loaded; reflexivity).
  split; [|split; [|split; [|split]]].
  - rewrite save_json_cases.
    destruct (bool_decide (filepath ∈ locked (world s))).
    + exists false, s. split; [reflexivity|]. split; [reflexivity|].
      split; [intros; apply load_json_spec|]. split; [discriminate|].
      intros _. left. reflexivity.
    + destruct (json_dump_raises E data).
      * exists false, (torn filepath s). split; [reflexivity|]. split; [reflexivity|].
        split; [|split; [discriminate | intros _; right; exact Hlost]].
        intros other Hother. rewrite load_json_spec. unfold loaded.
        rewrite (torn_other filepath other s Hother). reflexivity.
      * exists true, (written filepath data s).
        split; [reflexivity|]. split; [reflexivity|].
        split; [|split; [intros _; exact Hback | discriminate]].
        intros other Hother. rewrite load_json_spec. unfold loaded.
        rewrite (written_other filepath other data s Hother). reflexivity.
  - intros Hlocked. rewrite save_json_cases, bool_decide_eq_true_2 by exact Hlocked.
    reflexivity.
  - intros Hfree Hraises.
    rewrite save_json_cases, bool_decide_eq_false_2, Hraises by exact Hfree.
    split; [reflexivity|]. split; [exact Hlost|].
    intros key. apply torn_store_records.
  - intros Hfree Hdumps.
    rewrite save_json_cases, bool_decide_eq_false_2, Hdumps by exact Hfree.
    split; [reflexivity | exact Hback].
  - intros Hmissing. split.
    + rewrite load_json_spec. unfold loaded. rewrite Hmissing. reflexivity.
    + intros key Hkey. unfold store_records, loaded. rewrite Hmissing.
      repeat (apply elem_of_cons in Hkey as [-> | Hkey]; [reflexivity|]).
      inversion Hkey.
Qed.

(** ** Looking a record up by its id *)

Lemma first_with_id_missing (records : list value) (id : value) :
  any_with_id records id = Ok false -> first_with_id records id = Ok (VDict ∅).
Proof.
  induction records as [|r rest IH]; cbn [any_with_id first_with_id];
    [reflexivity|].
  cbv [mbind outcome_bind]. destruct (py_get r "id") as [rid|]; [|discriminate].
  destruct (py_eq rid id); [discriminate | exact IH].
Qed.

Lemma first_with_id_found (records : list value) (id : value) :
  any_with_id records id = Ok true ->
  exists before r after rid,
    records = (before ++ r :: after)%list /\
    any_with_id before id = Ok false /\
    py_get r "id" = Ok rid /\
    py_eq rid id = true /\
    first_with_id records id = Ok r.
Proof.
  induction records as [|r rest IH]; cbn [any_with_id first_with_id];
    [discriminate|].
  cbv [mbind outcome_bind]. destruct (py_get r "id") as [rid|] eqn:Hrid;
    [|discriminate].
  destruct (py_eq rid id) eqn:Heq.
  - intros _. exists [], r, rest, rid. repeat split; assumption.
  - intros Hrest. destruct (IH Hrest) as (before & x & after & xid & -> & Hb & Hx & Hxe & Hf).
    exists (r :: before), x, after, xid. repeat split; try assumption.
    cbn [any_with_id]. cbv [mbind outcome_bind]. rewrite Hrid, Heq. exact Hb.
Qed.

Lemma any_with_id_app (before after : list value) (id : value) :
  any_with_id before id = Ok false ->
  any_with_id (before ++ after) id = any_with_id after id.
Proof.
  induction before as [|r rest IH]; cbn [any_with_id app]; [reflexivity|].
  cbv [mbind outcome_bind]. destruct (py_get r "id") as [rid|]; [|discriminate].
  destruct (py_eq rid id); [discriminate | exact IH].
Qed.

Lemma first_with_id_app (before after : list value) (id : value) :
  any_with_id before id = Ok false ->
  first_with_id (before ++ after) id = first_with_id after id.
Proof.
  induction before as [|r rest IH]; cbn [any_with_id first_with_id app];
    [reflexivity|].
  cbv [mbind outcome_bind]. destruct (py_get r "id") as [rid|]; [|discriminate].
  destruct (py_eq rid id); [discriminate | exact IH].
Qed.

Lemma first_with_id_app_found (records extra : list value) (id : value) :
  any_with_id records id = Ok true ->
  first_with_id (records ++ extra) id = first_with_id records id.
Proof.
  intros Hfound.
  destruct (first_with_id_found records id Hfound)
    as (before & r & after & rid & -> & Hbefore & Hrid & Heq & Hfirst).
  rewrite Hfirst, <- app_assoc, (first_with_id_app before _ id Hbefore).
  cbn [app first_with_id]. cbv [mbind outcome_bind]. rewrite Hrid, Heq.
  reflexivity.
Qed.

Lemma get_by_id_reads (filepath key : string) (id : value) (s : Sys)
    (records : list value) :
  store_records filepath key (world s) = Some records ->
  (db ← load_json filepath;
   listed ← lift (py_get_default db key (VList []));
   items ← lift (py_iter listed);
   lift (first_with_id items id)) s = (first_with_id records id, s).
Proof.
  intros Hstore. apply store_records_loaded in Hstore as (db & Hdb & Hget & _).
  run. rewrite load_json_spec, Hdb, Hget. reflexivity.
Qed.

Lemma get_product_by_id_reads (id : value) (s : Sys) (records : list value) :
  store_records PRODUCTS_DB "products" (world s) = Some records ->
  get_product_by_id id s = (first_with_id records id, s).
Proof. apply get_by_id_reads. Qed.

Lemma get_sale_by_id_reads (id : value) (s : Sys) (records : list value) :
  store_records SALES_DB "sales" (world s) = Some records ->
  get_sale_by_id id s = (first_with_id records id, s).
Proof. apply get_by_id_reads. Qed.

Lemma get_vendor_by_id_reads (id : value) (s : Sys) (records : list value) :
  store_records VENDORS_DB "vendors" (world s) = Some records ->
  get_vendor_by_id id s = (first_with_id records id, s).
Proof. apply get_by_id_reads. Qed.

(** X6. The three lookups by id read their store without changing
    anything.  When no record of the store has the id they answer the
    empty dict; otherwise they answer the first record, in the order of
    the store, whose id equals the one asked for, later records with the
    same id being ignored.  On a missing file the answer is the empty
    dict. *)
Theorem get_by_id_first_match (id : value) (s : Sys) :
  (forall records,
     store_records PRODUCTS_DB "products" (world s) = Some records ->
     get_product_by_id id s = (first_with_id records id, s)) /\
  (forall records,
     store_records SALES_DB "sales" (world s) = Some records ->
     get_sale_by_id id s = (first_with_id records id, s)) /\
  (forall records,
     store_records VENDORS_DB "vendors" (world s) = Some records ->
     get_vendor_by_id id s = (first_with_id records id, s)) /\
  (forall records,
     (any_with_id records id = Ok false ->
        first_with_id records id = Ok (VDict ∅)) /\
     (any_with_id records id = Ok true ->
        exists before r after rid,
          records = (before ++ r :: after)%list /\
          any_with_id before id = Ok false /\
          py_get r "id" = Ok rid /\
          py_eq rid id = true /\
          first_with_id records id = Ok r)) /\
  first_with_id [] id = Ok (VDict ∅).
Proof.
  split; [|split; [|split; [|split]]].
  - intros records. apply get_product_by_id_reads.
  - intros records. apply get_sale_by_id_reads.
  - intros records. apply get_vendor_by_id_reads.
  - intros records. split; [apply first_with_id_missing | apply first_with_id_found].
  - reflexivity.
Qed.

(** ** Creating products *)

Lemma create_product_duplicate (s : Sys) (data id : value) (records : list value) :
  validate_product_data data = Ok (true, []) ->
  catalog (world s) = Some records ->
  py_get data "id" = Ok id ->
  any_with_id records id = Ok true ->
  create_product data s =
    (Ok (false, "Product ID already exists", ["Duplicate ID"]), s).
Proof.
  intros Hvalid Hcatalog Hid Hfound.
  rewrite catalog_store_records in Hcatalog.
  apply store_records_loaded in Hcatalog as (db & Hdb & Hget & _).
  unfold create_product. run. rewrite Hvalid. cbv beta iota zeta delta [negb].
  rewrite load_json_spec, Hdb, Hget. cbn [py_iter]. rewrite Hid, Hfound.
  reflexivity.
Qed.

(** X7. Let [create_product] store a valid record with a new id: the file
    can be opened and [json.dump] takes the database with the record
    appended.  Then [get_product_by_id] with that id answers the record,
    provided the id equals itself, as every value but the float NaN does;
    the answer for every other id is what it was before; and creating the
    same record once more is refused as a duplicate, the store staying as
    it is. *)
Theorem create_product_then_get (s : Sys) (data id db' : value)
    (records : list value) :
  validate_product_data data = Ok (true, []) ->
  catalog (world s) = Some records ->
  py_get data "id" = Ok id ->
  py_eq id id = true ->
  any_with_id records id = Ok false ->
  setdefault_append (loaded PRODUCTS_DB (world s)) "products" data = Ok db' ->
  PRODUCTS_DB ∉ locked (world s) ->
  json_dump_raises E db' = false ->
  let s1 := written PRODUCTS_DB db' s in
  create_product data s = (Ok (true, "Product created successfully", []), s1) /\
  get_product_by_id id s1 = (Ok data, s1) /\
  (forall other found,
     any_with_id records other = Ok found ->
     py_eq id other = false ->
     (get_product_by_id other s1).1 = (get_product_by_id other s).1) /\
  create_product data s1 =
    (Ok (false, "Product ID already exists", ["Duplicate ID"]), s1).
Proof.
  intros Hvalid Hcatalog Hid Hself Hfresh Happend Hfree Hdumps s1.
  destruct (create_product_appends s data id records Hvalid Hcatalog Hid Hfresh)
    as (db'' & Happend' & Hcatalog1 & Hcall).
  rewrite Happend in Happend'. injection Happend' as <-.
  rewrite bool_decide_eq_false_2, Hdumps in Hcall by exact Hfree.
  fold s1 in Hcall, Hcatalog1. split; [exact Hcall|].
  pose proof Hcatalog1 as Hstore1. rewrite catalog_store_records in Hstore1.
  pose proof Hcatalog as Hstore. rewrite catalog_store_records in Hstore.
  split; [|split].
  - rewrite (get_product_by_id_reads id s1 _ Hstore1),
      (first_with_id_app records [data] id Hfresh).
    cbn [first_with_id]. cbv [mbind outcome_bind]. rewrite Hid, Hself.
    reflexivity.
  - intros other found Hother Hne.
    rewrite (get_product_by_id_reads other s1 _ Hstore1),
      (get_product_by_id_reads other s _ Hstore). cbn [fst].
    destruct found.
    + apply first_with_id_app_found, Hother.
    + rewrite (first_with_id_app records [data] other Hother).
      rewrite (first_with_id_missing records other Hother).
      cbn [first_with_id]. cbv [mbind outcome_bind]. rewrite Hid, Hne.
      reflexivity.
  - apply (create_product_duplicate s1 data id (records ++ [data]) Hvalid Hcatalog1 Hid).
    rewrite (any_with_id_app records [data] id Hfresh).
    cbn [any_with_id]. cbv [mbind outcome_bind]. rewrite Hid, Hself.
    reflexivity.
Qed.

Lemma py_getitem_get (d : value) (k : string) (v : value) :
  py_getitem d k = Ok v -> py_get d k = Ok v.
Proof.
  unfold py_getitem, py_get, py_get_default. destruct d; try discriminate.
  destruct (d !! k); [intros [= <-]; reflexivity | discriminate].
Qed.

(** X8. On a readable catalog [create_product] ends in one of three ways,
    whatever record it is given.  Either nothing at all has changed (the
    record is refused, the call raises, or the file cannot be opened for
    writing).  Or the catalog is the old one with the record appended,
    which is the case exactly when the call answers success.  Or
    [json.dump] raised on the new database after the file was opened: the
    answer is ["Failed to save"] and the products file is lost, so that
    the catalog reads back empty.  Hence a record of the catalog is never
    changed, and it is removed only by such a failed save, which removes
    them all.  The session memory and every other file are never
    touched. *)
Theorem create_product_outcomes (data : value) (s : Sys) (records : list value) :
  catalog (world s) = Some records ->
  ((create_product data s).2 = s /\
   (forall message errors,
      (create_product data s).1 <> Ok (true, message, errors)) \/
   (exists db',
      json_dump_raises E db' = false /\
      create_product data s =
        (Ok (true, "Product created successfully", []),
         written PRODUCTS_DB db' s) /\
      catalog (world (written PRODUCTS_DB db' s)) = Some (records ++ [data])%list) \/
   (exists db',
      json_dump_raises E db' = true /\
      create_product data s =
        (Ok (false, "Failed to save", []), torn PRODUCTS_DB s) /\
      files (world (torn PRODUCTS_DB s)) = delete PRODUCTS_DB (files (world s)) /\
      catalog (world (torn PRODUCTS_DB s)) = Some [])) /\
  (forall message errors,
     (create_product data s).1 = Ok (true, message, errors) ->
     catalog (world (create_product data s).2) = Some (records ++ [data])%list) /\
  (forall errors,
     validate_product_data data = Ok (false, errors) ->
     create_product data s = (Ok (false, "Validation failed", errors), s)) /\
  memory (create_product data s).2 = memory s /\
  (forall path, path <> PRODUCTS_DB ->
     files (world (create_product data s).2) !! path = files (world s) !! path).
Proof.
  intros Hcatalog.
  assert (forall errors,
            validate_product_data data = Ok (false, errors) ->
            create_product data s = (Ok (false, "Validation failed", errors), s))
    as Hinvalid.
  { intros errors Hv. unfold create_product. run. rewrite Hv. reflexivity. }
  enough (((create_product data s).2 = s /\
           (forall message errors,
              (create_product data s).1 <> Ok (true, message, errors)) \/
           (exists db',
              json_dump_raises E db' = false /\
              create_product data s =
                (Ok (true, "Product created successfully", []),
                 written PRODUCTS_DB db' s) /\
              catalog (world (written PRODUCTS_DB db' s)) =
                Some (records ++ [data])%list) \/
           (exists db',
              json_dump_raises E db' = true /\
              create_product data s =
                (Ok (false, "Failed to save", []), torn PRODUCTS_DB s) /\
              files (world (torn PRODUCTS_DB s)) =
                delete PRODUCTS_DB (files (world s)) /\
              catalog (world (torn PRODUCTS_DB s)) = Some [])) /\
          memory (create_product data s).2 = memory s /\
          (forall path, path <> PRODUCTS_DB ->
             files (world (create_product data s).2) !! path =
               files (world s) !! path))
    as (Hways & Hmemory & Hother).
  { split; [exact Hways|]. split; [|split; [exact Hinvalid | split; assumption]].
    intros message errors Hsuccess.
    destruct Hways as [[_ Hnot] | [(db' & _ & Hcall & Hcat) | (db' & _ & Hcall & _)]].
    - destruct (Hnot _ _ Hsuccess).
    - rewrite Hcall. exact Hcat.
    - rewrite Hcall in Hsuccess. discriminate. }
  assert (forall r : outcome (bool * string * list string),
            (forall message errors, r <> Ok (true, message, errors)) ->
            create_product data s = (r, s) ->
            ((create_product data s).2 = s /\
             (forall message errors,
                (create_product data s).1 <> Ok (true, message, errors)) \/
             (exists db',
                json_dump_raises E db' = false /\
                create_product data s =
                  (Ok (true, "Product created successfully", []),
                   written PRODUCTS_DB db' s) /\
                catalog (world (written PRODUCTS_DB db' s)) =
                  Some (records ++ [data])%list) \/
             (exists db',
                json_dump_raises E db' = true /\
                create_product data s =
                  (Ok (false, "Failed to save", []), torn PRODUCTS_DB s) /\
                files (world (torn PRODUCTS_DB s)) =
                  delete PRODUCTS_DB (files (world s)) /\
                catalog (world (torn PRODUCTS_DB s)) = Some [])) /\
            memory (create_product data s).2 = memory s /\
            (forall path, path <> PRODUCTS_DB ->
               files (world (create_product data s).2) !! path =
                 files (world s) !! path))
    as Hkept.
  { intros r Hr ->. cbn [fst snd]. split; [left; split; [reflexivity | exact Hr]|].
    split; [reflexivity | intros; reflexivity]. }
  destruct (validate_product_data data) as [[[|] errors]|e] eqn:Hvalid.
  - destruct (validate_product_data_valid _ _ Hvalid) as (-> & id & name & Hid & _).
    apply py_getitem_get in Hid.
    destruct (any_with_id records id) as [[|]|e] eqn:Hany.
    + apply (Hkept (Ok (false, "Product ID already exists", ["Duplicate ID"])));
        [discriminate|].
      exact (create_product_duplicate s data id records Hvalid Hcatalog Hid Hany).
    + destruct (create_product_appends s data id records Hvalid Hcatalog Hid Hany)
        as (db' & _ & Hcat & Hcall).
      destruct (bool_decide (PRODUCTS_DB ∈ locked (world s))).
      * apply (Hkept (Ok (false, "Failed to save", []))); [discriminate | exact Hcall].
      * destruct (json_dump_raises E db') eqn:Hdump.
        -- rewrite Hcall. cbn [fst snd]. split; [|split; [reflexivity|]].
           ++ right. right. exists db'. split; [exact Hdump|].
              split; [reflexivity|]. split; [reflexivity | apply torn_catalog].
           ++ intros path Hpath. apply (torn_other PRODUCTS_DB path s Hpath).
        -- rewrite Hcall. cbn [fst snd]. split; [|split; [reflexivity|]].
           ++ right. left. exists db'. split; [exact Hdump|].
              split; [reflexivity | exact Hcat].
           ++ intros path Hpath. apply (written_other PRODUCTS_DB path db' s Hpath).
    + apply (Hkept (Raise e)); [discriminate|].
      pose proof Hcatalog as Hstore. rewrite catalog_store_records in Hstore.
      apply store_records_loaded in Hstore as (db & Hdb & Hget & _).
      unfold create_product. run. rewrite Hvalid.
      cbv beta iota zeta delta [negb].
      rewrite load_json_spec, Hdb, Hget. cbn [py_iter]. rewrite Hid, Hany.
      reflexivity.
  - apply (Hkept (Ok (false, "Validation failed", errors))); [discriminate|].
    exact (Hinvalid errors eq_refl).
  - apply (Hkept (Raise e)); [discriminate|].
    unfold create_product. run. rewrite Hvalid. reflexivity.
Qed.

(** ** Updating records *)

Lemma update_first_none (records : list value) (id updates : value) :
  any_with_id records id = Ok false -> update_first records id updates = Ok None.
Proof.
  induction records as [|r rest IH]; cbn [any_with_id update_first];
    [reflexivity|].
  cbv [mbind outcome_bind]. destruct (py_get r "id") as [rid|]; [|discriminate].
  destruct (py_eq rid id); [discriminate|].
  intros Hrest. rewrite (IH Hrest). reflexivity.
Qed.

Lemma update_first_some (records records' : list value) (id updates : value) :
  update_first records id updates = Ok (Some records') ->
  exists before r after r',
    records = (before ++ r :: after)%list /\
    records' = (before ++ r' :: after)%list /\
    any_with_id before id = Ok false /\
    first_with_id records id = Ok r /\
    py_dict_update r updates = Ok r'.
Proof.
  revert records'.
  induction records as [|r rest IH]; intros records';
    cbn [update_first first_with_id]; [discriminate|].
  cbv [mbind outcome_bind]. destruct (py_get r "id") as [rid|] eqn:Hrid;
    [|discriminate].
  destruct (py_eq rid id) eqn:Heq.
  - destruct (py_dict_update r updates) as [r'|] eqn:Hupdate; [|discriminate].
    intros [= <-]. exists [], r, rest, r'. repeat split. exact Hupdate.
  - destruct (update_first rest id updates) as [[rest'|]|] eqn:Hrest;
      try discriminate.
    intros [= <-].
    destruct (IH rest' eq_refl) as (before & x & after & x' & -> & -> & Hb & Hf & Hu).
    exists (r :: before), x, after, x'. repeat split; try assumption.
    cbn [any_with_id]. cbv [mbind outcome_bind]. rewrite Hrid, Heq. exact Hb.
Qed.

(** X9. The loop shared by [update_product] and [update_sale] changes at
    most one record: when no record has the id nothing is updated;
    otherwise exactly the first record with that id, the one the lookup by
    id answers, is replaced by its update, and every other record, the
    order and the number of records stay as they were.  Updating a dict
    with a dict overwrites the fields the update names and keeps the
    others. *)
Theorem update_first_only_first (records : list value) (id updates : value) :
  (any_with_id records id = Ok false ->
     update_first records id updates = Ok None) /\
  (forall records',
     update_first records id updates = Ok (Some records') ->
     length records' = length records /\
     exists before r after r',
       records = (before ++ r :: after)%list /\
       records' = (before ++ r' :: after)%list /\
       any_with_id before id = Ok false /\
       first_with_id records id = Ok r /\
       py_dict_update r updates = Ok r') /\
  (forall fields changes : gmap string value,
     exists fields',
       py_dict_update (VDict fields) (VDict changes) = Ok (VDict fields') /\
       forall k,
         fields' !! k =
           match changes !! k with
           | Some v => Some v
           | None => fields !! k
           end).
Proof.
  split; [apply update_first_none|]. split.
  - intros records' Hupdate.
    destruct (update_first_some _ _ _ _ Hupdate)
      as (before & r & after & r' & -> & -> & Hb & Hf & Hu).
    split.
    + rewrite !length_app. reflexivity.
    + exists before, r, after, r'. repeat split; assumption.
  - intros fields changes. exists (changes ∪ fields). split; [reflexivity|].
    intros k. rewrite lookup_union.
    destruct (changes !! k), (fields !! k); reflexivity.
Qed.

Lemma replaced_store_records (filepath key : string) (records records' : list value)
    (s : Sys) :
  store_records filepath key (world s) = Some records ->
  store_records filepath key
    (world (written filepath (replaced filepath key records' (world s)) s)) =
    Some records'.
Proof.
  intros Hstore. apply store_records_loaded in Hstore as (db & Hdb & _).
  unfold store_records, replaced, loaded in *. cbn [written world files].
  rewrite lookup_insert_eq, Hdb, lookup_insert_eq. reflexivity.
Qed.

(** X10. On a readable store, [update_product] and [update_sale] answer
    "not found" and change nothing when no record has the id.  When the
    loop updates a record they save the database with that one record
    replaced, and end as the save does: success, and the store holds the
    new list; the file cannot be opened, the answer is a failure and the
    store stays as it was; or [json.dump] raises on the new database, the
    answer is the same failure, but the file is lost and the store reads
    back empty.  The session memory and the other files are not
    touched. *)
Theorem update_in_store (id updates : value) (s : Sys) :
  (forall records,
     store_records PRODUCTS_DB "products" (world s) = Some records ->
     (any_with_id records id = Ok false ->
        update_product id updates s = (Ok (false, "Product not found"), s)) /\
     (forall records',
        update_first records id updates = Ok (Some records') ->
        update_product id updates s =
          if bool_decide (PRODUCTS_DB ∈ locked (world s))
          then (Ok (false, "Failed to update"), s)
          else if json_dump_raises E (replaced PRODUCTS_DB "products" records' (world s))
          then (Ok (false, "Failed to update"), torn PRODUCTS_DB s)
          else (Ok (true, "Product updated successfully"),
                written PRODUCTS_DB
                  (replaced PRODUCTS_DB "products" records' (world s)) s))) /\
  (forall records,
     store_records SALES_DB "sales" (world s) = Some records ->
     (any_with_id records id = Ok false ->
        update_sale id updates s = (Ok (false, "Sale not found"), s)) /\
     (forall records',
        update_first records id updates = Ok (Some records') ->
        update_sale id updates s =
          if bool_decide (SALES_DB ∈ locked (world s))
          then (Ok (false, "Failed to update"), s)
          else if json_dump_raises E (replaced SALES_DB "sales" records' (world s))
          then (Ok (false, "Failed to update"), torn SALES_DB s)
          else (Ok (true, "Sale updated successfully"),
                written SALES_DB (replaced SALES_DB "sales" records' (world s)) s))) /\
  (forall filepath key records records',
     store_records filepath key (world s) = Some records ->
     let db' := replaced filepath key records' (world s) in
     store_records filepath key (world (written filepath db' s)) = Some records' /\
     store_records filepath key (world (torn filepath s)) = Some [] /\
     memory (written filepath db' s) = memory s /\
     memory (torn filepath s) = memory s /\
     forall other, other <> filepath ->
       files (world (written filepath db' s)) !! other = files (world s) !! other /\
       files (world (torn filepath s)) !! other = files (world s) !! other).
Proof.
  split; [|split].
  - intros records Hstore.
    apply store_records_loaded in Hstore as (db & Hdb & Hget & _). split.
    + intros Hnone. unfold update_product. run.
      rewrite load_json_spec, Hdb, Hget. cbn [py_iter].
      rewrite (update_first_none _ _ updates Hnone). reflexivity.
    + intros records' Hupdate. unfold update_product. run.
      rewrite load_json_spec, Hdb, Hget. cbn [py_iter py_setitem].
      rewrite Hupdate, save_json_cases. unfold replaced. rewrite Hdb.
      destruct (bool_decide (PRODUCTS_DB ∈ locked (world s))); [reflexivity|].
      destruct (json_dump_raises E _); reflexivity.
  - intros records Hstore.
    apply store_records_loaded in Hstore as (db & Hdb & Hget & _). split.
    + intros Hnone. unfold update_sale. run.
      rewrite load_json_spec, Hdb, Hget. cbn [py_iter].
      rewrite (update_first_none _ _ updates Hnone). reflexivity.
    + intros records' Hupdate. unfold update_sale. run.
      rewrite load_json_spec, Hdb, Hget. cbn [py_iter py_setitem].
      rewrite Hupdate, save_json_cases. unfold replaced. rewrite Hdb.
      destruct (bool_decide (SALES_DB ∈ locked (world s))); [reflexivity|].
      destruct (json_dump_raises E _); reflexivity.
  - intros filepath key records records' Hstore db'.
    split; [apply (replaced_store_records _ _ records), Hstore|].
    split; [apply torn_store_records|]. split; [reflexivity|].
    split; [reflexivity|]. intros other Hother. split.
    + apply (written_other filepath other db' s Hother).
    + apply (torn_other filepath other s Hother).
Qed.

(** ** Creating sales *)

Lemma validate_sale_data_dict (sale_data : value) (result : bool * list string) :
  validate_sale_data sale_data = Ok result -> exists fields, sale_data = VDict fields.
Proof.
  unfold validate_sale_data, py_get, py_get_default. cbv [mbind outcome_bind].
  destruct sale_data as [| | | | |fields]; try discriminate.
  intros _. exists fields. reflexivity.
Qed.

(** With a valid record and a readable sales store, [create_sale] reads
    the clock, saves the database with the stamped record appended, and
    ends as the save does. *)
Lemma create_sale_appends (s : Sys) (data : value) (records : list value) :
  validate_sale_data data = Ok (true, []) ->
  store_records SALES_DB "sales" (world s) = Some records ->
  exists fields stamped db',
    data = VDict fields /\
    stamped = VDict (<["created_at" := VStr (isoformat E (clock (world s)))]> fields) /\
    setdefault_append (loaded SALES_DB (world s)) "sales" stamped = Ok db' /\
    store_records SALES_DB "sales" (world (written SALES_DB db' (datetime_now s).2)) =
      Some (records ++ [stamped])%list /\
    create_sale data s =
      if bool_decide (SALES_DB ∈ locked (world s))
      then (Ok (false, "Failed to save", []), (datetime_now s).2)
      else if json_dump_raises E db'
      then (Ok (false, "Failed to save", []), torn SALES_DB (datetime_now s).2)
      else (Ok (true, "Sale created successfully", []),
            written SALES_DB db' (datetime_now s).2).
Proof.
  intros Hvalid Hstore.
  destruct (validate_sale_data_dict _ _ Hvalid) as [fields ->].
  apply store_records_loaded in Hstore as (db & Hdb & _ & Hkey).
  exists fields. eexists. eexists. split; [reflexivity|]. split; [reflexivity|].
  assert (setdefault_append (VDict db) "sales"
            (VDict (<["created_at" := VStr (isoformat E (clock (world s)))]> fields)) =
          Ok (VDict (<["sales" := VList (records ++
                [VDict (<["created_at" := VStr (isoformat E (clock (world s)))]>
                          fields)])]> db))) as Happend.
  { unfold setdefault_append. destruct Hkey as [[-> ->] | ->]; reflexivity. }
  rewrite Hdb. split; [exact Happend|]. split.
  - unfold store_records, loaded. cbn [written world files].
    rewrite lookup_insert_eq, lookup_insert_eq. reflexivity.
  - unfold create_sale. run. rewrite Hvalid. cbv beta iota zeta delta [negb].
    rewrite load_json_spec, Hdb. cbv [datetime_now]. cbn [py_setitem world clock].
    rewrite Happend, save_json_cases. cbn [world locked].
    destruct (bool_decide (SALES_DB ∈ locked (world s))); [reflexivity|].
    destruct (json_dump_raises E _); reflexivity.
Qed.

(** X11. [create_sale] does not look for an existing sale with the same
    id: on a readable sales store every record that passes validation is
    stamped with [created_at] (a stamp it carried is overwritten, every
    other field is kept) and the database with the stamped record
    appended is saved, also when a sale with that id is there already.
    The call ends as the save does.  When the save goes through it
    answers success and the store holds the old records followed by the
    stamped one.  When the file cannot be opened it answers failure and no
    file has changed.  When [json.dump] raises on the new database it
    answers the same failure and the sales file is lost: the store reads
    back empty.  The other files and the session memory are unchanged in
    every case. *)
Theorem create_sale_always_appends (s : Sys) (data : value) (records : list value) :
  validate_sale_data data = Ok (true, []) ->
  store_records SALES_DB "sales" (world s) = Some records ->
  exists stamped db',
    py_setitem data "created_at" (VStr (isoformat E (clock (world s)))) = Ok stamped /\
    py_get stamped "created_at" = Ok (VStr (isoformat E (clock (world s)))) /\
    (forall k, k <> "created_at" -> py_get stamped k = py_get data k) /\
    setdefault_append (loaded SALES_DB (world s)) "sales" stamped = Ok db' /\
    let s0 := (datetime_now s).2 in
    create_sale data s =
      (if bool_decide (SALES_DB ∈ locked (world s))
       then (Ok (false, "Failed to save", []), s0)
       else if json_dump_raises E db'
       then (Ok (false, "Failed to save", []), torn SALES_DB s0)
       else (Ok (true, "Sale created successfully", []), written SALES_DB db' s0)) /\
    files (world s0) = files (world s) /\
    store_records SALES_DB "sales" (world (written SALES_DB db' s0)) =
      Some (records ++ [stamped])%list /\
    store_records SALES_DB "sales" (world (torn SALES_DB s0)) = Some [] /\
    memory (create_sale data s).2 = memory s /\
    (forall other, other <> SALES_DB ->
       files (world (create_sale data s).2) !! other = files (world s) !! other).
Proof.
  intros Hvalid Hstore.
  destruct (create_sale_appends s data records Hvalid Hstore)
    as (fields & stamped & db' & -> & -> & Happend & Hrecords & Hcall).
  eexists. exists db'. split; [reflexivity|]. split; [|split; [|split]].
  - unfold py_get, py_get_default. rewrite lookup_insert_eq. reflexivity.
  - intros k Hk. unfold py_get, py_get_default.
    rewrite lookup_insert_ne by congruence. reflexivity.
  - exact Happend.
  - intros s0. split; [exact Hcall|]. split; [reflexivity|].
    split; [exact Hrecords|]. split; [apply torn_store_records|].
    rewrite Hcall.
    destruct (bool_decide (SALES_DB ∈ locked (world s)));
      [split; [reflexivity | intros; reflexivity]|].
    destruct (json_dump_raises E db'); (split; [reflexivity|]);
      intros other Hother.
    + apply (torn_other SALES_DB other s0 Hother).
    + apply (written_other SALES_DB other db' s0 Hother).
Qed.

(** X12. Let [create_sale] store a valid record: the file can be opened
    and [json.dump] takes the new database.  Because an id that is
    already in the store is accepted, the new record is then out of reach
    of [get_sale_by_id]: after the call the lookup still answers the old
    first record with that id.  With a new id the lookup answers the
    stamped record, provided the id equals itself, as every value but the
    float NaN does. *)
Theorem create_sale_then_get (s : Sys) (data id : value) (records : list value) :
  validate_sale_data data = Ok (true, []) ->
  store_records SALES_DB "sales" (world s) = Some records ->
  py_get data "id" = Ok id ->
  exists stamped db',
    py_setitem data "created_at" (VStr (isoformat E (clock (world s)))) = Ok stamped /\
    setdefault_append (loaded SALES_DB (world s)) "sales" stamped = Ok db' /\
    (SALES_DB ∉ locked (world s) ->
     json_dump_raises E db' = false ->
     (create_sale data s).1 = Ok (true, "Sale created successfully", []) /\
     (any_with_id records id = Ok true ->
        exists old,
          old ∈ records /\
          (get_sale_by_id id s).1 = Ok old /\
          (get_sale_by_id id (create_sale data s).2).1 = Ok old) /\
     (any_with_id records id = Ok false ->
      py_eq id id = true ->
        (get_sale_by_id id (create_sale data s).2).1 = Ok stamped)).
Proof.
  intros Hvalid Hstore Hid.
  destruct (create_sale_appends s data records Hvalid Hstore)
    as (fields & stamped & db' & -> & -> & Happend & Hstore1 & Hcall).
  eexists. exists db'. split; [reflexivity|]. split; [exact Happend|].
  intros Hfree Hdumps.
  rewrite bool_decide_eq_false_2, Hdumps in Hcall by exact Hfree.
  rewrite Hcall. cbn [fst snd].
  split; [reflexivity|].
  rewrite (get_sale_by_id_reads id _ _ Hstore1),
    (get_sale_by_id_reads id s _ Hstore). cbn [fst].
  split.
  - intros Hfound.
    destruct (first_with_id_found records id Hfound)
      as (before & old & after & rid & Hrecords & _ & _ & _ & Hfirst).
    exists old. split; [|split].
    + rewrite Hrecords. apply elem_of_app. right. left.
    + exact Hfirst.
    + rewrite (first_with_id_app_found records _ id Hfound). exact Hfirst.
  - intros Hfresh Hself. rewrite (first_with_id_app records _ id Hfresh).
    cbn [first_with_id]. cbv [mbind outcome_bind].
    assert (py_get (VDict (<["created_at" := VStr (isoformat E (clock (world s)))]>
                             fields)) "id" = Ok id) as ->.
    { unfold py_get, py_get_default in *.
      rewrite lookup_insert_ne by discriminate. exact Hid. }
    rewrite Hself. reflexivity.
Qed.

(** ** The filtering queries *)

Lemma filter_sales_spec (customer_id status : value) (sales results : list value) :
  filter_sales customer_id status sales = Ok results ->
  sublist results sales /\
  forall r, r ∈ results <-> r ∈ sales /\ sale_matches customer_id status r = Ok true.
Proof.
  revert results. induction sales as [|sale rest IH]; intros results;
    cbn [filter_sales].
  - intros [= <-]. split; [constructor|]. intros r. split.
    + intros Hr. inversion Hr.
    + intros [Hr _]. inversion Hr.
  - cbv [mbind outcome_bind].
    destruct (sale_matches customer_id status sale) as [keep|] eqn:Hkeep;
      [|discriminate].
    destruct (filter_sales customer_id status rest) as [results'|]; [|discriminate].
    destruct (IH results' eq_refl) as [Hsub Hmem].
    destruct keep; intros [= <-].
    + split; [apply sublist_skip, Hsub|]. intros r.
      rewrite !elem_of_cons, Hmem. split.
      * intros [-> | [Hr Hm]]; [split; [left; reflexivity | exact Hkeep]|].
        split; [right; exact Hr | exact Hm].
      * intros [[-> | Hr] Hm]; [left; reflexivity | right; split; assumption].
    + split; [apply sublist_cons, Hsub|]. intros r.
      rewrite elem_of_cons, Hmem. split.
      * intros [Hr Hm]. split; [right; exact Hr | exact Hm].
      * intros [[-> | Hr] Hm]; [congruence | split; assumption].
Qed.

Lemma filter_sales_unfiltered (customer_id status : value) (sales : list value) :
  truthy customer_id = false -> truthy status = false ->
  filter_sales customer_id status sales = Ok sales.
Proof.
  intros Hc Hs. induction sales as [|sale rest IH]; cbn [filter_sales];
    [reflexivity|].
  unfold sale_matches. rewrite Hc, Hs. cbv [mbind outcome_bind].
  rewrite IH. reflexivity.
Qed.

(** X13. [search_sales] reads the sales store and changes nothing.  Its
    results are the sales that pass both filters, in the order of the
    store: a sale passes when each filter that is given (truthy) equals
    the sale's [customer_id], respectively [payment_status].  With no
    filter given it answers the whole store, whatever the records are. *)
Theorem search_sales_filters (customer_id status : value) (s : Sys)
    (records : list value) :
  store_records SALES_DB "sales" (world s) = Some records ->
  search_sales customer_id status s = (filter_sales customer_id status records, s) /\
  (forall results,
     filter_sales customer_id status records = Ok results ->
     sublist results records /\
     forall r,
       r ∈ results <->
       r ∈ records /\ sale_matches customer_id status r = Ok true) /\
  (forall fields : gmap string value,
     sale_matches customer_id status (VDict fields) =
       Ok ((negb (truthy customer_id) ||
            py_eq (default VNone (fields !! "customer_id")) customer_id) &&
           (negb (truthy status) ||
            py_eq (default VNone (fields !! "payment_status")) status))) /\
  (truthy customer_id = false -> truthy status = false ->
     search_sales customer_id status s = (Ok records, s)).
Proof.
  intros Hstore.
  assert (search_sales customer_id status s =
            (filter_sales customer_id status records, s)) as Hsearch.
  { apply store_records_loaded in Hstore as (db & Hdb & Hget & _).
    unfold search_sales. run. rewrite load_json_spec, Hdb, Hget. reflexivity. }
  split; [exact Hsearch|]. split; [|split].
  - intros results. apply filter_sales_spec.
  - intros fields. unfold sale_matches, py_get, py_get_default.
    cbv [mbind outcome_bind].
    destruct (truthy customer_id), (truthy status); cbn [negb orb andb];
      destruct (fields !! "customer_id"), (fields !! "payment_status");
      cbn [default from_option id];
      repeat match goal with
             | |- context [py_eq ?a ?b] => destruct (py_eq a b)
             end; reflexivity.
  - intros Hc Hs. rewrite Hsearch, (filter_sales_unfiltered _ _ _ Hc Hs).
    reflexivity.
Qed.

Lemma with_category_spec (category : value) (records results : list value) :
  with_category category records = Ok results ->
  sublist results records /\
  forall r,
    r ∈ results <->
    r ∈ records /\ exists c, py_get r "category" = Ok c /\ py_eq c category = true.
Proof.
  revert results. induction records as [|p rest IH]; intros results;
    cbn [with_category].
  - intros [= <-]. split; [constructor|]. intros r. split.
    + intros Hr. inversion Hr.
    + intros [Hr _]. inversion Hr.
  - cbv [mbind outcome_bind].
    destruct (py_get p "category") as [c|] eqn:Hc; [|discriminate].
    destruct (with_category category rest) as [results'|]; [|discriminate].
    destruct (IH results' eq_refl) as [Hsub Hmem].
    destruct (py_eq c category) eqn:Heq; intros [= <-].
    + split; [apply sublist_skip, Hsub|]. intros r.
      rewrite !elem_of_cons, Hmem. split.
      * intros [-> | [Hr Hm]].
        -- split; [left; reflexivity|]. exists c. split; assumption.
        -- split; [right; exact Hr | exact Hm].
      * intros [[-> | Hr] Hm]; [left; reflexivity | right; split; assumption].
    + split; [apply sublist_cons, Hsub|]. intros r.
      rewrite elem_of_cons, Hmem. split.
      * intros [Hr Hm]. split; [right; exact Hr | exact Hm].
      * intros [[-> | Hr] Hm]; [|split; assumption].
        destruct Hm as (c' & Hc' & Heq'). congruence.
Qed.

Lemma with_category_dicts (category : value) (records : list value) :
  Forall (fun r => exists fields, r = VDict fields) records ->
  exists results, with_category category records = Ok results.
Proof.
  induction 1 as [|r rest [fields ->] _ [results IH]]; cbn [with_category].
  - exists []. reflexivity.
  - cbv [mbind outcome_bind py_get py_get_default]. rewrite IH.
    eexists. reflexivity.
Qed.

(** X14. [list_products_by_category] answers the empty list for a category
    outside the enumeration without reading the store, whatever the store
    holds.  For a category of the enumeration it answers, in the order of
    the catalog and without changing anything, exactly the products whose
    category equals it; it raises only when a record of the catalog is not
    a dict. *)
Theorem list_products_by_category_filters (category : value) (s : Sys) :
  (in_literals category valid_categories = false ->
     list_products_by_category category s = (Ok [], s)) /\
  (in_literals category valid_categories = true ->
   forall records,
     store_records PRODUCTS_DB "products" (world s) = Some records ->
     list_products_by_category category s = (with_category category records, s) /\
     (forall results,
        with_category category records = Ok results ->
        sublist results records /\
        forall r,
          r ∈ results <->
          r ∈ records /\
          exists c, py_get r "category" = Ok c /\ py_eq c category = true) /\
     (Forall (fun r => exists fields, r = VDict fields) records ->
      exists results, with_category category records = Ok results)).
Proof.
  split.
  - intros Hout. unfold list_products_by_category. rewrite Hout. reflexivity.
  - intros Hin records Hstore. split; [|split].
    + apply store_records_loaded in Hstore as (db & Hdb & Hget & _).
      unfold list_products_by_category. rewrite Hin. cbn [negb]. run.
      rewrite load_json_spec, Hdb, Hget. reflexivity.
    + intros results. apply with_category_spec.
    + apply with_category_dicts.
Qed.

Lemma vendors_named_spec (query_lower : string) (vendors results : list value) :
  vendors_named query_lower vendors = Ok results ->
  sublist results vendors /\
  forall v,
    v ∈ results <->
    v ∈ vendors /\
    exists name,
      py_get_default v "name" (VStr "") = Ok (VStr name) /\
      str_in query_lower (lower E name) = true.
Proof.
  revert results. induction vendors as [|p rest IH]; intros results;
    cbn [vendors_named].
  - intros [= <-]. split; [constructor|]. intros r. split.
    + intros Hr. inversion Hr.
    + intros [Hr _]. inversion Hr.
  - cbv [mbind outcome_bind].
    destruct (py_get_default p "name" (VStr "")) as [name|] eqn:Hname;
      [|discriminate].
    destruct name as [| | | name | |]; cbn [py_lower]; try discriminate.
    destruct (vendors_named query_lower rest) as [results'|]; [|discriminate].
    destruct (IH results' eq_refl) as [Hsub Hmem].
    destruct (str_in query_lower (lower E name)) eqn:Hin; intros [= <-].
    + split; [apply sublist_skip, Hsub|]. intros r.
      rewrite !elem_of_cons, Hmem. split.
      * intros [-> | [Hr Hm]].
        -- split; [left; reflexivity|]. exists name. split; assumption.
        -- split; [right; exact Hr | exact Hm].
      * intros [[-> | Hr] Hm]; [left; reflexivity | right; split; assumption].
    + split; [apply sublist_cons, Hsub|]. intros r.
      rewrite elem_of_cons, Hmem. split.
      * intros [Hr Hm]. split; [right; exact Hr | exact Hm].
      * intros [[-> | Hr] Hm]; [|split; assumption].
        destruct Hm as (name' & Hname' & Hin'). congruence.
Qed.

(** X15. [search_vendors] compares in lower case: on a readable vendor
    store its results are, in the order of the store and without changing
    anything, exactly the vendors whose lowered name contains the lowered
    query, a vendor without a name counting as named [""].  So two queries
    with the same lowered form have the same answer.  A query that is not
    a string makes the call raise [AttributeError], even on an empty
    store. *)
Theorem search_vendors_filters (query : value) (s : Sys) (records : list value) :
  store_records VENDORS_DB "vendors" (world s) = Some records ->
  (forall text,
     query = VStr text ->
     search_vendors query s = (vendors_named (lower E text) records, s) /\
     (forall results,
        vendors_named (lower E text) records = Ok results ->
        sublist results records /\
        forall v,
          v ∈ results <->
          v ∈ records /\
          exists name,
            py_get_default v "name" (VStr "") = Ok (VStr name) /\
            str_in (lower E text) (lower E name) = true) /\
     (forall text',
        lower E text' = lower E text ->
        search_vendors (VStr text') s = search_vendors query s)) /\
  ((forall text, query <> VStr text) ->
     search_vendors query s = (Raise AttributeError, s)).
Proof.
  intros Hstore. apply store_records_loaded in Hstore as (db & Hdb & Hget & _).
  assert (forall text,
            search_vendors (VStr text) s =
              (vendors_named (lower E text) records, s)) as Hsearch.
  { intros text. unfold search_vendors. run.
    rewrite load_json_spec, Hdb. cbn [py_lower]. rewrite Hget. reflexivity. }
  split.
  - intros text ->. split; [apply Hsearch|]. split.
    + intros results. apply vendors_named_spec.
    + intros text' Hsame. rewrite !Hsearch, Hsame. reflexivity.
  - intros Hnot. unfold search_vendors. run. rewrite load_json_spec.
    destruct query as [| | | text | |]; try reflexivity.
    destruct (Hnot text eq_refl).
Qed.

(** ** Validation of the entities and the error node *)

Lemma check_enumerated_dict (d : gmap string value) (key : string)
    (allowed : list string) (message : string) :
  check_enumerated (VDict d) key allowed message =
    Ok (if out_of_enumeration d key allowed then [message] else []).
Proof.
  unfold check_enumerated, out_of_enumeration, py_contains, py_getitem.
  cbv [mbind outcome_bind].
  destruct (d !! key) as [v|] eqn:Hkey.
  - rewrite bool_decide_eq_true_2 by (eexists; reflexivity).
    destruct (truthy v), (in_literals v allowed); reflexivity.
  - rewrite bool_decide_eq_false_2 by (intros [v Hv]; discriminate).
    reflexivity.
Qed.

(** X16. [validate_input] on a dict of entities never raises and changes
    nothing but the list of validation errors: one message for a category
    that is present, truthy and outside the five categories, one for such
    a status, in this order, and no other.  As soon as there is one, the
    router selects the error node whatever the intent is (also for a
    confirmation or a cancellation), and that node answers with a text
    that shows every message and leaves the session and the stores as they
    were. *)
Theorem validate_input_routes_errors (state : ConversationState) (s : Sys)
    (d : gmap string value) :
  entities state = VDict d ->
  let errors :=
    ((if out_of_enumeration d "category" valid_categories
      then ["Invalid category. Choose from: " +:+ join ", " valid_categories]
      else []) ++
     (if out_of_enumeration d "status" valid_statuses
      then ["Invalid status. Choose from: " +:+ join ", " valid_statuses]
      else []))%list in
  let state' := set_validation_errors state errors in
  validate_input state s = (Ok state', s) /\
  (out_of_enumeration d "category" valid_categories ||
   out_of_enumeration d "status" valid_statuses = true ->
   node_of (route_to_agent state') = Some handle_validation_errors_node /\
   exists response,
     handle_validation_errors_node state' s =
       (Ok (set_agent_response state' response), s) /\
     Forall (fun error => str_in error response = true) errors) /\
  (out_of_enumeration d "category" valid_categories = false ->
   out_of_enumeration d "status" valid_statuses = false ->
   state' = set_validation_errors state [] /\
   route_to_agent state' <> "handle_validation_errors").
Proof.
  intros Hentities errors state'. split; [|split].
  - unfold validate_input. rewrite Hentities. run.
    rewrite !check_enumerated_dict. reflexivity.
  - intros Hbad. split.
    + assert (exists e rest, errors = e :: rest) as (e & rest & Herrors).
      { subst errors.
        destruct (out_of_enumeration d "category" valid_categories);
          [eexists _, _; reflexivity|].
        destruct (out_of_enumeration d "status" valid_statuses);
          [eexists _, _; reflexivity | discriminate]. }
      unfold route_to_agent. subst state'. cbn [validation_errors set_validation_errors].
      rewrite Herrors. reflexivity.
    + eexists. split; [reflexivity|].
      cbn [validation_errors set_validation_errors state'].
      eapply Forall_impl; [apply bullets_lists|]. intros x Hx.
      do 3 apply str_in_app_r. apply str_in_app_l, Hx.
  - intros Hcategory Hstatus. subst state' errors.
    rewrite Hcategory, Hstatus. split; [reflexivity|].
    unfold route_to_agent. cbn [validation_errors set_validation_errors intent app].
    repeat match goal with
           | |- context [if ?b then _ else _] => destruct b
           end; discriminate.
Qed.

(** ** Staging a create action *)

Lemma pending_of_staged (action : value) (s : Sys) :
  pending_of (staged action s) = action.
Proof. unfold pending_of, staged. cbn [memory pending_actions]. rewrite last_snoc. reflexivity. Qed.

Lemma str_in_refl (x : string) : str_in x x = true.
Proof.
  destruct x as [|c x]; [reflexivity|]. cbn [str_in].
  replace (starts_with (String c x) (String c x)) with true; [reflexivity|].
  symmetry. generalize (String c x). intros y.
  induction y as [|a y IH]; [reflexivity|]. cbn [starts_with].
  rewrite IH, Ascii.eqb_refl. reflexivity.
Qed.

Lemma product_candidate_fields (entities product_data : value) :
  product_candidate entities = Ok product_data ->
  exists d,
    entities = VDict d /\
    py_get product_data "id" = Ok (default VNone (d !! "product_id")) /\
    py_get product_data "name" = Ok (default VNone (d !! "product_name")) /\
    py_get product_data "category" = Ok (default VNone (d !! "category")) /\
    py_get product_data "rating" = Ok (default (VNum 0) (d !! "rating_min")) /\
    py_get product_data "company_id" = Ok (VStr "comp_001") /\
    py_get product_data "variants" = Ok (VList []).
Proof.
  destruct entities as [| | | | |d]; try discriminate.
  unfold product_candidate, py_get, py_get_default. cbv [mbind outcome_bind].
  intros [= <-]. exists d. split; [reflexivity|].
  repeat split; f_equal;
    destruct (d !! "product_id"), (d !! "product_name"), (d !! "category"),
      (d !! "rating_min"); vm_compute; reflexivity.
Qed.

Lemma validate_product_data_category (product_data : value) (errors : list string) :
  validate_product_data product_data = Ok (true, errors) ->
  exists category,
    py_getitem product_data "category" = Ok category /\
    in_literals category valid_categories = true.
Proof.
  unfold validate_product_data. cbv [mbind outcome_bind].
  destruct (py_get product_data "id") as [id|]; [|discriminate].
  destruct (py_get product_data "name") as [name|]; [|discriminate].
  destruct (py_get product_data "category") as [category|] eqn:Hcategory;
    [|discriminate].
  destruct (truthy id); [|discriminate].
  destruct (truthy name); [|discriminate].
  destruct (truthy category) eqn:Tcategory; [|discriminate].
  destruct (in_literals category valid_categories) eqn:Hin; [|discriminate].
  intros _. exists category. split; [|exact Hin].
  apply py_get_truthy; assumption.
Qed.

Lemma product_agent_node_staged (state : ConversationState) (s : Sys)
    (product_data : value) (errors : list string) :
  intent state = VStr "create_product" ->
  product_candidate (entities state) = Ok product_data ->
  validate_product_data product_data = Ok (true, errors) ->
  exists response,
    product_agent_node state s =
      (Ok (set_pending_confirmation (set_agent_response state response) product_data),
       staged (staged_action "create_product" product_data) s) /\
    str_in "Would you like me to proceed with creating this product? (Yes/No)"
      response = true.
Proof.
  intros Hintent Hcandidate Hvalid.
  destruct (validate_product_data_valid _ _ Hvalid) as (_ & id & name & Hid & Hname).
  destruct (validate_product_data_category _ _ Hvalid) as (category & Hcategory & _).
  assert (exists brand,
            py_get_default product_data "brand" (VStr "N/A") = Ok brand)
    as [brand Hbrand].
  { destruct product_data; try discriminate. eexists. reflexivity. }
  eexists. split.
  - unfold product_agent_node. rewrite Hintent. eval_py_eq. run.
    rewrite Hcandidate, Hvalid. cbv beta iota zeta delta [negb].
    cbv [add_pending_action get_memory put_memory mbind M_bind mret M_ret].
    rewrite Hid, Hname, Hcategory, Hbrand. reflexivity.
  - do 16 apply str_in_app_r. apply str_in_refl.
Qed.

(** X17. Staging a product.  When the intent is [create_product] and the
    record built from the entities passes the validation, the product
    handler returns, asks for a confirmation, and pushes exactly one
    action on the pending list: a [create_product] action that carries
    that record, which is then the action a confirmation picks up.  The
    context, the message log and the files are not touched: nothing is
    written before the confirmation.  The record takes its id, name and
    category from the entities [product_id], [product_name] and
    [category], its rating from [rating_min], and always has the company
    ["comp_001"] and no variants. *)
Theorem product_agent_node_stages (state : ConversationState) (s : Sys)
    (product_data : value) (errors : list string) :
  intent state = VStr "create_product" ->
  product_candidate (entities state) = Ok product_data ->
  validate_product_data product_data = Ok (true, errors) ->
  let action := staged_action "create_product" product_data in
  (exists response,
     product_agent_node state s =
       (Ok (set_pending_confirmation (set_agent_response state response) product_data),
        staged action s) /\
     str_in "Would you like me to proceed with creating this product? (Yes/No)"
       response = true) /\
  stack (staged action s) = (stack s ++ [action])%list /\
  pending_of (staged action s) = action /\
  context (memory (staged action s)) = context (memory s) /\
  messages (memory (staged action s)) = messages (memory s) /\
  world (staged action s) = world s /\
  exists d,
    entities state = VDict d /\
    py_get product_data "id" = Ok (default VNone (d !! "product_id")) /\
    py_get product_data "name" = Ok (default VNone (d !! "product_name")) /\
    py_get product_data "category" = Ok (default VNone (d !! "category")) /\
    py_get product_data "rating" = Ok (default (VNum 0) (d !! "rating_min")) /\
    py_get product_data "company_id" = Ok (VStr "comp_001") /\
    py_get product_data "variants" = Ok (VList []).
Proof.
  intros Hintent Hcandidate Hvalid action.
  split; [|split; [reflexivity|split; [apply pending_of_staged|]]].
  - exact (product_agent_node_staged state s product_data errors
             Hintent Hcandidate Hvalid).
  - repeat split. apply product_candidate_fields, Hcandidate.
Qed.

Lemma sale_candidate_fields (entities sale_data : value) (t : nat) :
  sale_candidate entities t = Ok sale_data ->
  exists d,
    entities = VDict d /\
    py_get sale_data "id" =
      Ok (default (VStr ("sale_" +:+ strftime E t)) (d !! "sale_id")) /\
    py_get sale_data "customer_id" = Ok (default VNone (d !! "customer_id")) /\
    py_get sale_data "total" = Ok (default (VNum 0) (d !! "total")) /\
    py_get sale_data "discount" = Ok (default (VNum 0) (d !! "discount")) /\
    py_get sale_data "payment_status" = Ok (default (VStr "PENDING") (d !! "status")) /\
    py_get sale_data "company_id" = Ok (VStr "comp_001") /\
    py_get sale_data "items" = Ok (VList []).
Proof.
  destruct entities as [| | | | |d]; try discriminate.
  unfold sale_candidate, py_get, py_get_default. cbv [mbind outcome_bind].
  intros [= <-]. exists d. split; [reflexivity|].
  generalize (VStr ("sale_" +:+ strftime E t)). intros fallback.
  repeat split; f_equal;
    destruct (d !! "sale_id"), (d !! "customer_id"), (d !! "total"),
      (d !! "discount"), (d !! "status"); vm_compute; reflexivity.
Qed.

Lemma sales_agent_node_staged (state : ConversationState) (s : Sys)
    (sale_data : value) (errors : list string) :
  intent state = VStr "create_sale" ->
  sale_candidate (entities state) (clock (world s)) = Ok sale_data ->
  validate_sale_data sale_data = Ok (true, errors) ->
  exists response,
    sales_agent_node state s =
      (Ok (set_pending_confirmation (set_agent_response state response) sale_data),
       staged (staged_action "create_sale" sale_data) (datetime_now s).2) /\
    str_in "Shall I proceed with creating this sale? (Yes/No)" response = true.
Proof.
  intros Hintent Hcandidate Hvalid.
  destruct (validate_sale_data_valid _ _ Hvalid)
    as (_ & id & customer_id & total & payment_status & Hid & Hcustomer & Htotal & Hstatus).
  assert (exists given, py_get (entities state) "sale_id" = Ok given) as [given Hgiven].
  { unfold sale_candidate in Hcandidate.
    destruct (entities state); try discriminate. eexists. reflexivity. }
  eexists. split.
  - unfold sales_agent_node. rewrite Hintent. eval_py_eq. run.
    rewrite Hgiven. cbv [datetime_now]. rewrite Hcandidate, Hvalid.
    cbv beta iota zeta delta [negb].
    cbv [add_pending_action get_memory put_memory mbind M_bind mret M_ret].
    rewrite Hid, Hcustomer, Htotal, Hstatus. reflexivity.
  - do 16 apply str_in_app_r. apply str_in_refl.
Qed.

(** X18. Staging a sale.  When the intent is [create_sale] and the record
    built from the entities passes the validation, the sales handler
    reads the clock once, asks for a confirmation and pushes exactly one
    [create_sale] action carrying that record on the pending list; the
    context, the message log and the files are as before.  The id of the
    record is the entity [sale_id] when that key is present and otherwise
    ["sale_"] followed by the time stamp of that reading of the clock;
    total and discount default to [0]; the payment status is the entity
    [status], ["PENDING"] when there is none. *)
Theorem sales_agent_node_stages (state : ConversationState) (s : Sys)
    (sale_data : value) (errors : list string) :
  intent state = VStr "create_sale" ->
  sale_candidate (entities state) (clock (world s)) = Ok sale_data ->
  validate_sale_data sale_data = Ok (true, errors) ->
  let action := staged_action "create_sale" sale_data in
  exists response s',
    sales_agent_node state s =
      (Ok (set_pending_confirmation (set_agent_response state response) sale_data),
       s') /\
    str_in "Shall I proceed with creating this sale? (Yes/No)" response = true /\
    stack s' = (stack s ++ [action])%list /\
    pending_of s' = action /\
    context (memory s') = context (memory s) /\
    messages (memory s') = messages (memory s) /\
    disk s' = disk s /\
    clock (world s') = S (clock (world s)) /\
    exists d,
      entities state = VDict d /\
      py_get sale_data "id" =
        Ok (default (VStr ("sale_" +:+ strftime E (clock (world s)))) (d !! "sale_id")) /\
      py_get sale_data "customer_id" = Ok (default VNone (d !! "customer_id")) /\
      py_get sale_data "total" = Ok (default (VNum 0) (d !! "total")) /\
      py_get sale_data "discount" = Ok (default (VNum 0) (d !! "discount")) /\
      py_get sale_data "payment_status" =
        Ok (default (VStr "PENDING") (d !! "status")) /\
      py_get sale_data "company_id" = Ok (VStr "comp_001") /\
      py_get sale_data "items" = Ok (VList []).
Proof.
  intros Hintent Hcandidate Hvalid action.
  destruct (sales_agent_node_staged state s sale_data errors Hintent Hcandidate Hvalid)
    as (response & Hrun & Hasks).
  exists response, (staged action (datetime_now s).2).
  split; [exact Hrun|]. split; [exact Hasks|].
  split; [reflexivity|]. split; [apply pending_of_staged|].
  repeat (split; [reflexivity|]).
  apply sale_candidate_fields, Hcandidate.
Qed.

(** ** Staging, then confirming *)

Lemma staged_action_fields (kind : string) (data : value) (s : Sys) :
  py_get (pending_of (staged (staged_action kind data) s)) "action" = Ok (VStr kind) /\
  py_get (pending_of (staged (staged_action kind data) s)) "data" = Ok data.
Proof.
  rewrite pending_of_staged. unfold staged_action, py_get, py_get_default.
  split; reflexivity.
Qed.

(** X19. The sale flow from request to store.  A [create_sale] request
    whose record passes the validation is staged by the sales handler, and
    the confirmation executor run on the result saves the sales database
    with the stamped record appended and returns with the pending list
    empty, older pending actions included, however the save ends.  When
    the save goes through, the store holds the old records followed by the
    staged record stamped with its creation time, also when a sale with
    that id exists already, and no other file has changed.  When the file
    cannot be opened the files are as before and the staged sale is lost
    with the pending list.  When [json.dump] raises on the new database
    the sales file is lost as well: the store reads back empty. *)
Theorem staged_sale_confirmed (state : ConversationState) (s : Sys)
    (sale_data : value) (errors : list string) (records : list value) :
  intent state = VStr "create_sale" ->
  sale_candidate (entities state) (clock (world s)) = Ok sale_data ->
  validate_sale_data sale_data = Ok (true, errors) ->
  store_records SALES_DB "sales" (world s) = Some records ->
  exists state1 s1 state2 s2 stamped db',
    sales_agent_node state s = (Ok state1, s1) /\
    execute_confirmation_node state1 s1 = (Ok state2, s2) /\
    stack s2 = [] /\
    py_setitem sale_data "created_at" (VStr (isoformat E (S (clock (world s))))) =
      Ok stamped /\
    setdefault_append (loaded SALES_DB (world s)) "sales" stamped = Ok db' /\
    (SALES_DB ∉ locked (world s) -> json_dump_raises E db' = false ->
       store_records SALES_DB "sales" (world s2) = Some (records ++ [stamped])%list /\
       forall other, other <> SALES_DB -> disk s2 !! other = disk s !! other) /\
    (SALES_DB ∈ locked (world s) -> disk s2 = disk s) /\
    (SALES_DB ∉ locked (world s) -> json_dump_raises E db' = true ->
       disk s2 = delete SALES_DB (disk s) /\
       store_records SALES_DB "sales" (world s2) = Some []).
Proof.
  intros Hintent Hcandidate Hvalid Hstore.
  destruct (sales_agent_node_staged state s sale_data errors Hintent Hcandidate Hvalid)
    as (response & Hrun & _).
  destruct (validate_sale_data_valid _ _ Hvalid) as [-> _].
  set (s1 := staged (staged_action "create_sale" sale_data) (datetime_now s).2) in *.
  destruct (staged_action_fields "create_sale" sale_data (datetime_now s).2)
    as [Haction Hdata].
  fold s1 in Haction, Hdata.
  pose proof (py_get_str_truthy _ _ _ Haction) as Hpending.
  assert (store_records SALES_DB "sales" (world s1) = Some records) as Hstore1
    by exact Hstore.
  destruct (create_sale_appends s1 sale_data records Hvalid Hstore1)
    as (fields & stamped & db' & -> & -> & Happend & Hrecords & Hcall).
  change (locked (world s1)) with (locked (world s)) in Hcall.
  destruct (bool_decide (SALES_DB ∈ locked (world s))) eqn:Hlock;
    [|destruct (json_dump_raises E db') eqn:Hdump];
    (destruct (execute_create_sale
                 (set_pending_confirmation (set_agent_response state response)
                    (VDict fields))
                 s1 (VDict fields) Hpending Hdata _ _ _ _ Haction Hcall)
       as [response2 Hexec]);
    eexists _, s1, _, _, _, db';
    (split; [exact Hrun|]); (split; [exact Hexec|]); (split; [reflexivity|]);
    (split; [reflexivity|]); (split; [exact Happend|]).
  - apply bool_decide_eq_true in Hlock.
    split; [intros Hfree; contradiction|]. split; [reflexivity|].
    intros Hfree; contradiction.
  - apply bool_decide_eq_false in Hlock.
    split; [intros _ Hnot; congruence|]. split; [intros Hin; contradiction|].
    intros _ _. split; [reflexivity|].
    apply (torn_store_records SALES_DB "sales" (datetime_now s1).2).
  - apply bool_decide_eq_false in Hlock.
    split; [|split; [intros Hin; contradiction | intros _ Hnot; congruence]].
    intros _ _. split; [exact Hrecords|].
    intros other Hother.
    apply (written_other SALES_DB other db' (datetime_now s1).2 Hother).
Qed.

(** X20. The product flow from request to store.  A [create_product]
    request whose record passes the validation is staged by the product
    handler without a look at the catalog.  The confirmation executor run
    on the result returns with the pending list empty.  For an id that is
    not in use it saves the database with the record appended: the
    catalog then is the old one followed by that record when the save goes
    through, the files are as before when the file cannot be opened, and
    the products file is lost, the catalog reading back empty, when
    [json.dump] raises on the new database.  When the id is in use
    already the request is staged all the same, and only the confirmation
    refuses it: the files stay as they were and the pending list is
    emptied. *)
Theorem staged_product_confirmed (state : ConversationState) (s : Sys)
    (product_data id : value) (errors : list string) (records : list value) :
  intent state = VStr "create_product" ->
  product_candidate (entities state) = Ok product_data ->
  validate_product_data product_data = Ok (true, errors) ->
  catalog (world s) = Some records ->
  py_get product_data "id" = Ok id ->
  exists state1 s1,
    product_agent_node state s = (Ok state1, s1) /\
    pending_of s1 = staged_action "create_product" product_data /\
    disk s1 = disk s /\
    (any_with_id records id = Ok false ->
     exists db' state2 s2,
       setdefault_append (loaded PRODUCTS_DB (world s)) "products" product_data =
         Ok db' /\
       execute_confirmation_node state1 s1 = (Ok state2, s2) /\
       stack s2 = [] /\
       (PRODUCTS_DB ∉ locked (world s) -> json_dump_raises E db' = false ->
          catalog (world s2) = Some (records ++ [product_data])%list) /\
       (PRODUCTS_DB ∈ locked (world s) -> disk s2 = disk s) /\
       (PRODUCTS_DB ∉ locked (world s) -> json_dump_raises E db' = true ->
          disk s2 = delete PRODUCTS_DB (disk s) /\
          catalog (world s2) = Some [])) /\
    (any_with_id records id = Ok true ->
     exists state2 s2,
       execute_confirmation_node state1 s1 = (Ok state2, s2) /\
       stack s2 = [] /\
       disk s2 = disk s).
Proof.
  intros Hintent Hcandidate Hvalid Hcatalog Hid.
  destruct (product_agent_node_staged state s product_data errors
              Hintent Hcandidate Hvalid) as (response & Hrun & _).
  destruct (validate_product_data_valid _ _ Hvalid) as [-> _].
  set (s1 := staged (staged_action "create_product" product_data) s) in *.
  destruct (staged_action_fields "create_product" product_data s) as [Haction Hdata].
  fold s1 in Haction, Hdata.
  pose proof (py_get_str_truthy _ _ _ Haction) as Hpending.
  eexists _, s1. split; [exact Hrun|]. split; [apply pending_of_staged|].
  split; [reflexivity|]. split.
  - intros Hfresh.
    destruct (create_product_appends s1 product_data id records Hvalid Hcatalog
                Hid Hfresh)
      as (db' & Happend & Hcat & Hcall).
    change (locked (world s1)) with (locked (world s)) in Hcall.
    exists db'.
    destruct (bool_decide (PRODUCTS_DB ∈ locked (world s))) eqn:Hlock;
      [|destruct (json_dump_raises E db') eqn:Hdump];
      (destruct (execute_create_product
                   (set_pending_confirmation (set_agent_response state response)
                      product_data)
                   s1 product_data Hpending Hdata _ _ _ _ Haction Hcall)
         as [response2 Hexec]);
      eexists _, _; (split; [exact Happend|]); (split; [exact Hexec|]);
      (split; [reflexivity|]).
    + apply bool_decide_eq_true in Hlock.
      split; [intros Hfree; contradiction|]. split; [reflexivity|].
      intros Hfree; contradiction.
    + apply bool_decide_eq_false in Hlock.
      split; [intros _ Hnot; congruence|]. split; [intros Hin; contradiction|].
      intros _ _. split; [reflexivity | apply (torn_catalog s1)].
    + apply bool_decide_eq_false in Hlock.
      split; [|split; [intros Hin; contradiction | intros _ Hnot; congruence]].
      intros _ _. exact Hcat.
  - intros Hused.
    pose proof (create_product_duplicate s1 product_data id records Hvalid Hcatalog
                  Hid Hused) as Hcall.
    destruct (execute_create_product
                (set_pending_confirmation (set_agent_response state response)
                   product_data)
                s1 product_data Hpending Hdata _ _ _ _ Haction Hcall)
      as [response2 Hexec].
    eexists _, (cleared s1). split; [exact Hexec|]. split; reflexivity.
Qed.

(** ** Intents without a branch *)

(** X21. Three intents of the enumeration are routed to a handler that has
    no branch for them.  [get_recommendations] goes to the analytics
    handler, which only answers [get_analytics], so the recommendation
    branch of the product handler is never taken through the graph;
    [update_product] and [update_sale] go to the product and the sales
    handler, which have no update branch.  In all three cases the handler
    returns the state it was given and changes nothing: the response of
    the turn is the one the state started with, nothing is staged and
    nothing is written. *)
Theorem unhandled_intents_fall_through (state : ConversationState) (s : Sys) :
  validation_errors state = [] ->
  (intent state = VStr "get_recommendations" ->
     node_of (route_to_agent state) = Some analytics_agent_node /\
     analytics_agent_node state s = (Ok state, s)) /\
  (intent state = VStr "update_product" ->
     node_of (route_to_agent state) = Some product_agent_node /\
     product_agent_node state s = (Ok state, s)) /\
  (intent state = VStr "update_sale" ->
     node_of (route_to_agent state) = Some sales_agent_node /\
     sales_agent_node state s = (Ok state, s)).
Proof.
  intros Hnone.
  split; [|split]; intros Hintent;
    (split; [unfold route_to_agent; rewrite Hnone, Hintent; reflexivity|]).
  - unfold analytics_agent_node. rewrite Hintent. reflexivity.
  - unfold product_agent_node. rewrite Hintent. eval_py_eq. reflexivity.
  - unfold sales_agent_node. rewrite Hintent. eval_py_eq. reflexivity.
Qed.

(** ** What a turn does to the pending list *)

Lemma grows_validated_refl (s : Sys) : grows_validated s s.
Proof. exists []. split; [constructor|]. left. symmetry. apply app_nil_r. Qed.

Lemma grows_validated_same (s s' : Sys) : stack s' = stack s -> grows_validated s s'.
Proof.
  intros Hsame. exists []. split; [constructor|]. left. rewrite app_nil_r. exact Hsame.
Qed.

Lemma grows_validated_trans (s1 s2 s3 : Sys) :
  grows_validated s1 s2 -> grows_validated s2 s3 -> grows_validated s1 s3.
Proof.
  intros (added1 & Hv1 & H1) (added2 & Hv2 & H2).
  destruct H2 as [H2 | H2]; [|exists added2; split; [exact Hv2 | right; exact H2]].
  exists (added1 ++ added2)%list. split; [apply Forall_app; split; assumption|].
  destruct H1 as [H1 | H1]; rewrite H2, H1.
  - left. symmetry. apply app_assoc.
  - right. reflexivity.
Qed.

Lemma grows_bind {A B} (c : M A) (f : A -> M B) :
  (forall s, grows_validated s (c s).2) ->
  (forall a s, grows_validated s (f a s).2) ->
  forall s, grows_validated s ((c ≫= f) s).2.
Proof.
  intros Hc Hf s. unfold mbind, M_bind.
  specialize (Hc s). destruct (c s) as [[a|e] s1]; cbn [snd] in *.
  - eapply grows_validated_trans; [exact Hc | apply Hf].
  - exact Hc.
Qed.

Lemma grows_try {A} (body : M A) (handler : exn -> M A) :
  (forall s, grows_validated s (body s).2) ->
  (forall e s, grows_validated s (handler e s).2) ->
  forall s, grows_validated s (try_except body handler s).2.
Proof.
  intros Hb Hh s. unfold try_except.
  specialize (Hb s). destruct (body s) as [[a|e] s1]; cbn [snd] in *.
  - exact Hb.
  - eapply grows_validated_trans; [exact Hb | apply Hh].
Qed.

Lemma grows_preserves {A} (c : M A) :
  preserves stack c -> forall s, grows_validated s (c s).2.
Proof. intros Hc s. apply grows_validated_same, Hc. Qed.

Lemma clear_pending_actions_grows (s : Sys) :
  grows_validated s (clear_pending_actions s).2.
Proof. exists []. split; [constructor | right; reflexivity]. Qed.

Lemma update_context_stack (key : string) (v : value) :
  preserves stack (update_context key v).
Proof. intros s. reflexivity. Qed.

Lemma product_agent_node_grows (state : ConversationState) (s : Sys) :
  grows_validated s (product_agent_node state s).2.
Proof.
  destruct (py_eq (intent state) (VStr "create_product")) eqn:Hcreate.
  - apply py_eq_str in Hcreate.
    destruct (product_candidate (entities state)) as [data|e] eqn:Hcandidate.
    + destruct (validate_product_data data) as [[[|] errors]|e] eqn:Hvalid.
      * destruct (product_agent_node_staged state s data errors
                    Hcreate Hcandidate Hvalid) as (response & -> & _).
        destruct (validate_product_data_valid _ _ Hvalid) as [-> _].
        exists [staged_action "create_product" data]. split; [|left; reflexivity].
        constructor; [|constructor]. exists data. left. split; [reflexivity | exact Hvalid].
      * unfold product_agent_node. rewrite Hcreate. eval_py_eq. run.
        rewrite Hcandidate, Hvalid. apply grows_validated_refl.
      * unfold product_agent_node. rewrite Hcreate. eval_py_eq. run.
        rewrite Hcandidate, Hvalid. apply grows_validated_refl.
    + unfold product_agent_node. rewrite Hcreate. eval_py_eq. run.
      rewrite Hcandidate. apply grows_validated_refl.
  - revert s. apply grows_preserves.
    unfold product_agent_node. rewrite Hcreate. cbv iota.
    preserve_by ltac:(apply update_context_stack).
Qed.

Lemma sales_agent_node_grows (state : ConversationState) (s : Sys) :
  grows_validated s (sales_agent_node state s).2.
Proof.
  destruct (py_eq (intent state) (VStr "create_sale")) eqn:Hcreate.
  - apply py_eq_str in Hcreate.
    unfold sales_agent_node. rewrite Hcreate. eval_py_eq. run.
    destruct (py_get (entities state) "sale_id") as [given|e] eqn:Hgiven;
      [|apply grows_validated_refl].
    cbv [datetime_now].
    destruct (sale_candidate (entities state) (clock (world s))) as [data|e]
      eqn:Hcandidate; [|apply grows_validated_same; reflexivity].
    destruct (validate_sale_data data) as [[[|] errors]|e] eqn:Hvalid;
      [| apply grows_validated_same; reflexivity
       | apply grows_validated_same; reflexivity].
    destruct (validate_sale_data_valid _ _ Hvalid)
      as (-> & id & customer_id & total & payment_status &
          Hid & Hcustomer & Htotal & Hstatus).
    cbv beta iota zeta delta [negb].
    cbv [add_pending_action get_memory put_memory mbind M_bind mret M_ret].
    rewrite Hid, Hcustomer, Htotal, Hstatus.
    exists [staged_action "create_sale" data]. split; [|left; reflexivity].
    constructor; [|constructor]. exists data. right. split; [reflexivity | exact Hvalid].
  - revert s. apply grows_preserves.
    unfold sales_agent_node. rewrite Hcreate. cbv iota.
    preserve_by ltac:(apply update_context_stack).
Qed.

Lemma execute_confirmation_node_grows (state : ConversationState) (s : Sys) :
  grows_validated s (execute_confirmation_node state s).2.
Proof.
  revert s. unfold execute_confirmation_node.
  repeat first
    [ apply clear_pending_actions_grows
    | apply grows_preserves; solve [preserve_by fail]
    | apply grows_bind; [|intros ?]
    | match goal with
      | |- forall s, grows_validated s ((if ?b then _ else _) s).2 => destruct b
      | |- forall s, grows_validated s ((match ?x with _ => _ end) s).2 => destruct x
      | |- forall s, grows_validated s ((let _ := _ in _) s).2 => cbv zeta
      end ].
Qed.

Lemma invoke_grows (state : ConversationState) (s : Sys) :
  grows_validated s (invoke state s).2.
Proof.
  revert s. unfold invoke.
  apply grows_bind; [apply grows_preserves, understand_input_stack|]. intros state1.
  apply grows_bind; [apply grows_preserves, validate_input_stack|]. intros state2.
  destruct (node_of (route_to_agent state2)) as [node|] eqn:Hnode;
    [|apply grows_preserves, preserves_lift].
  apply node_of_cases in Hnode.
  destruct Hnode as [-> | [-> | [-> | [-> | [-> | [-> | [-> | ->]]]]]]].
  - apply product_agent_node_grows.
  - apply sales_agent_node_grows.
  - apply grows_preserves. unfold analytics_agent_node. preserve_by fail.
  - apply grows_preserves. unfold vendor_agent_node. preserve_by fail.
  - apply grows_preserves. unfold general_agent_node. preserve_by fail.
  - apply execute_confirmation_node_grows.
  - intros s. exists []. split; [constructor | right; reflexivity].
  - intros s. apply grows_validated_refl.
Qed.

Lemma process_message_grows (text : string) (s : Sys) :
  grows_validated s (process_message text s).2.
Proof.
  revert s. unfold process_message.
  apply grows_bind; [apply grows_preserves, add_message_stack|]. intros _.
  apply grows_try.
  - apply grows_bind; [apply invoke_grows|]. intros result.
    cbv zeta. apply grows_bind; [apply grows_preserves, add_message_stack|].
    intros _ s. apply grows_validated_refl.
  - intros e s. apply grows_validated_refl.
Qed.

(** X22. Every action on the pending list of a session the engine can
    reach is a [create_product] or a [create_sale] action whose record has
    passed the validation of its store: a turn keeps the list, clears it,
    or pushes one such action, and a reset clears it.  Hence the action a
    confirmation picks up is always one of these two kinds: through the
    turn engine the executor never takes an update branch and never meets
    an action it does not know. *)
Theorem reachable_pending_validated (s : Sys) :
  reachable s ->
  Forall validated_action (stack s) /\
  (truthy (pending_of s) = true ->
   exists data,
     py_get (pending_of s) "data" = Ok data /\
     (py_get (pending_of s) "action" = Ok (VStr "create_product") /\
      validate_product_data data = Ok (true, []) \/
      py_get (pending_of s) "action" = Ok (VStr "create_sale") /\
      validate_sale_data data = Ok (true, []))).
Proof.
  intros Hreach.
  assert (Forall validated_action (stack s)) as Hall.
  { induction Hreach as [w | text s _ IH | s _ _ | s w _ IH].
    - constructor.
    - destruct (process_message_grows text s) as (added & Hadded & [-> | ->]).
      + apply Forall_app. split; assumption.
      + exact Hadded.
    - constructor.
    - exact IH. }
  split; [exact Hall|].
  unfold pending_of. fold (stack s). intros Hpending.
  destruct (last (stack s)) as [action|] eqn:Hlast; [|discriminate].
  apply last_Some in Hlast as [older Hlast]. rewrite Hlast in Hall.
  apply Forall_app in Hall as [_ Hall]. apply Forall_cons in Hall as [Haction _].
  destruct Haction as [data [[-> Hvalid] | [-> Hvalid]]]; exists data.
  - split; [reflexivity|]. left. split; [reflexivity | exact Hvalid].
  - split; [reflexivity|]. right. split; [reflexivity | exact Hvalid].
Qed.

(** ** The message log of a turn *)

Lemma invoke_log (state : ConversationState) : preserves log (invoke state).
Proof.
  unfold invoke. apply preserves_bind.
  { unfold understand_input, confirmed_action. preserve_by fail. }
  intros state1. apply preserves_bind.
  { unfold validate_input. preserve_by fail. }
  intros state2.
  destruct (node_of (route_to_agent state2)) as [node|] eqn:Hnode;
    [|apply preserves_lift].
  apply node_of_cases in Hnode.
  destruct Hnode as [-> | [-> | [-> | [-> | [-> | [-> | [-> | ->]]]]]]].
  - unfold product_agent_node. preserve_by fail.
  - unfold sales_agent_node. preserve_by fail.
  - unfold analytics_agent_node. preserve_by fail.
  - unfold vendor_agent_node. preserve_by fail.
  - unfold general_agent_node. preserve_by fail.
  - unfold execute_confirmation_node. preserve_by fail.
  - intros s. reflexivity.
  - intros s. reflexivity.
Qed.

Lemma process_message_log (text : string) (s : Sys) (n : Z) :
  counter s = Some (VNum n) ->
  exists response,
    (process_message text s).1 = Ok response /\
    let s' := (process_message text s).2 in
    let asked :=
      VDict {[ "role" := VStr "user"; "content" := VStr text;
               "timestamp" := VStr (isoformat E (clock (world s))) ]} in
    (exists stamp,
       log s' =
         (log s ++
          [asked;
           VDict {[ "role" := VStr "assistant"; "content" := VStr response;
                    "timestamp" := VStr stamp ]}])%list /\
       counter s' = Some (VNum (n + 2))) \/
    (exists e,
       response = "I encountered an error: " +:+ exn_str E e +:+ ". Could you try again?" /\
       log s' = (log s ++ [asked])%list /\
       counter s' = Some (VNum (n + 1))).
Proof.
  intros Hn. unfold process_message, try_except, mbind, M_bind.
  rewrite (add_message_counted "user" text n s Hn).
  pose proof (invoke_counter (initial_state text) (logged "user" text n s)) as Hcount.
  pose proof (invoke_log (initial_state text) (logged "user" text n s)) as Hlog.
  assert (counter (logged "user" text n s) = Some (VNum (n + 1))) as Hlogged
    by (unfold counter; cbn; apply lookup_insert_eq).
  destruct (invoke (initial_state text) (logged "user" text n s)) as [[result|e] s2];
    cbn [snd] in Hcount, Hlog; rewrite Hlogged in Hcount.
  - rewrite (add_message_counted "assistant" _ (n + 1) s2 Hcount).
    cbv [mret M_ret]. cbn [fst snd].
    exists (agent_response result). split; [reflexivity|]. left.
    exists (isoformat E (clock (world s2))). split.
    + unfold log in *. cbn [logged memory messages] in *. rewrite Hlog.
      rewrite <- app_assoc. reflexivity.
    + unfold counter. cbn [logged memory context].
      rewrite lookup_insert_eq. do 2 f_equal. lia.
  - cbv [mret M_ret]. cbn [fst snd].
    eexists. split; [reflexivity|]. right. exists e.
    split; [reflexivity|]. split; [exact Hlog | exact Hcount].
Qed.

(** X23. In every session the engine can reach, processing a turn returns:
    no exception leaves [process_message], whatever the classifier, the
    stores or the handlers do.  Either the turn ran to its end, and the
    log has grown by the user message followed by the assistant message
    that carries the response; or a step raised, the response is the fixed
    apology built from the exception, and only the user message was
    logged. *)
Theorem reachable_turn_returns (text : string) (s : Sys) :
  reachable s ->
  exists response,
    (process_message text s).1 = Ok response /\
    let s' := (process_message text s).2 in
    let asked :=
      VDict {[ "role" := VStr "user"; "content" := VStr text;
               "timestamp" := VStr (isoformat E (clock (world s))) ]} in
    (exists stamp,
       log s' =
         (log s ++
          [asked;
           VDict {[ "role" := VStr "assistant"; "content" := VStr response;
                    "timestamp" := VStr stamp ]}])%list) \/
    (exists e,
       response = "I encountered an error: " +:+ exn_str E e +:+ ". Could you try again?" /\
       log s' = (log s ++ [asked])%list).
Proof.
  intros Hreach. destruct (reachable_counter s Hreach) as [n Hn].
  destruct (process_message_log text s n Hn) as (response & Hrun & Hlog).
  exists response. split; [exact Hrun|]. cbv zeta in *.
  destruct Hlog as [(stamp & Hlog & _) | (e & Hresponse & Hlog & _)].
  - left. exists stamp. exact Hlog.
  - right. exists e. split; assumption.
Qed.

(** X24. In every session the engine can reach, the turn counter of the
    context is the number of messages in the log: each logged message
    counts once, also the user message of a turn that ended in an error,
    and a reset puts both back to zero. *)
Theorem reachable_counter_counts (s : Sys) :
  reachable s -> counter s = Some (VNum (Z.of_nat (length (log s)))).
Proof.
  induction 1 as [w | text s _ IH | s _ _ | s w _ IH].
  - reflexivity.
  - destruct (process_message_log text s _ IH) as (response & _ & Hlog).
    cbv zeta in Hlog.
    destruct Hlog as [(stamp & -> & ->) | (e & _ & -> & ->)];
      rewrite length_app; cbn [length]; do 2 f_equal; lia.
  - reflexivity.
  - exact IH.
Qed.

(** ** Turns without the classifier *)

Lemma fallback_intent_cases (text : string) :
  fallback_intent text ∈
    ["search_product"; "search_sales"; "get_recommendations"; "get_analytics";
     "vendor_query"; "general_chat"].
Proof.
  unfold fallback_intent.
  destruct (any_word_in ["search"; "find"; "show"; "look"; "product"] (lower E text))
    eqn:Hfirst; [repeat constructor|].
  destruct (any_word_in ["sale"; "order"; "purchase"; "transaction"] (lower E text))
    eqn:Hsecond; [repeat constructor|].
  assert (str_in "product" (lower E text) = false) as ->.
  { apply (any_word_in_false _ _ _ Hfirst). repeat constructor. }
  assert (str_in "sale" (lower E text) = false) as ->.
  { apply (any_word_in_false _ _ _ Hsecond). repeat constructor. }
  repeat match goal with
         | |- context [if ?b then _ else _] => destruct b
         end; repeat constructor.
Qed.

Lemma product_agent_node_other (state : ConversationState) :
  py_eq (intent state) (VStr "create_product") = false ->
  preserves stack (product_agent_node state).
Proof.
  intros Hother. unfold product_agent_node. rewrite Hother. cbv iota.
  preserve_by ltac:(apply update_context_stack).
Qed.

Lemma sales_agent_node_other (state : ConversationState) :
  py_eq (intent state) (VStr "create_sale") = false ->
  preserves stack (sales_agent_node state).
Proof.
  intros Hother. unfold sales_agent_node. rewrite Hother. cbv iota.
  preserve_by ltac:(apply update_context_stack).
Qed.

Lemma execute_confirmation_node_stack (state : ConversationState) (s : Sys) :
  stack (execute_confirmation_node state s).2 = stack s \/
  stack (execute_confirmation_node state s).2 = [].
Proof.
  assert (forall {A} (c : M A),
            preserves stack c ->
            forall s, stack (c s).2 = stack s \/ stack (c s).2 = []) as Hkeep.
  { intros A c Hc s0. left. apply Hc. }
  assert (forall {A B} (c : M A) (f : A -> M B),
            (forall s, stack (c s).2 = stack s \/ stack (c s).2 = []) ->
            (forall a s, stack (f a s).2 = stack s \/ stack (f a s).2 = []) ->
            forall s, stack ((c ≫= f) s).2 = stack s \/ stack ((c ≫= f) s).2 = [])
    as Hbind.
  { intros A B c f Hc Hf s0. unfold mbind, M_bind.
    specialize (Hc s0). destruct (c s0) as [[a|e] s1]; cbn [snd] in *; [|exact Hc].
    destruct (Hf a s1) as [Hsame | Hclear]; [|right; exact Hclear].
    rewrite Hsame. exact Hc. }
  revert s. unfold execute_confirmation_node.
  repeat first
    [ solve [intros ?; right; reflexivity]
    | apply Hkeep; solve [preserve_by fail]
    | apply Hbind; [|intros ?]
    | match goal with
      | |- forall s, stack ((if ?b then _ else _) s).2 = _ \/ _ => destruct b
      | |- forall s, stack ((match ?x with _ => _ end) s).2 = _ \/ _ => destruct x
      | |- forall s, stack ((let _ := _ in _) s).2 = _ \/ _ => cbv zeta
      end ].
Qed.

Lemma understand_input_offline (state state1 : ConversationState) (s s1 : Sys) :
  (forall n text context, classifier_reply E n text context = None) ->
  understand_input state s = (Ok state1, s1) ->
  py_eq (intent state1) (VStr "create_product") = false /\
  py_eq (intent state1) (VStr "create_sale") = false.
Proof.
  intros Hdown. unfold understand_input, confirmed_action. run.
  assert (forall s0 state',
            (if any_word_in cancellation_words (lower E (user_input state))
             then mret (set_intent state (VStr "cancel_action"))
             else
               nlu_result ← extract_intent_and_entities (user_input state);
               i ← lift (py_get_default nlu_result "intent" (VStr "general_chat"));
               e ← lift (py_get_default nlu_result "entities" (VDict ∅));
               f ← lift (py_get_default nlu_result "requires_clarification"
                           (VBool false));
               mret (set_requires_followup (set_entities (set_intent state i) e) f))
              s0 = (Ok state', s1) ->
            py_eq (intent state') (VStr "create_product") = false /\
            py_eq (intent state') (VStr "create_sale") = false) as Hrest.
  { intros s0 state'.
    destruct (any_word_in cancellation_words (lower E (user_input state))).
    - intros [= <- _]. split; reflexivity.
    - unfold extract_intent_and_entities. run.
      cbv [get_memory get_world put_world]. rewrite Hdown.
      unfold _fallback_intent_detection.
      intros [= <- _]. cbn [intent set_intent set_entities set_requires_followup].
      pose proof (fallback_intent_cases (user_input state)) as Hcases.
      change (default (VStr "general_chat")
                (({[ "intent" := VStr (fallback_intent (user_input state));
                     "entities" := VDict ∅;
                     "requires_clarification" := VBool false;
                     "clarification_needed" := VList [] ]} : gmap string value)
                   !! "intent"))
        with (VStr (fallback_intent (user_input state))).
      repeat (apply elem_of_cons in Hcases as [-> | Hcases]; [split; reflexivity|]).
      inversion Hcases. }
  destruct (any_word_in confirmation_words (lower E (user_input state))).
  - rewrite get_pending_action_spec.
    destruct (truthy (pending_of s)).
    + intros [= <- _]. split; reflexivity.
    + apply Hrest.
  - apply Hrest.
Qed.

Lemma validate_input_intent (state state2 : ConversationState) (s s2 : Sys) :
  validate_input state s = (Ok state2, s2) -> intent state2 = intent state.
Proof.
  unfold validate_input. run.
  destruct (check_enumerated (entities state) "category" _ _); [|discriminate].
  destruct (check_enumerated (entities state) "status" _ _); [|discriminate].
  intros [= <- _]. reflexivity.
Qed.

Lemma invoke_offline (state : ConversationState) (s : Sys) :
  (forall n text context, classifier_reply E n text context = None) ->
  stack (invoke state s).2 = stack s \/ stack (invoke state s).2 = [].
Proof.
  intros Hdown. unfold invoke, mbind, M_bind.
  pose proof (understand_input_stack state s) as Hs1.
  destruct (understand_input state s) as [[state1|e] s1] eqn:Hunderstand;
    cbn [snd] in *; [|left; exact Hs1].
  apply (understand_input_offline _ _ _ _ Hdown) in Hunderstand as [Hproduct Hsale].
  pose proof (validate_input_stack state1 s1) as Hs2.
  destruct (validate_input state1 s1) as [[state2|e] s2] eqn:Hvalidate;
    cbn [snd] in *; [|left; congruence].
  apply validate_input_intent in Hvalidate. rewrite <- Hvalidate in Hproduct, Hsale.
  destruct (node_of (route_to_agent state2)) as [node|] eqn:Hnode;
    [|left; cbn; congruence].
  apply node_of_cases in Hnode.
  destruct Hnode as [-> | [-> | [-> | [-> | [-> | [-> | [-> | ->]]]]]]].
  - left. rewrite (product_agent_node_other state2 Hproduct). congruence.
  - left. rewrite (sales_agent_node_other state2 Hsale). congruence.
  - left. transitivity (stack s2); [|congruence]. revert s2 Hs2. intros s2 _.
    revert s2. change (preserves stack (analytics_agent_node state2)).
    unfold analytics_agent_node. preserve_by fail.
  - left. transitivity (stack s2); [|congruence]. revert s2 Hs2. intros s2 _.
    revert s2. change (preserves stack (vendor_agent_node state2)).
    unfold vendor_agent_node. preserve_by fail.
  - left. transitivity (stack s2); [|congruence]. revert s2 Hs2. intros s2 _.
    revert s2. change (preserves stack (general_agent_node state2)).
    unfold general_agent_node. preserve_by fail.
  - destruct (execute_confirmation_node_stack state2 s2) as [Hsame | Hclear];
      [left; congruence | right; exact Hclear].
  - right. reflexivity.
  - left. cbn. congruence.
Qed.

(** X25. While the external classifier is unavailable no action can be
    staged: whatever the text, a turn leaves the pending list as it was or
    empties it (a confirmation or a cancellation), and never pushes
    anything, because the keyword fallback knows no create intent.  From a
    session with nothing pending a turn therefore ends with nothing
    pending and with the files of the stores as they were. *)
Theorem offline_turn_stages_nothing (text : string) (s : Sys) :
  (forall n text context, classifier_reply E n text context = None) ->
  (stack (process_message text s).2 = stack s \/
   stack (process_message text s).2 = []) /\
  (stack s = [] ->
   stack (process_message text s).2 = [] /\
   disk (process_message text s).2 = disk s).
Proof.
  intros Hdown.
  assert (stack (process_message text s).2 = stack s \/
          stack (process_message text s).2 = []) as Hstack.
  { unfold process_message, try_except, mbind, M_bind.
    pose proof (add_message_stack "user" text s) as Hs1.
    destruct (add_message "user" text s) as [[[]|e] s1]; cbn [snd] in *;
      [|left; exact Hs1].
    pose proof (invoke_offline (initial_state text) s1 Hdown) as Hs2.
    destruct (invoke (initial_state text) s1) as [[result|e] s2]; cbn [snd] in *.
    - pose proof (add_message_stack "assistant" (agent_response result) s2) as Hs3.
      destruct (add_message "assistant" (agent_response result) s2) as [[[]|e] s3];
        cbn [snd] in *; cbv [mret M_ret]; cbn [snd];
        (destruct Hs2 as [Hs2 | Hs2]; [left | right]; congruence).
    - cbv [mret M_ret]. cbn [snd].
      destruct Hs2 as [Hs2 | Hs2]; [left | right]; congruence. }
  split; [exact Hstack|].
  intros Hnone. split.
  - destruct Hstack as [-> | ->]; [exact Hnone | reflexivity].
  - apply process_message_disk. unfold pending_of. fold (stack s).
    rewrite Hnone. reflexivity.
Qed.

(** ** The context keys that no turn writes *)

Lemma update_context_slot (key k : string) (v : value) :
  k <> key -> preserves (slot k) (update_context key v).
Proof. intros Hk s. unfold slot. cbn. apply lookup_insert_ne. congruence. Qed.

Lemma add_message_slot (role content k : string) :
  k <> "conversation_count" -> preserves (slot k) (add_message role content).
Proof.
  intros Hk s. unfold add_message, slot.
  cbv [mbind M_bind mret M_ret datetime_now get_memory put_memory lift memory world].
  destruct s as [[msgs ctx pend] w]; cbn [context memory].
  destruct (ctx !! "conversation_count") as [c|]; [|reflexivity].
  destruct (py_add_one c); [|reflexivity].
  cbn. apply lookup_insert_ne. congruence.
Qed.

Lemma invoke_slot (k : string) (state : ConversationState) :
  k ∉ written_keys -> preserves (slot k) (invoke state).
Proof.
  intros Hk.
  assert (forall key v, key ∈ written_keys -> preserves (slot k) (update_context key v))
    as Hwritten.
  { intros key v Hkey. apply update_context_slot. intros ->. contradiction. }
  unfold invoke. apply preserves_bind.
  { unfold understand_input, confirmed_action. preserve_by fail. }
  intros state1. apply preserves_bind.
  { unfold validate_input. preserve_by fail. }
  intros state2.
  destruct (node_of (route_to_agent state2)) as [node|] eqn:Hnode;
    [|apply preserves_lift].
  apply node_of_cases in Hnode.
  destruct Hnode as [-> | [-> | [-> | [-> | [-> | [-> | [-> | ->]]]]]]].
  - unfold product_agent_node.
    preserve_by ltac:(apply Hwritten; unfold written_keys; repeat constructor).
  - unfold sales_agent_node.
    preserve_by ltac:(apply Hwritten; unfold written_keys; repeat constructor).
  - unfold analytics_agent_node. preserve_by fail.
  - unfold vendor_agent_node. preserve_by fail.
  - unfold general_agent_node. preserve_by fail.
  - unfold execute_confirmation_node. preserve_by fail.
  - intros s. reflexivity.
  - intros s. reflexivity.
Qed.

Lemma process_message_slot (k text : string) :
  k ∉ written_keys -> preserves (slot k) (process_message text).
Proof.
  intros Hk.
  assert (k <> "conversation_count") as Hcount.
  { intros ->. apply Hk. unfold written_keys. repeat constructor. }
  unfold process_message.
  preserve_by ltac:(first [ apply add_message_slot; exact Hcount
                          | apply invoke_slot; exact Hk ]).
Qed.

Lemma reachable_slot (k : string) (s : Sys) :
  k ∉ written_keys -> k <> "session_start" ->
  reachable s -> slot k s = default_context "" !! k.
Proof.
  intros Hk Hstart.
  assert (forall stamp, default_context stamp !! k = default_context "" !! k) as Hinit.
  { intros stamp. unfold default_context.
    rewrite !lookup_insert, !lookup_singleton.
    repeat (destruct (decide _) as [Heq | ?];
            [subst; first [reflexivity | congruence]|]).
    reflexivity. }
  induction 1 as [w | text s _ IH | s _ _ | s w _ IH].
  - apply Hinit.
  - rewrite process_message_slot by exact Hk. exact IH.
  - apply Hinit.
  - exact IH.
Qed.

(** X26. The turn engine writes four keys of the context only: the turn
    counter, the last search results, the last filters and the last sale.
    In every session it can reach, every other key except the session
    start still holds its initial value; in particular the last product,
    its id, the current topic and the customer are [None] and the user
    preferences are the initial ones.  So the fallback of the product
    details request to the last product id never finds one: a
    [get_product_details] request without a product id is always answered
    by the request for an id, with nothing read and nothing changed. *)
Theorem reachable_context_untouched (s : Sys) :
  reachable s ->
  (forall k, k ∉ written_keys -> k <> "session_start" ->
     slot k s = default_context "" !! k) /\
  slot "last_product" s = Some VNone /\
  slot "last_product_id" s = Some VNone /\
  slot "current_topic" s = Some VNone /\
  slot "customer_id" s = Some VNone /\
  (forall state product_id,
     intent state = VStr "get_product_details" ->
     py_get (entities state) "product_id" = Ok product_id ->
     truthy product_id = false ->
     product_agent_node state s =
       (Ok (set_agent_response state
              ("Could you please provide the product ID? " +:+
               "You can say something like 'show details for prod_001'.")), s)).
Proof.
  intros Hreach.
  assert (forall k, k ∉ written_keys -> k <> "session_start" ->
            slot k s = default_context "" !! k) as Hslots.
  { intros k Hk Hstart. apply reachable_slot; assumption. }
  assert (forall k, bool_decide (k ∉ written_keys) = true ->
            bool_decide (k <> "session_start") = true ->
            slot k s = default_context "" !! k) as Hslot.
  { intros k Hk Hstart. apply Hslots.
    - apply bool_decide_eq_true in Hk. exact Hk.
    - apply bool_decide_eq_true in Hstart. exact Hstart. }
  split; [exact Hslots|].
  split; [apply Hslot; reflexivity|]. split; [apply Hslot; reflexivity|].
  split; [apply Hslot; reflexivity|]. split; [apply Hslot; reflexivity|].
  intros state product_id Hintent Hid Hnone.
  unfold product_agent_node. rewrite Hintent. eval_py_eq. run.
  rewrite Hid, Hnone. cbv [get_memory negb mret M_ret].
  assert (context (memory s) !! "last_product_id" = Some VNone) as ->
    by (apply (Hslot "last_product_id"); reflexivity).
  reflexivity.
Qed.

(** ** Whole turns of the create flow *)

Lemma execute_create_product_succeeds (state : ConversationState) (s s1 : Sys)
    (data : value) (message : string) (errors : list string) :
  py_get (pending_of s) "action" = Ok (VStr "create_product") ->
  py_get (pending_of s) "data" = Ok data ->
  create_product data s = (Ok (true, message, errors), s1) ->
  exists response,
    execute_confirmation_node state s =
      (Ok (set_agent_response state response), cleared s1) /\
    str_in "successfully created the product" response = true.
Proof.
  intros Haction Hdata Hcall.
  pose proof (py_get_str_truthy _ _ _ Haction) as Hpending.
  destruct (create_product_success _ _ _ _ _ Hcall) as (id & name & Hid & Hname).
  eexists. split.
  - unfold execute_confirmation_node. run.
    rewrite get_pending_action_spec, Hpending, Haction, Hdata. eval_py_eq.
    rewrite Hcall, Hname, Hid. reflexivity.
  - apply str_in_app_l. reflexivity.
Qed.

Lemma execute_create_product_fails (state : ConversationState) (s s1 : Sys)
    (data : value) (message : string) (errors : list string) :
  py_get (pending_of s) "action" = Ok (VStr "create_product") ->
  py_get (pending_of s) "data" = Ok data ->
  create_product data s = (Ok (false, message, errors), s1) ->
  exists response,
    execute_confirmation_node state s =
      (Ok (set_agent_response state response), cleared s1) /\
    str_in ("couldn't create the product: " +:+ message) response = true.
Proof.
  intros Haction Hdata Hcall.
  pose proof (py_get_str_truthy _ _ _ Haction) as Hpending.
  eexists. split.
  - unfold execute_confirmation_node. run.
    rewrite get_pending_action_spec, Hpending, Haction, Hdata. eval_py_eq.
    rewrite Hcall. reflexivity.
  - change ("❌ Sorry, I couldn't create the product: " +:+ message +:+ nl +:+
            bullets errors)
      with ("❌ Sorry, I " +:+
            (("couldn't create the product: " +:+ message) +:+ nl +:+ bullets errors)).
    apply str_in_app_r, str_in_self_app.
Qed.

Lemma check_enumerated_staged (kind : string) (data : value) (key : string)
    (allowed : list string) (message : string) :
  key <> "action" -> key <> "data" ->
  check_enumerated (staged_action kind data) key allowed message = Ok [].
Proof.
  intros Haction Hdata. unfold staged_action. rewrite check_enumerated_dict.
  unfold out_of_enumeration.
  rewrite lookup_insert_ne, lookup_singleton_ne by congruence. reflexivity.
Qed.

Lemma understand_input_confirms (text : string) (s : Sys) :
  any_word_in confirmation_words (lower E text) = true ->
  truthy (pending_of s) = true ->
  understand_input (initial_state text) s =
    (Ok (set_entities (set_intent (initial_state text) (VStr "confirm_action"))
           (pending_of s)), s).
Proof.
  intros Hword Hpending. unfold understand_input, confirmed_action. run.
  cbn [user_input initial_state]. rewrite Hword, get_pending_action_spec, Hpending.
  reflexivity.
Qed.

(** X27. A whole confirmation turn.  In a session the engine can reach,
    let the most recent pending action be a staged [create_product] whose
    record is valid and has a fresh id, and let the products file be one
    that can be opened for writing.  Then any text with a confirmation
    keyword, also one that has a cancellation keyword as well, makes the
    turn save the database with the record appended, without a call to
    the classifier; the pending list is empty afterwards and two messages
    are logged.  When
    [json.dump] takes that database the response reports the success and
    the catalog is the old one followed by the record.  When it raises,
    the response reports that the product could not be saved, and the
    products file is lost: the catalog reads back empty. *)
Theorem confirmation_turn_creates_product (text : string) (s : Sys)
    (data id : value) (records : list value) :
  reachable s ->
  any_word_in confirmation_words (lower E text) = true ->
  pending_of s = staged_action "create_product" data ->
  validate_product_data data = Ok (true, []) ->
  catalog (world s) = Some records ->
  py_get data "id" = Ok id ->
  any_with_id records id = Ok false ->
  PRODUCTS_DB ∉ locked (world s) ->
  exists db',
    setdefault_append (loaded PRODUCTS_DB (world s)) "products" data = Ok db' /\
    (json_dump_raises E db' = false ->
     exists response s',
       process_message text s = (Ok response, s') /\
       str_in "successfully created the product" response = true /\
       catalog (world s') = Some (records ++ [data])%list /\
       stack s' = [] /\
       length (log s') = S (S (length (log s))) /\
       calls (world s') = calls (world s)) /\
    (json_dump_raises E db' = true ->
     exists response s',
       process_message text s = (Ok response, s') /\
       str_in "couldn't create the product: Failed to save" response = true /\
       catalog (world s') = Some [] /\
       disk s' = delete PRODUCTS_DB (disk s) /\
       stack s' = [] /\
       length (log s') = S (S (length (log s))) /\
       calls (world s') = calls (world s)).
Proof.
  intros Hreach Hword Hstaged Hvalid Hcatalog Hid Hfresh Hfree.
  destruct (reachable_counter s Hreach) as [n Hn].
  set (s0 := logged "user" text n s).
  assert (pending_of s0 = staged_action "create_product" data) as Hstaged0
    by exact Hstaged.
  assert (py_get (pending_of s0) "action" = Ok (VStr "create_product") /\
          py_get (pending_of s0) "data" = Ok data) as [Haction Hdata]
    by (rewrite Hstaged0; split; reflexivity).
  pose proof (py_get_str_truthy _ _ _ Haction) as Hpending.
  assert (catalog (world s0) = Some records) as Hcatalog0 by exact Hcatalog.
  destruct (create_product_appends s0 data id records Hvalid Hcatalog0 Hid Hfresh)
    as (db' & Happend & Hcat & Hcall).
  change (locked (world s0)) with (locked (world s)) in Hcall.
  rewrite bool_decide_eq_false_2 in Hcall by exact Hfree.
  set (state2 := set_validation_errors
                   (set_entities (set_intent (initial_state text)
                                    (VStr "confirm_action")) (pending_of s0)) []).
  assert (forall response s1,
            execute_confirmation_node state2 s0 =
              (Ok (set_agent_response state2 response), cleared s1) ->
            memory s1 = memory s0 ->
            process_message text s =
              (Ok response, logged "assistant" response (n + 1) (cleared s1)))
    as Hturn.
  { intros response s1 Hexec Hmemory.
    assert (invoke (initial_state text) s0 =
              (Ok (set_agent_response state2 response), cleared s1)) as Hinvoke.
    { unfold invoke. run.
      rewrite (understand_input_confirms text s0 Hword Hpending).
      unfold validate_input. run.
      cbn [entities set_entities set_intent]. subst state2.
      rewrite Hstaged0 in Hexec |- *.
      rewrite !check_enumerated_staged by discriminate. cbn [app].
      rewrite node_of_confirmation by reflexivity. exact Hexec. }
    assert (counter (cleared s1) = Some (VNum (n + 1))) as Hcount.
    { unfold counter, cleared. cbn [memory context]. rewrite Hmemory.
      unfold s0. cbn [logged memory context]. apply lookup_insert_eq. }
    unfold process_message, try_except. run.
    rewrite (add_message_counted "user" text n s Hn). fold s0.
    rewrite Hinvoke. cbn [agent_response set_agent_response].
    rewrite (add_message_counted "assistant" response (n + 1) _ Hcount).
    reflexivity. }
  exists db'. split; [exact Happend|]. split.
  - intros Hdumps. rewrite Hdumps in Hcall.
    destruct (execute_create_product_succeeds state2 s0 _ data _ _ Haction Hdata
                Hcall) as (response & Hexec & Hsays).
    exists response, (logged "assistant" response (n + 1)
                        (cleared (written PRODUCTS_DB db' s0))).
    split; [exact (Hturn response _ Hexec eq_refl)|]. split; [exact Hsays|].
    split; [exact Hcat|]. split; [reflexivity|]. split; [|reflexivity].
    unfold log, s0. cbn [logged cleared written memory messages].
    rewrite !length_app. cbn [length]. lia.
  - intros Hraises. rewrite Hraises in Hcall.
    destruct (execute_create_product_fails state2 s0 _ data _ _ Haction Hdata
                Hcall) as (response & Hexec & Hsays).
    exists response, (logged "assistant" response (n + 1)
                        (cleared (torn PRODUCTS_DB s0))).
    split; [exact (Hturn response _ Hexec eq_refl)|]. split; [exact Hsays|].
    split; [apply (torn_catalog s0)|]. split; [reflexivity|].
    split; [reflexivity|]. split; [|reflexivity].
    unfold log, s0. cbn [logged cleared torn memory messages].
    rewrite !length_app. cbn [length]. lia.
Qed.



End Engine.

(** * The properties on concrete sessions *)

(** C1 at a concrete session: the staged widget is confirmed, the store
    call returns, and the pending list is cleared. *)
Lemma confirmation_clears_pending_witness :
  exists response s1,
    execute_confirmation_node offline_env (initial_state "yes") staged_session =
      (Ok (set_agent_response (initial_state "yes") response), cleared s1).
Proof.
  destruct (confirmation_clears_pending offline_env (initial_state "yes")
              staged_session widget eq_refl) as [Hcreate _].
  destruct (Hcreate eq_refl true "Product created successfully" []
              (create_product offline_env widget staged_session).2 eq_refl)
    as [response Hrun].
  exists response. eexists. exact Hrun.
Defined.



(** C3 on the staged session: the turn "yes" is understood as a
    confirmation of the staged action. *)
Lemma understand_confirmation_witness :
  understand_input offline_env (initial_state "yes") staged_session =
    (Ok (set_entities (set_intent (initial_state "yes") (VStr "confirm_action"))
           staged_widget),
     staged_session).
Proof.
  apply (understand_confirmation offline_env (initial_state "yes") staged_session);
    reflexivity.
Defined.

(** C3 as stated fails: the entities are the pending action itself, which
    is not its payload. *)
Lemma confirmation_entities_counterexample :
  exists state',
    understand_input offline_env (initial_state "yes") staged_session =
      (Ok state', staged_session) /\
    py_get (pending_of staged_session) "data" = Ok widget /\
    entities state' = staged_widget /\
    entities state' <> widget.
Proof.
  eexists. split; [reflexivity|]. split; [reflexivity|]. split; [reflexivity|].
  intros Heq. apply (f_equal (fun v => py_get v "action")) in Heq.
  vm_compute in Heq. discriminate.
Qed.

(** C4 on a concrete state: [create_sale] goes to the sales handler. *)
Lemma route_to_agent_total_witness :
  route_to_agent (set_intent (initial_state "new sale") (VStr "create_sale")) =
    "sales_agent".
Proof.
  destruct (route_to_agent_total offline_env
              (set_intent (initial_state "new sale") (VStr "create_sale")))
    as (_ & Htable & _).
  destruct (Htable eq_refl) as (_ & Hsales & _).
  apply (Hsales "create_sale"); [repeat constructor | reflexivity].
Defined.

(** C5 on a concrete invocation: the entities lack the product name, the
    pending list stays empty and the response names the error. *)
Lemma failed_validation_stages_nothing_witness :
  let state := set_entities (set_intent (initial_state "create product")
                               (VStr "create_product")) nameless_entities in
  exists response,
    product_agent_node offline_env state new_session =
      (Ok (set_agent_response state response), new_session) /\
    str_in "Product name is required" response = true.
Proof.
  intros state.
  destruct (failed_validation_stages_nothing offline_env state new_session)
    as (Hproduct & _).
  destruct (Hproduct
              (VDict {[ "id" := VStr "p9"; "name" := VNone; "category" := VStr "Home";
                        "brand" := VNone; "description" := VStr "";
                        "rating" := VNum 0; "company_id" := VStr "comp_001";
                        "variants" := VList [] ]})
              ["Product name is required"] eq_refl eq_refl eq_refl)
    as [Hrun Hlisted].
  eexists. split; [exact Hrun|].
  apply Forall_cons in Hlisted as [Hname _]. exact Hname.
Defined.

(** C6 on the staged session: the catalog was empty and holds the widget
    after the confirmation. *)
Lemma confirm_create_product_witness :
  exists state' s',
    execute_confirmation_node offline_env (initial_state "yes") staged_session =
      (Ok state', s') /\
    pending_actions (memory s') = [] /\
    catalog (world s') = Some [widget].
Proof.
  destruct (confirm_create_product offline_env (initial_state "yes") staged_session
              widget (VStr "p9") [] eq_refl eq_refl eq_refl eq_refl eq_refl eq_refl)
    as (db' & state' & s' & _ & Hrun & Hstack & Hsaved & _).
  exists state', s'. split; [exact Hrun|]. split; [exact Hstack|].
  apply Hsaved; [vm_compute; set_solver | reflexivity].
Defined.

(** C6 as stated fails when the save fails: the widget is valid and its
    id is new, the products file cannot be opened for writing, and after
    the confirmation the pending list is empty but the catalog holds no
    new record. *)
Lemma confirm_create_product_counterexample :
  validate_product_data widget = Ok (true, []) /\
  catalog (world locked_session) = Some [] /\
  any_with_id [] (VStr "p9") = Ok false /\
  exists state' s',
    execute_confirmation_node offline_env (initial_state "yes") locked_session =
      (Ok state', s') /\
    pending_actions (memory s') = [] /\
    catalog (world s') = Some [] /\
    catalog (world s') <> Some [widget].
Proof.
  split; [reflexivity|]. split; [reflexivity|]. split; [reflexivity|].
  eexists. eexists. split; [reflexivity|]. split; [reflexivity|].
  split; [reflexivity|]. vm_compute. discriminate.
Qed.

(** C8 on a new session. *)
Lemma session_memory_schema_invariant_witness :
  schema_ok (memory new_session) /\
  schema_ok (memory (add_message offline_env "user" "hello" new_session).2).
Proof.
  destruct (session_memory_schema_invariant offline_env) as (_ & Hinv & _).
  assert (schema_ok (memory new_session)) as Hok.
  { unfold schema_ok, context_schema.
    repeat (apply Forall_cons; split; [eexists; reflexivity|]). apply Forall_nil.
    exact I. }
  split; [exact Hok|].
  destruct (Hinv new_session Hok) as (Hadd & _). apply Hadd.
Defined.

(** C9 on a concrete text: "create product" is classified
    [search_product]. *)
Lemma fallback_never_creates_witness :
  fallback_intent offline_env "create product" = "search_product".
Proof.
  destruct (fallback_never_creates offline_env "create product")
    as (_ & _ & _ & Hproduct & _).
  apply Hproduct. reflexivity.
Defined.

(** C9 as stated fails: "find sale" contains "sale" and is classified
    [search_product], not [search_sales]. *)
Lemma fallback_sale_counterexample :
  str_in "sale" (lower offline_env "find sale") = true /\
  fallback_intent offline_env "find sale" = "search_product" /\
  fallback_intent offline_env "find sale" <> "search_sales".
Proof.
  split; [reflexivity|]. split; [reflexivity|]. vm_compute. discriminate.
Qed.

(** C10 on concrete sessions.  "my notebook" contains "no" (and also "ok"):
    on a new session, with nothing pending, it is a cancellation.  "no
    thanks" on the staged session discards the staged action. *)
Lemma cancellation_word_turn_witness :
  str_in "no" (lower offline_env "my notebook") = true /\
  (process_message offline_env "my notebook" new_session).1 =
    Ok "No problem! I've cancelled that action. What else can I help you with?" /\
  (process_message offline_env "no thanks" staged_session).1 =
    Ok "No problem! I've cancelled that action. What else can I help you with?" /\
  pending_actions (memory (process_message offline_env "no thanks" staged_session).2)
    = [].
Proof.
  split; [reflexivity|].
  destruct (cancellation_word_turn offline_env "my notebook" new_session 0
              eq_refl (or_intror eq_refl) eq_refl) as (_ & s' & Hrun & _).
  destruct (cancellation_word_turn offline_env "no thanks" staged_session 0
              eq_refl (or_introl eq_refl) eq_refl) as (_ & s'' & Hrun' & Hstack & _).
  rewrite Hrun, Hrun'. split; [reflexivity|]. split; [reflexivity | exact Hstack].
Defined.

(** * The further properties on concrete sessions *)

(** X1 on a session with two messages: the last one is returned. *)
Lemma get_recent_messages_suffix_witness :
  exists older recent,
    get_recent_messages 1 chatted_session = (Ok recent, chatted_session) /\
    messages (memory chatted_session) = (older ++ recent)%list /\
    length recent = 1%nat.
Proof.
  destruct (get_recent_messages_suffix 1 chatted_session)
    as (older & recent & Hrun & Hsplit & Hlast & _).
  exists older, recent. split; [exact Hrun|]. split; [exact Hsplit|].
  exact (Hlast eq_refl).
Defined.

(** X2 on a new session: a known preference is set. *)
Lemma update_user_preferences_known_only_witness :
  exists prefs',
    (update_user_preferences "price_range" (VNum 5) new_session).1 = Ok tt /\
    context (memory (update_user_preferences "price_range" (VNum 5) new_session).2)
      !! "user_preferences" = Some (VDict prefs') /\
    prefs' !! "price_range" = Some (VNum 5).
Proof.
  destruct (update_user_preferences_known_only "price_range" (VNum 5) new_session
              {[ "price_range" := VNone; "preferred_categories" := VList [];
                 "preferred_brands" := VList [] ]} eq_refl)
    as (prefs' & Hrun & Hprefs & _ & Hset & _).
  exists prefs'. split; [exact Hrun|]. split; [exact Hprefs|].
  apply Hset. eexists. reflexivity.
Defined.

(** X3 on the widget: it is accepted with no error. *)
Lemma validate_product_data_report_witness :
  exists errors,
    validate_product_data widget = Ok (true, errors) /\ errors = [].
Proof.
  destruct (validate_product_data_report widget (VStr "p9") (VStr "Widget")
              (VStr "Home") eq_refl eq_refl eq_refl)
    as (errors & Hrun & Hnone & _).
  exists errors. split; [exact Hrun|]. apply Hnone. reflexivity.
Defined.

(** X4 on a paid sale: it is accepted with no error. *)
Lemma validate_sale_data_report_witness :
  exists errors,
    validate_sale_data paid_sale = Ok (true, errors) /\ errors = [].
Proof.
  destruct (validate_sale_data_report paid_sale (VStr "s1") (VStr "c1") (VNum 100)
              (VStr "PAID") eq_refl eq_refl eq_refl eq_refl)
    as (_ & Hreturns & _).
  destruct (Hreturns false eq_refl) as (errors & Hrun & Hnone & _).
  exists errors. split; [exact Hrun|]. apply Hnone. reflexivity.
Defined.

(** X5 on the stocked session: what is saved is what is loaded, and a
    save in which [json.dump] raises loses the catalog. *)
Lemma save_json_load_json_witness :
  (save_json offline_env "products.json" widget stocked_session =
     (Ok true, written "products.json" widget stocked_session) /\
   load_json "products.json" (written "products.json" widget stocked_session) =
     (Ok widget, written "products.json" widget stocked_session)) /\
  (save_json brittle_env "products.json" widget stocked_session =
     (Ok false, torn "products.json" stocked_session) /\
   store_records "products.json" "products"
     (world (torn "products.json" stocked_session)) = Some []).
Proof.
  split.
  - destruct (save_json_load_json offline_env "products.json" widget stocked_session)
      as (_ & _ & _ & Hsaved & _).
    apply Hsaved; [vm_compute; set_solver | reflexivity].
  - destruct (save_json_load_json brittle_env "products.json" widget stocked_session)
      as (_ & _ & Hlost & _).
    destruct Hlost as (Hsave & _ & Hrecords); [vm_compute; set_solver | reflexivity|].
    split; [exact Hsave | apply Hrecords].
Defined.

(** X6 on the stocked session: the widget is found by its id. *)
Lemma get_by_id_first_match_witness :
  get_product_by_id (VStr "p9") stocked_session = (Ok widget, stocked_session).
Proof.
  destruct (get_by_id_first_match (VStr "p9") stocked_session) as [Hproducts _].
  exact (Hproducts [widget] eq_refl).
Defined.

(** X7 on a new session: the widget is created and then found. *)
Lemma create_product_then_get_witness :
  exists s1,
    create_product offline_env widget new_session =
      (Ok (true, "Product created successfully", []), s1) /\
    get_product_by_id (VStr "p9") s1 = (Ok widget, s1).
Proof.
  destruct (create_product_then_get offline_env new_session widget (VStr "p9") _ []
              eq_refl eq_refl eq_refl eq_refl eq_refl eq_refl)
    as (Hcreate & Hget & _); [vm_compute; set_solver | reflexivity|].
  eexists. split; [exact Hcreate | exact Hget].
Defined.

(** X8 on the stocked session: with a working [json.dump] the gadget is
    appended; when it raises the widget is lost with the file. *)
Lemma create_product_outcomes_witness :
  catalog (world (create_product offline_env gadget stocked_session).2) =
    Some [widget; gadget] /\
  catalog (world (create_product brittle_env gadget stocked_session).2) = Some [].
Proof.
  split.
  - destruct (create_product_outcomes offline_env gadget stocked_session [widget]
                eq_refl) as (_ & Hsuccess & _).
    exact (Hsuccess "Product created successfully" [] eq_refl).
  - destruct (create_product_outcomes brittle_env gadget stocked_session [widget]
                eq_refl) as (Hways & _).
    destruct Hways as [[Hsame Hnot] | [(db' & Hdumps & _) | (db' & _ & Hcall & _ & Hlost)]].
    + exfalso. apply (f_equal (fun s => files (world s) !! "products.json")) in Hsame.
      vm_compute in Hsame. discriminate.
    + discriminate Hdumps.
    + rewrite Hcall. exact Hlost.
Defined.

(** X9 on a catalog without the id: nothing is updated. *)
Lemma update_first_only_first_witness :
  update_first offline_env [widget] (VStr "zz") (VDict ∅) = Ok None.
Proof.
  destruct (update_first_only_first offline_env [widget] (VStr "zz") (VDict ∅))
    as [Hmissing _].
  exact (Hmissing eq_refl).
Defined.

(** X10 on the stocked session: the widget is renamed in the store. *)
Lemma update_in_store_witness :
  (update_product offline_env (VStr "p9") (VDict {[ "name" := VStr "Gadget" ]})
     stocked_session).1 = Ok (true, "Product updated successfully").
Proof.
  destruct (update_in_store offline_env (VStr "p9")
              (VDict {[ "name" := VStr "Gadget" ]}) stocked_session)
    as [Hproducts _].
  destruct (Hproducts [widget] eq_refl) as [_ Hfound].
  rewrite (Hfound _ eq_refl). reflexivity.
Defined.

(** X11 on the stocked session: a sale with an id in use is appended. *)
Lemma create_sale_always_appends_witness :
  exists stamped s1,
    create_sale offline_env paid_sale stocked_session =
      (Ok (true, "Sale created successfully", []), s1) /\
    store_records "sales.json" "sales" (world s1) = Some [paid_sale; stamped].
Proof.
  destruct (create_sale_always_appends offline_env stocked_session paid_sale
              [paid_sale] eq_refl eq_refl)
    as (stamped & db' & _ & _ & _ & _ & Hcall & _ & Hstore & _).
  exists stamped. eexists. split; [exact Hcall | exact Hstore].
Defined.

(** X12 on a new session: the sale is created and then found, stamped. *)
Lemma create_sale_then_get_witness :
  exists stamped,
    py_get stamped "created_at" = Ok (VStr "2025-01-01T00:00:00") /\
    (get_sale_by_id (VStr "s1")
       (create_sale offline_env paid_sale new_session).2).1 = Ok stamped.
Proof.
  destruct (create_sale_then_get offline_env new_session paid_sale (VStr "s1") []
              eq_refl eq_refl eq_refl)
    as (stamped & db' & Hstamp & _ & Hsaved).
  destruct Hsaved as (_ & _ & Hfresh); [vm_compute; set_solver | reflexivity|].
  exists stamped. split; [|exact (Hfresh eq_refl eq_refl)].
  injection Hstamp as <-. reflexivity.
Defined.

(** X13 on the stocked session: the sales of one customer. *)
Lemma search_sales_filters_witness :
  search_sales (VStr "c1") VNone stocked_session = (Ok [paid_sale], stocked_session).
Proof.
  destruct (search_sales_filters (VStr "c1") VNone stocked_session [paid_sale]
              eq_refl) as [Hrun _].
  exact Hrun.
Defined.

(** X14 on the stocked session: an unknown category lists nothing. *)
Lemma list_products_by_category_filters_witness :
  list_products_by_category (VStr "Toys") stocked_session = (Ok [], stocked_session).
Proof.
  destruct (list_products_by_category_filters (VStr "Toys") stocked_session)
    as [Hout _].
  exact (Hout eq_refl).
Defined.

(** X15 on the stocked session: the vendor is found whatever the case of
    the query. *)
Lemma search_vendors_filters_witness :
  search_vendors offline_env (VStr "ACME") stocked_session =
    (Ok [acme], stocked_session).
Proof.
  destruct (search_vendors_filters offline_env (VStr "ACME") stocked_session [acme]
              eq_refl) as [Htext _].
  destruct (Htext "ACME" eq_refl) as [Hrun _].
  exact Hrun.
Defined.

(** X16 on a request with an unknown category: it is routed to the error
    node. *)
Lemma validate_input_routes_errors_witness :
  let state := set_entities (set_intent (initial_state "add a toy")
                               (VStr "create_product"))
                 (VDict {[ "category" := VStr "Toys" ]}) in
  let state' :=
    set_validation_errors state
      ["Invalid category. Choose from: Electronics, Grocery, Fashion, Home, Sports"] in
  validate_input state new_session = (Ok state', new_session) /\
  node_of offline_env (route_to_agent state') =
    Some handle_validation_errors_node.
Proof.
  intros state state'.
  destruct (validate_input_routes_errors offline_env state new_session
              {[ "category" := VStr "Toys" ]} eq_refl)
    as (Hrun & Hbad & _).
  split; [exact Hrun|].
  destruct (Hbad eq_refl) as [Hroute _]. exact Hroute.
Defined.

(** X17 on a new session: the widget is staged. *)
Lemma product_agent_node_stages_witness :
  let state := set_entities (set_intent (initial_state "add widget")
                               (VStr "create_product")) (VDict widget_entities) in
  exists response,
    product_agent_node offline_env state new_session =
      (Ok (set_pending_confirmation (set_agent_response state response) widget),
       staged_session).
Proof.
  intros state.
  destruct (product_agent_node_stages offline_env state new_session widget []
              eq_refl eq_refl eq_refl) as [(response & Hrun & _) _].
  exists response. exact Hrun.
Defined.

(** X18 on a new session: the requested sale is staged under the id built
    from the clock. *)
Lemma sales_agent_node_stages_witness :
  let state := set_entities (set_intent (initial_state "new sale")
                               (VStr "create_sale")) (VDict sale_entities) in
  exists state' s',
    sales_agent_node offline_env state new_session = (Ok state', s') /\
    pending_of s' = staged_action "create_sale" requested_sale.
Proof.
  intros state.
  destruct (sales_agent_node_stages offline_env state new_session requested_sale []
              eq_refl eq_refl eq_refl)
    as (response & s' & Hrun & _ & _ & Hpending & _).
  eexists _, s'. split; [exact Hrun | exact Hpending].
Defined.

(** X19 on a new session: the requested sale is staged, confirmed and
    stored. *)
Lemma staged_sale_confirmed_witness :
  let state := set_entities (set_intent (initial_state "new sale")
                               (VStr "create_sale")) (VDict sale_entities) in
  exists state1 s1 state2 s2 stamped,
    sales_agent_node offline_env state new_session = (Ok state1, s1) /\
    execute_confirmation_node offline_env state1 s1 = (Ok state2, s2) /\
    stack s2 = [] /\
    store_records "sales.json" "sales" (world s2) = Some [stamped].
Proof.
  intros state.
  destruct (staged_sale_confirmed offline_env state new_session requested_sale [] []
              eq_refl eq_refl eq_refl eq_refl)
    as (state1 & s1 & state2 & s2 & stamped & db' & Hstage & Hconfirm & Hstack & _ &
        _ & Hsaved & _).
  exists state1, s1, state2, s2, stamped.
  split; [exact Hstage|]. split; [exact Hconfirm|]. split; [exact Hstack|].
  apply Hsaved; [vm_compute; set_solver | reflexivity].
Defined.

(** X20 on the stocked session: a second widget is staged, and refused
    only by the confirmation. *)
Lemma staged_product_confirmed_witness :
  let state := set_entities (set_intent (initial_state "add widget")
                               (VStr "create_product")) (VDict widget_entities) in
  exists state1 s1 state2 s2,
    product_agent_node offline_env state stocked_session = (Ok state1, s1) /\
    pending_of s1 = staged_action "create_product" widget /\
    execute_confirmation_node offline_env state1 s1 = (Ok state2, s2) /\
    stack s2 = [] /\
    disk s2 = disk stocked_session.
Proof.
  intros state.
  destruct (staged_product_confirmed offline_env state stocked_session widget
              (VStr "p9") [] [widget] eq_refl eq_refl eq_refl eq_refl eq_refl)
    as (state1 & s1 & Hstage & Hpending & _ & _ & Hused).
  destruct (Hused eq_refl) as (state2 & s2 & Hconfirm & Hstack & Hdisk).
  exists state1, s1, state2, s2.
  split; [exact Hstage|]. split; [exact Hpending|]. split; [exact Hconfirm|].
  split; [exact Hstack | exact Hdisk].
Defined.

(** X21 on a recommendation request: the analytics handler returns the
    state it was given. *)
Lemma unhandled_intents_fall_through_witness :
  let state := set_intent (initial_state "what do you recommend")
                 (VStr "get_recommendations") in
  analytics_agent_node offline_env state new_session = (Ok state, new_session).
Proof.
  intros state.
  destruct (unhandled_intents_fall_through offline_env state new_session eq_refl)
    as [Hrecommend _].
  destruct (Hrecommend eq_refl) as [_ Hrun]. exact Hrun.
Defined.

(** X22 after a request for the widget: what is pending is validated. *)
Lemma reachable_pending_validated_witness :
  let s := (process_message assisted_env "add widget"
              (SessionMemory_init assisted_env empty_world)).2 in
  Forall (validated_action) (stack s) /\
  py_get (pending_of s) "action" = Ok (VStr "create_product").
Proof.
  intros s.
  destruct (reachable_pending_validated assisted_env s
              (reachable_turn assisted_env "add widget" _
                 (reachable_init assisted_env empty_world)))
    as [Hall _].
  split; [exact Hall | reflexivity].
Defined.

(** X23 on a new session: the turn "hello" returns. *)
Lemma reachable_turn_returns_witness :
  exists response,
    (process_message offline_env "hello"
       (SessionMemory_init offline_env empty_world)).1 = Ok response.
Proof.
  destruct (reachable_turn_returns offline_env "hello"
              (SessionMemory_init offline_env empty_world)
              (reachable_init offline_env empty_world))
    as (response & Hrun & _).
  exists response. exact Hrun.
Defined.

(** X24 after the turn "hello": two messages, and the counter is two. *)
Lemma reachable_counter_counts_witness :
  counter (process_message offline_env "hello"
             (SessionMemory_init offline_env empty_world)).2 = Some (VNum 2).
Proof.
  exact (reachable_counter_counts offline_env _
           (reachable_turn offline_env "hello" _
              (reachable_init offline_env empty_world))).
Defined.

(** X25 with the classifier down: a request to create a product stages
    nothing. *)
Lemma offline_turn_stages_nothing_witness :
  stack (process_message offline_env "create a product" new_session).2 = [] /\
  disk (process_message offline_env "create a product" new_session).2 =
    disk new_session.
Proof.
  destruct (offline_turn_stages_nothing offline_env "create a product" new_session
              (fun _ _ _ => eq_refl)) as [_ Hnone].
  exact (Hnone eq_refl).
Defined.

(** X26 after the turn "hello": no last product id. *)
Lemma reachable_context_untouched_witness :
  slot "last_product_id"
    (process_message offline_env "hello"
       (SessionMemory_init offline_env empty_world)).2 = Some VNone.
Proof.
  destruct (reachable_context_untouched offline_env _
              (reachable_turn offline_env "hello" _
                 (reachable_init offline_env empty_world)))
    as (_ & _ & Hid & _).
  exact Hid.
Defined.

(** X27 after a request for the widget: the turn "yes" creates it. *)
Lemma confirmation_turn_creates_product_witness :
  let s := (process_message assisted_env "add widget"
              (SessionMemory_init assisted_env empty_world)).2 in
  exists response s',
    process_message assisted_env "yes" s = (Ok response, s') /\
    catalog (world s') = Some [widget] /\
    stack s' = [].
Proof.
  intros s.
  destruct (confirmation_turn_creates_product assisted_env "yes" s widget
              (VStr "p9") []
              (reachable_turn assisted_env "add widget" _
                 (reachable_init assisted_env empty_world))
              eq_refl eq_refl eq_refl eq_refl eq_refl eq_refl)
    as (db' & _ & Hsaved & _); [vm_compute; set_solver|].
  destruct (Hsaved eq_refl) as (response & s' & Hrun & _ & Hcatalog & Hstack & _).
  exists response, s'. split; [exact Hrun|]. split; [exact Hcatalog | exact Hstack].
Defined.

